(** * auto2cmake: a shallow embedding of the Autotools-to-CMake converter

    The development follows [auto2cmake.py]: the Python string primitives the
    script relies on, the classes [Option], [Library] and [CMakeFile], the
    entries of [temp_defines], [process_configure_ac] with its macro
    handlers and its two merges, [process_makefile_am], and the generation
    phase of [convert] ([process_libraries], the top-level file, the
    directory files and the fallback of [generate_default_cmake]).

    Python [str] values are modelled as [string]; the text is taken to be
    ASCII, so [upper], [isspace], [isalpha] and [isdigit] are the ASCII
    versions ([ascii_text] is the condition, and a property that needs it
    says so).  Dictionaries are insertion-ordered association lists, since
    the script iterates over them and the order shows in the output.  A
    Python exception (an [IndexError], a [TypeError], the [OSError] of an
    [open] that fails) is the result [None].
    The global variables of the script are the record [Globals], passed
    from one function to the next; what is printed is returned as a list of
    lines, and what is written to disk as a list of file operations.

    Left out: the directory walk of the quick mode
    ([convert_sourcetree_to_cmake]; [create_cmakefile] and [moc_header]
    are embedded), the qmake stub and the command line.
    The part of [process_libraries] that renders compile flags, include
    directories and link libraries reads the state without changing it and
    is a parameter ([TargetSettings]) of the generation phase;
    [target_settings] is the one the script computes. *)

From Stdlib Require Import Ascii String List Bool Arith Lia ZArith QArith.QArith_base.
From stdpp Require Import base list strings sorting.

Local Close Scope Q_scope.
Local Open Scope list_scope.

(** ** Python string primitives *)

Module Py.

Definition chars (s : string) : list ascii := list_ascii_of_string s.
Definition text (l : list ascii) : string := string_of_list_ascii l.

Definition nl : string := String (ascii_of_nat 10) EmptyString.
Definition tab_char : ascii := ascii_of_nat 9.
Definition dquote_char : ascii := ascii_of_nat 34.
Definition dquote : string := String dquote_char EmptyString.
Definition backslash_char : ascii := ascii_of_nat 92.
Definition backslash : string := String backslash_char EmptyString.

(** [c.isspace()] on an ASCII character: TAB..CR, FS..US and the blank. *)
Definition isspace (c : ascii) : bool :=
  let n := nat_of_ascii c in
  ((9 <=? n) && (n <=? 13)) || ((28 <=? n) && (n <=? 32)).

Definition isdigit (c : ascii) : bool :=
  let n := nat_of_ascii c in (48 <=? n) && (n <=? 57).

Definition isalpha (c : ascii) : bool :=
  let n := nat_of_ascii c in
  ((65 <=? n) && (n <=? 90)) || ((97 <=? n) && (n <=? 122)).

Definition upper_char (c : ascii) : ascii :=
  let n := nat_of_ascii c in
  if (97 <=? n) && (n <=? 122) then ascii_of_nat (n - 32) else c.

Definition upper (s : string) : string := text (map upper_char (chars s)).

(** [s.strip()]: blanks removed at both ends. *)
Fixpoint lstrip_chars (l : list ascii) : list ascii :=
  match l with
  | [] => []
  | c :: l' => if isspace c then lstrip_chars l' else l
  end.

Fixpoint rstrip_chars (l : list ascii) : list ascii :=
  match l with
  | [] => []
  | c :: l' =>
      match rstrip_chars l' with
      | [] => if isspace c then [] else [c]
      | r => c :: r
      end
  end.

Definition strip (s : string) : string :=
  text (rstrip_chars (lstrip_chars (chars s))).

(** [l.startswith(p)] on character lists. *)
Fixpoint prefix_chars (p l : list ascii) : bool :=
  match p, l with
  | [], _ => true
  | _ :: _, [] => false
  | a :: p', b :: l' => if decide (a = b) then prefix_chars p' l' else false
  end.

Definition startswith (s p : string) : bool := prefix_chars (chars p) (chars s).

Definition endswith (s p : string) : bool :=
  prefix_chars (rev (chars p)) (rev (chars s)).

(** [p in s], which is also [s.find(p) != -1]. *)
Fixpoint infix_chars (p l : list ascii) : bool :=
  prefix_chars p l ||
  match l with
  | [] => false
  | _ :: l' => infix_chars p l'
  end.

Definition contains (s p : string) : bool := infix_chars (chars p) (chars s).

Definition has_char (s : string) (c : ascii) : bool :=
  existsb (fun x => if decide (x = c) then true else false) (chars s).

(** [s.replace(c, new)] for a one-character [c]. *)
Definition replace_char (c : ascii) (new : string) (s : string) : string :=
  text (flat_map (fun x => if decide (x = c) then chars new else [x]) (chars s)).

Definition remove_char (c : ascii) (s : string) : string :=
  replace_char c EmptyString s.

(** [s.replace(old, new, 1)] for a non-empty [old]: the first occurrence. *)
Fixpoint replace_first_chars (old new l : list ascii) : list ascii :=
  match l with
  | [] => []
  | c :: l' =>
      if prefix_chars old l then new ++ drop (length old) l
      else c :: replace_first_chars old new l'
  end.

Definition replace_first (old new s : string) : string :=
  match chars old with
  | [] => new +:+ s
  | o => text (replace_first_chars o (chars new) (chars s))
  end.

(** [s.split()]: the maximal runs of non-blank characters. *)
Fixpoint split_ws_go (cur : list ascii) (l : list ascii) : list string :=
  match l with
  | [] => match cur with [] => [] | _ => [text (rev cur)] end
  | c :: l' =>
      if isspace c
      then match cur with
           | [] => split_ws_go [] l'
           | _ => text (rev cur) :: split_ws_go [] l'
           end
      else split_ws_go (c :: cur) l'
  end.

Definition split (s : string) : list string := split_ws_go [] (chars s).

(** [s.split(c)] for a one-character separator: the result is never empty. *)
Fixpoint split_char_go (c : ascii) (cur : list ascii) (l : list ascii) : list string :=
  match l with
  | [] => [text (rev cur)]
  | x :: l' =>
      if decide (x = c) then text (rev cur) :: split_char_go c [] l'
      else split_char_go c (x :: cur) l'
  end.

Definition split_on (c : ascii) (s : string) : list string :=
  split_char_go c [] (chars s).

(** [s.split(sep)] for the two-character separator [a b]. *)
Fixpoint split_pair_go (a b : ascii) (cur : list ascii) (l : list ascii) : list string :=
  match l with
  | [] => [text (rev cur)]
  | x :: l' =>
      match l' with
      | y :: l'' =>
          if bool_decide (x = a) && bool_decide (y = b)
          then text (rev cur) :: split_pair_go a b [] l''
          else split_pair_go a b (x :: cur) l'
      | [] => split_pair_go a b (x :: cur) l'
      end
  end.

Definition split_on_pair (a b : ascii) (s : string) : list string :=
  split_pair_go a b [] (chars s).

(** [sep.join(items)] and [''.join(items)]. *)
Fixpoint join (sep : string) (items : list string) : string :=
  match items with
  | [] => EmptyString
  | [x] => x
  | x :: rest => x +:+ sep +:+ join sep rest
  end.

Definition concat_all (items : list string) : string :=
  fold_right String.append EmptyString items.

(** The slices [s[n:]] and [s[:-n]] (for [n > 0]). *)
Definition drop_front (n : nat) (s : string) : string := text (drop n (chars s)).
Definition drop_back (n : nat) (s : string) : string :=
  text (take (String.length s - n) (chars s)).

Definition spaces (n : nat) : string := text (repeat " "%char n).

Definition truthy (s : string) : bool :=
  match s with EmptyString => false | _ => true end.

Definition eqb (a b : string) : bool := bool_decide (a = b).

(** [sorted(l)] on strings: ascending in the code-point order. *)
Definition sorted (l : list string) : list string := merge_sort String.le l.

(** [sorted(l, key=...)]: a stable sort on the key. *)
Fixpoint insert_by {A} (key : A -> string) (x : A) (l : list A) : list A :=
  match l with
  | [] => [x]
  | y :: l' =>
      if String.leb (key x) (key y) then x :: l else y :: insert_by key x l'
  end.

Fixpoint sorted_by {A} (key : A -> string) (l : list A) : list A :=
  match l with
  | [] => []
  | x :: l' => insert_by key x (sorted_by key l')
  end.

End Py.

(** ** Insertion-ordered dictionaries *)

Module Dict.

Abbreviation t V := (list (string * V)).

Fixpoint get {V} (d : t V) (k : string) : option V :=
  match d with
  | [] => None
  | (k', v) :: d' => if decide (k' = k) then Some v else get d' k
  end.

Definition mem {V} (d : t V) (k : string) : bool :=
  match get d k with Some _ => true | None => false end.

(** [d[k] = v]: an existing key keeps its position, a new one goes last. *)
Fixpoint set {V} (d : t V) (k : string) (v : V) : t V :=
  match d with
  | [] => [(k, v)]
  | (k', v') :: d' =>
      if decide (k' = k) then (k', v) :: d' else (k', v') :: set d' k v
  end.

Definition keys {V} (d : t V) : list string := map fst d.
Definition values {V} (d : t V) : list V := map snd d.

End Dict.

(** ** A value that is a list of one-character strings or a [str]

    [Library.condition] and [Library.compiler_flags] start as the empty
    list; [+=] with a [str] extends a list by the characters of the string,
    and an assignment stores a [str]. *)

Inductive PyText : Type :=
| PyChars (l : list ascii)
| PyStr (s : string).

Module PyText.

(** [v += s] *)
Definition iadd (v : PyText) (s : string) : PyText :=
  match v with
  | PyChars l => PyChars (l ++ Py.chars s)
  | PyStr t => PyStr (t +:+ s)
  end.

(** [''.join(v)], also the loop [for c in v: acc += c]. *)
Definition join (v : PyText) : string :=
  match v with
  | PyChars l => Py.text l
  | PyStr s => s
  end.

Definition truthy (v : PyText) : bool :=
  match v with
  | PyChars [] => false
  | PyChars _ => true
  | PyStr s => Py.truthy s
  end.

(** [s == v] for a [str] [s]: a [str] never equals a list. *)
Definition eq_str (s : string) (v : PyText) : bool :=
  match v with
  | PyChars _ => false
  | PyStr t => Py.eqb s t
  end.

End PyText.

(** ** Settings fixed in the script *)

Definition upcase_identifiers : bool := true.
Definition generate_comments : bool := true.
Definition more_newlines : bool := true.

(** ** Helper functions *)

(** [remove_garbage] *)
Definition remove_garbage (extra_value : string) : string :=
  let v := Py.remove_char "]" extra_value in
  let v := Py.remove_char "," v in
  let v := Py.remove_char "[" v in
  let v := Py.remove_char "$" v in
  let v := Py.remove_char "(" v in
  let v := Py.remove_char ")" v in
  Py.strip v.

(** [replace_quotes] *)
Definition replace_quotes (a : string) : string :=
  Py.replace_char Py.dquote_char (Py.backslash +:+ Py.dquote) a.

(** Text within ASCII.  [str.isalpha], [str.isdigit], [str.isspace] and
    [str.upper] know all of Unicode; on text within ASCII they are the
    functions of [Py]. *)
Definition ascii_text (a : string) : bool :=
  forallb (fun c => Nat.ltb (nat_of_ascii c) 128) (Py.chars a).

(** [canonicalize], for text within ASCII (outside it the script keeps the
    letters and digits of other alphabets). *)
Definition canonicalize (a : string) : string :=
  Py.text (map (fun c => if Py.isdigit c || Py.isalpha c || bool_decide (c = "_"%char)
                         then c else "_"%char) (Py.chars a)).

(** [count_parentheses] *)
Definition count_parentheses (line : string) : Z :=
  fold_left (fun parco c =>
               let parco := if bool_decide (c = "("%char) then (parco + 1)%Z else parco in
               if bool_decide (c = ")"%char) then (parco - 1)%Z else parco)
            (Py.chars line) 0%Z.

(** [should_exclude] *)
Definition should_exclude (exclude_directories : list string) (dire : string) : bool :=
  existsb (fun exc_dir => Py.startswith dire exc_dir) exclude_directories.

(** ** The classes of the application *)

(** [class TargetType(Enum)] *)
Inductive TargetType : Type := LIBRARY | PROGRAM.

(** [class Option] *)
Module Option.

Record t : Type := mk {
  name : string;
  description : string;
  status : string;
  define : string;
  define_value : string;
  define_description : string;
  extra_defines : list string
}.

(** [Option.__init__] *)
Definition init (name description status define define_value define_description : string) : t :=
  let name := Py.replace_char "-" "_" name in
  let define_value := Py.remove_char "]" define_value in
  let define_value := Py.remove_char "," define_value in
  let define_value := Py.remove_char "[" define_value in
  {| name := if upcase_identifiers then Py.upper name else name;
     description := description;
     status := status;
     define := define;
     define_value := define_value;
     define_description := define_description;
     extra_defines := [] |}.

Definition set_name (o : t) (v : string) : t :=
  {| name := v; description := description o; status := status o;
     define := define o; define_value := define_value o;
     define_description := define_description o; extra_defines := extra_defines o |}.

Definition set_description (o : t) (v : string) : t :=
  {| name := name o; description := v; status := status o;
     define := define o; define_value := define_value o;
     define_description := define_description o; extra_defines := extra_defines o |}.

Definition set_status (o : t) (v : string) : t :=
  {| name := name o; description := description o; status := v;
     define := define o; define_value := define_value o;
     define_description := define_description o; extra_defines := extra_defines o |}.

Definition set_define (o : t) (v : string) : t :=
  {| name := name o; description := description o; status := status o;
     define := v; define_value := define_value o;
     define_description := define_description o; extra_defines := extra_defines o |}.

Definition set_define_value (o : t) (v : string) : t :=
  let v := if Py.has_char v "[" then Py.remove_char "[" (Py.remove_char "]" v) else v in
  {| name := name o; description := description o; status := status o;
     define := define o; define_value := v;
     define_description := define_description o; extra_defines := extra_defines o |}.

Definition set_define_description (o : t) (v : string) : t :=
  {| name := name o; description := description o; status := status o;
     define := define o; define_value := define_value o;
     define_description := v; extra_defines := extra_defines o |}.

Definition add_extra_define (o : t) (extra_define : string) : t :=
  {| name := name o; description := description o; status := status o;
     define := define o; define_value := define_value o;
     define_description := define_description o;
     extra_defines := extra_defines o ++ [extra_define] |}.

(** [Option.finalize] *)
Definition finalize (o : t) : t :=
  let o := if String.length (description o) <=? 1
           then set_description o ("Enable " +:+ name o) else o in
  let o := if String.length (status o) <=? 1 then set_status o "OFF" else o in
  if String.length (define_description o) <=? 1
  then set_define_description o (description o) else o.

End Option.

(** An entry of [temp_defines]: the dictionary with the keys [name],
    [option_name], [description], [value] and [used]. *)
Module Define.

Record t : Type := mk {
  name : string;
  option_name : string;
  description : string;
  value : string;
  used : nat
}.

Definition set_used (d : t) (u : nat) : t :=
  {| name := name d; option_name := option_name d;
     description := description d; value := value d; used := u |}.

End Define.

(** The list objects created for plain makefile variables are shared between
    [defined_variables], [Library.conditional_appends] and
    [Library.just_variables], and are appended to through the second; they
    live in a store and are named by their index. *)
Definition ref : Type := nat.
Definition Heap : Type := list (list string).

Definition heap_get (h : Heap) (r : ref) : list string :=
  match h !! r with Some l => l | None => [] end.

Definition heap_alloc (h : Heap) (l : list string) : Heap * ref :=
  (h ++ [l], length h).

Definition heap_append (h : Heap) (r : ref) (x : string) : Heap :=
  <[r := heap_get h r ++ [x]]> h.

(** [class Library] *)
Module Library.

Record t : Type := mk {
  name : string;
  dependant : bool;
  filelist : list string;
  condition : PyText;
  link_with_libs : list string;
  compiler_flags : PyText;
  linker_flags : list string;
  conditional_appends : Dict.t ref;
  just_variables : Dict.t (list ref);
  added_subdirectories : list string;
  target_type : TargetType;
  ttype : string;
  referred_name : string;
  canonic_name : string;
  directory : string;
  type : string
}.

(** [Library.__init__] *)
Definition init (name directory : string) : t :=
  let dependant := Py.has_char name "$" in
  let name' :=
    if dependant
    then Py.remove_char ")" (Py.remove_char "(" (Py.remove_char "$" name))
    else name in
  {| name := name';
     dependant := dependant;
     filelist := [];
     condition := PyChars [];
     link_with_libs := [];
     compiler_flags := PyChars [];
     linker_flags := [];
     conditional_appends := [];
     just_variables := [];
     added_subdirectories := [];
     target_type := LIBRARY;
     ttype := EmptyString;
     referred_name :=
       if negb dependant
       then if Py.endswith name' ".a"
            then Py.drop_back 2 (Py.drop_front 3 name')
            else Py.drop_back 3 (Py.drop_front 3 name')
       else name';
     canonic_name := canonicalize name';
     directory := directory;
     type :=
       if negb dependant
       then if Py.endswith name' ".a" then "STATIC" else "DYNAMIC"
       else "STATIC" |}.

Definition set_target (l : t) (tt : TargetType) (referred : string) : t :=
  {| name := name l; dependant := dependant l; filelist := filelist l;
     condition := condition l; link_with_libs := link_with_libs l;
     compiler_flags := compiler_flags l; linker_flags := linker_flags l;
     conditional_appends := conditional_appends l;
     just_variables := just_variables l;
     added_subdirectories := added_subdirectories l;
     target_type := tt; ttype := ttype l; referred_name := referred;
     canonic_name := canonic_name l; directory := directory l; type := type l |}.

Definition set_filelist (l : t) (v : list string) : t :=
  {| name := name l; dependant := dependant l; filelist := v;
     condition := condition l; link_with_libs := link_with_libs l;
     compiler_flags := compiler_flags l; linker_flags := linker_flags l;
     conditional_appends := conditional_appends l;
     just_variables := just_variables l;
     added_subdirectories := added_subdirectories l;
     target_type := target_type l; ttype := ttype l;
     referred_name := referred_name l;
     canonic_name := canonic_name l; directory := directory l; type := type l |}.

Definition set_condition (l : t) (v : PyText) : t :=
  {| name := name l; dependant := dependant l; filelist := filelist l;
     condition := v; link_with_libs := link_with_libs l;
     compiler_flags := compiler_flags l; linker_flags := linker_flags l;
     conditional_appends := conditional_appends l;
     just_variables := just_variables l;
     added_subdirectories := added_subdirectories l;
     target_type := target_type l; ttype := ttype l;
     referred_name := referred_name l;
     canonic_name := canonic_name l; directory := directory l; type := type l |}.

Definition set_link_with_libs (l : t) (v : list string) : t :=
  {| name := name l; dependant := dependant l; filelist := filelist l;
     condition := condition l; link_with_libs := v;
     compiler_flags := compiler_flags l; linker_flags := linker_flags l;
     conditional_appends := conditional_appends l;
     just_variables := just_variables l;
     added_subdirectories := added_subdirectories l;
     target_type := target_type l; ttype := ttype l;
     referred_name := referred_name l;
     canonic_name := canonic_name l; directory := directory l; type := type l |}.

Definition set_compiler_flags (l : t) (v : PyText) : t :=
  {| name := name l; dependant := dependant l; filelist := filelist l;
     condition := condition l; link_with_libs := link_with_libs l;
     compiler_flags := v; linker_flags := linker_flags l;
     conditional_appends := conditional_appends l;
     just_variables := just_variables l;
     added_subdirectories := added_subdirectories l;
     target_type := target_type l; ttype := ttype l;
     referred_name := referred_name l;
     canonic_name := canonic_name l; directory := directory l; type := type l |}.

Definition set_linker_flags (l : t) (v : list string) : t :=
  {| name := name l; dependant := dependant l; filelist := filelist l;
     condition := condition l; link_with_libs := link_with_libs l;
     compiler_flags := compiler_flags l; linker_flags := v;
     conditional_appends := conditional_appends l;
     just_variables := just_variables l;
     added_subdirectories := added_subdirectories l;
     target_type := target_type l; ttype := ttype l;
     referred_name := referred_name l;
     canonic_name := canonic_name l; directory := directory l; type := type l |}.

Definition set_conditional_appends (l : t) (v : Dict.t ref) : t :=
  {| name := name l; dependant := dependant l; filelist := filelist l;
     condition := condition l; link_with_libs := link_with_libs l;
     compiler_flags := compiler_flags l; linker_flags := linker_flags l;
     conditional_appends := v;
     just_variables := just_variables l;
     added_subdirectories := added_subdirectories l;
     target_type := target_type l; ttype := ttype l;
     referred_name := referred_name l;
     canonic_name := canonic_name l; directory := directory l; type := type l |}.

Definition set_just_variables (l : t) (v : Dict.t (list ref)) : t :=
  {| name := name l; dependant := dependant l; filelist := filelist l;
     condition := condition l; link_with_libs := link_with_libs l;
     compiler_flags := compiler_flags l; linker_flags := linker_flags l;
     conditional_appends := conditional_appends l;
     just_variables := v;
     added_subdirectories := added_subdirectories l;
     target_type := target_type l; ttype := ttype l;
     referred_name := referred_name l;
     canonic_name := canonic_name l; directory := directory l; type := type l |}.

End Library.

(** [class CMakeFile]; [libraries] holds the canonic names of the [Library]
    objects appended to it. *)
Module CMakeFile.

Record t : Type := mk {
  directory : string;
  contained_libraries_content : list string;
  libraries : list string;
  extra_content : string
}.

Definition init (directory : string) : t :=
  {| directory := directory; contained_libraries_content := [];
     libraries := []; extra_content := EmptyString |}.

End CMakeFile.

(** The value of a [config_ac_variables] entry: the list under ["value"]. *)
Definition ConfigVar : Type := list string.

(** The global variables of the script. *)
Record Globals : Type := mkGlobals {
  working_directory : string;
  exclude_directories : list string;
  libraries : list Library.t;
  options : Dict.t Option.t;
  temp_defines : Dict.t Define.t;
  cmake_files : Dict.t CMakeFile.t;
  config_ac_variables : Dict.t ConfigVar;
  extra_content : Dict.t string;
  required_directories : list string;
  heap : Heap
}.

(** What the script takes from outside its own text: the file system
    ([os.path.isfile], [glob.glob], the lines of a file, and whether a file
    can be opened for writing: [open(path, "w")] and [open(path, "a")]
    raise when the directory of [path] is missing), the clock
    ([time.strftime] with the format of [convert]), [difflib]'s similarity
    ratio, and the order in which the interpreter iterates over a [set] of
    strings. *)
Record World : Type := mkWorld {
  isfile : string -> bool;
  glob : string -> list string;
  strftime : string;
  similar : string -> string -> Q;
  set_order : list string -> list string;
  readlines : string -> list string;
  can_open : string -> bool
}.

Definition set_libraries (g : Globals) (v : list Library.t) (h : Heap) : Globals :=
  {| working_directory := working_directory g;
     exclude_directories := exclude_directories g;
     libraries := v; options := options g; temp_defines := temp_defines g;
     cmake_files := cmake_files g;
     config_ac_variables := config_ac_variables g;
     extra_content := extra_content g;
     required_directories := required_directories g; heap := h |}.

Definition set_options (g : Globals) (v : Dict.t Option.t) : Globals :=
  {| working_directory := working_directory g;
     exclude_directories := exclude_directories g;
     libraries := libraries g; options := v; temp_defines := temp_defines g;
     cmake_files := cmake_files g;
     config_ac_variables := config_ac_variables g;
     extra_content := extra_content g;
     required_directories := required_directories g; heap := heap g |}.

Definition set_temp_defines (g : Globals) (v : Dict.t Define.t) : Globals :=
  {| working_directory := working_directory g;
     exclude_directories := exclude_directories g;
     libraries := libraries g; options := options g; temp_defines := v;
     cmake_files := cmake_files g;
     config_ac_variables := config_ac_variables g;
     extra_content := extra_content g;
     required_directories := required_directories g; heap := heap g |}.

Definition set_cmake_files (g : Globals) (v : Dict.t CMakeFile.t) : Globals :=
  {| working_directory := working_directory g;
     exclude_directories := exclude_directories g;
     libraries := libraries g; options := options g;
     temp_defines := temp_defines g; cmake_files := v;
     config_ac_variables := config_ac_variables g;
     extra_content := extra_content g;
     required_directories := required_directories g; heap := heap g |}.

Definition set_extra_content (g : Globals) (v : Dict.t string) : Globals :=
  {| working_directory := working_directory g;
     exclude_directories := exclude_directories g;
     libraries := libraries g; options := options g;
     temp_defines := temp_defines g; cmake_files := cmake_files g;
     config_ac_variables := config_ac_variables g;
     extra_content := v;
     required_directories := required_directories g; heap := heap g |}.

Definition set_required_directories (g : Globals) (v : list string) : Globals :=
  {| working_directory := working_directory g;
     exclude_directories := exclude_directories g;
     libraries := libraries g; options := options g;
     temp_defines := temp_defines g; cmake_files := cmake_files g;
     config_ac_variables := config_ac_variables g;
     extra_content := extra_content g;
     required_directories := v; heap := heap g |}.

(** [has_library] *)
Definition has_library (libraries : list Library.t) (name : string) : bool :=
  existsb (fun l => Py.eqb (Library.canonic_name l) name) libraries.

(** [get_library_for_name] *)
Definition get_library_for_name (libraries : list Library.t) (name : string)
  : option Library.t :=
  find (fun l => Py.eqb (Library.canonic_name l) name) libraries.

(** A method call on the object [get_library_for_name] returns: the first
    library of that canonic name is updated in place. *)
Fixpoint update_library (libraries : list Library.t) (name : string)
    (f : Library.t -> Library.t) : list Library.t :=
  match libraries with
  | [] => []
  | l :: rest =>
      if Py.eqb (Library.canonic_name l) name then f l :: rest
      else l :: update_library rest name f
  end.

(** ** configure.ac: the macro handlers *)

(** The characters of [s] before its first [','] (all of [s] without one). *)
Fixpoint take_to_comma (l : list ascii) : list ascii :=
  match l with
  | [] => []
  | c :: l' => if decide (c = ","%char) then [] else c :: take_to_comma l'
  end.

(** The loops of [process_argument] that walk the description.  Each tests
    [s[i]] before [i < len(s)], so running off the end raises [IndexError]. *)
Fixpoint skip_blanks (l : list ascii) : option (list ascii) :=
  match l with
  | [] => None
  | c :: l' => if decide (c = " "%char) then skip_blanks l' else Some l
  end.

Fixpoint skip_word (l : list ascii) : option (list ascii) :=
  match l with
  | [] => None
  | c :: l' => if decide (c = " "%char) then Some l else skip_word l'
  end.

Fixpoint take_to_bracket (l : list ascii) : option (list ascii) :=
  match l with
  | [] => None
  | c :: l' =>
      if decide (c = "]"%char) then Some []
      else match take_to_bracket l' with
           | Some d => Some (c :: d)
           | None => None
           end
  end.

Definition description_after_bracket (l : list ascii) : option (list ascii) :=
  match skip_blanks l with
  | None => None
  | Some l1 =>
      match skip_word l1 with
      | None => None
      | Some l2 =>
          match skip_blanks l2 with
          | None => None
          | Some l3 => take_to_bracket l3
          end
      end
  end.

(** The [for i in range(len(s))] loop: it stops at the first ['[']. *)
Fixpoint argument_description (l : list ascii) : option (list ascii) :=
  match l with
  | [] => Some []
  | c :: l' =>
      if decide (c = "["%char) then description_after_bracket l'
      else argument_description l'
  end.

(** [process_argument]: the text after the macro head, the name of the
    argument (the dictionary key), and the ON/OFF status read from it. *)
Definition argument_text (line : string) : string :=
  Py.strip (Py.drop_front (String.length "AC_ARG_ENABLE(") line).

Definition argument_name (line : string) : string :=
  Py.replace_char "-" "_"
    (Py.text (take_to_comma (Py.chars (argument_text line)))).

Definition argument_status (line : string) : string :=
  if Py.contains (argument_text line) "=yes" then "ON" else "OFF".

Definition process_argument (line : string) (options : Dict.t Option.t)
  : option (Dict.t Option.t) :=
  let s := argument_text line in
  match argument_description (Py.chars s) with
  | None => None
  | Some d =>
      let description := Py.text d in
      let on_off := argument_status line in
      let arg_name := argument_name line in
      match Dict.get options arg_name with
      | None =>
          Some (Dict.set options arg_name
                  (Option.init arg_name description on_off
                     EmptyString EmptyString EmptyString))
      | Some o =>
          let o := Option.set_name o arg_name in
          let o := Option.set_description o description in
          let o := Option.set_status o on_off in
          Some (Dict.set options arg_name o)
      end
  end.

(** [processable_line] *)
Definition processable_line (line : string) : string :=
  if Py.startswith line "AC_ARG_ENABLE(" then "AC_ARG_ENABLE"
  else if Py.startswith line "AM_CONDITIONAL(" then "AM_CONDITIONAL"
  else if Py.startswith line "AC_DEFINE(" then "AC_DEFINE"
  else if Py.startswith line "AC_CONFIG_FILES(" then "AC_CONFIG_FILES"
  else EmptyString.

(** The text after the first ['$'], up to a character that [stop] accepts. *)
Fixpoint take_until (stop : ascii -> bool) (l : list ascii) : list ascii :=
  match l with
  | [] => []
  | c :: l' => if stop c then [] else c :: take_until stop l'
  end.

Fixpoint after_dollar (stop : ascii -> bool) (l : list ascii) : list ascii :=
  match l with
  | [] => []
  | c :: l' =>
      if decide (c = "$"%char) then take_until stop l' else after_dollar stop l'
  end.

(** [process_conditional]: the text after the macro head, the symbol
    before the first comma, and the shell variable after the first ['$']
    (the dictionary key). *)
Definition conditional_text (line : string) : string :=
  Py.strip (Py.drop_front (String.length "AM_CONDITIONAL(") line).

Definition conditional_define (line : string) : string :=
  Py.text (take_to_comma (Py.chars (conditional_text line))).

Definition conditional_option (line : string) : string :=
  Py.replace_char "-" "_"
    (Py.text (after_dollar
                (fun c => bool_decide (c = Py.dquote_char)
                          || bool_decide (c = " "%char)
                          || bool_decide (c = "="%char))
                (Py.chars (conditional_text line)))).

Definition process_conditional (line : string) (options : Dict.t Option.t)
  : Dict.t Option.t :=
  let define_name := conditional_define line in
  let bound_option := conditional_option line in
  match Dict.get options bound_option with
  | Some o => Dict.set options bound_option (Option.set_define o define_name)
  | None =>
      Dict.set options bound_option
        (Option.init bound_option EmptyString EmptyString define_name
           EmptyString EmptyString)
  end.

(** The three-stage scan of [process_a_define]. *)
Record DefineScan : Type := mkScan {
  stage : nat;
  sqp : Z;
  roup : Z;
  define_string : list ascii;
  defined_to_value : list ascii;
  scan_description : list ascii
}.

Fixpoint scan_define (l : list ascii) (st : DefineScan) : DefineScan :=
  match l with
  | [] => st
  | c :: l' =>
      let sqp1 := if decide (c = "["%char) then (sqp st + 1)%Z else sqp st in
      let sqp2 := if decide (c = "]"%char) then (sqp1 - 1)%Z else sqp1 in
      let roup1 := if decide (c = "("%char) then (roup st + 1)%Z else roup st in
      let roup2 := if decide (c = ")"%char) then (roup1 - 1)%Z else roup1 in
      let st1 := mkScan (stage st) sqp2 roup2 (define_string st)
                   (defined_to_value st) (scan_description st) in
      if bool_decide (c = ")"%char) && bool_decide (roup2 = 0%Z) then st1
      else
        let bump := bool_decide (c = ","%char) && bool_decide (sqp2 = 0%Z) in
        let stage1 := if bump then S (stage st) else stage st in
        if bump && (stage1 =? 4) then
          mkScan stage1 sqp2 roup2 (define_string st) (defined_to_value st)
            (scan_description st)
        else
          let comma := bool_decide (c = ","%char) in
          let st2 :=
            if (stage1 =? 1) && negb comma then
              mkScan stage1 sqp2 roup2 (define_string st ++ [c])
                (defined_to_value st) (scan_description st)
            else if (stage1 =? 2) && negb comma then
              mkScan stage1 sqp2 roup2 (define_string st)
                (defined_to_value st ++ [c]) (scan_description st)
            else if stage1 =? 3 then
              mkScan stage1 sqp2 roup2 (define_string st)
                (defined_to_value st) (scan_description st ++ [c])
            else
              mkScan stage1 sqp2 roup2 (define_string st)
                (defined_to_value st) (scan_description st) in
          scan_define l' st2
  end.

(** [process_a_define] *)
Definition process_a_define (line : string) (temp_defines : Dict.t Define.t)
  : Dict.t Define.t :=
  let s := Py.strip (Py.drop_front (String.length "AC_DEFINE(") line) in
  let sc := scan_define (Py.chars s) (mkScan 1 0%Z 1%Z [] [] []) in
  let variable_name :=
    Py.text (after_dollar (fun c => bool_decide (c = Py.dquote_char)) (Py.chars s)) in
  let define_string := Py.text (define_string sc) in
  Dict.set temp_defines define_string
    {| Define.name := define_string;
       Define.option_name := Py.upper variable_name;
       Define.description := Py.text (scan_description sc);
       Define.value := Py.text (defined_to_value sc);
       Define.used := 0 |}.

(** ** configure.ac: merging the defines into the options *)

(** The inner loop of the first merge: the first define that binds to the
    option, by the option's define or by its name, is marked used. *)
Fixpoint bind_option (o : Option.t) (defs : Dict.t Define.t)
  : Option.t * Dict.t Define.t :=
  match defs with
  | [] => (o, [])
  | (k, d) :: rest =>
      let by_define := Py.eqb (Option.define o) (Define.name d) in
      let o1 :=
        if by_define then
          Option.set_define_value
            (Option.set_define_description o (Define.description d))
            (Define.value d)
        else o in
      let by_name := Py.eqb (Option.name o1) (Define.option_name d) in
      let o2 :=
        if by_name then
          Option.set_define_value
            (Option.set_define_description
               (Option.set_define o1 (Define.name d)) (Define.description d))
            (Define.value d)
        else o1 in
      if by_define || by_name then (o2, (k, Define.set_used d 1) :: rest)
      else
        let '(o', rest') := bind_option o rest in
        (o', (k, d) :: rest')
  end.

Fixpoint bind_options (opts : Dict.t Option.t) (defs : Dict.t Define.t)
  : Dict.t Option.t * Dict.t Define.t :=
  match opts with
  | [] => ([], defs)
  | (k, o) :: rest =>
      let '(o', defs') := bind_option o defs in
      let '(rest', defs'') := bind_options rest defs' in
      ((k, o') :: rest', defs'')
  end.

(** The test of the second merge, on the upper-cased dictionary keys. *)
Definition fuzzy_match (w : World) (temp_define_name option_name : string) : bool :=
  let td_upper := Py.upper temp_define_name in
  let opt_upper := Py.upper option_name in
  let sim_v := similar w td_upper opt_upper in
  (if Qlt_le_dec (1 # 2) sim_v then true else false)
  || Py.contains opt_upper td_upper
  || Py.contains td_upper opt_upper.

(** The body of [for option_name in options] of the second merge. *)
Definition attach (w : World) (temp_define_name : string)
    (ko : string * Option.t) : string * Option.t :=
  if fuzzy_match w temp_define_name (fst ko)
  then (fst ko, Option.add_extra_define (snd ko) temp_define_name)
  else ko.

(** The second merge for one define: it is offered to every option. *)
Definition match_define (w : World) (opts : Dict.t Option.t)
    (kd : string * Define.t) : Dict.t Option.t * (string * Define.t) :=
  let '(temp_define_name, temp_define) := kd in
  if Define.used temp_define =? 0 then
    (map (attach w temp_define_name) opts,
     (temp_define_name,
      if existsb (fun ko : string * Option.t =>
                    fuzzy_match w temp_define_name (fst ko)) opts
      then Define.set_used temp_define 1 else temp_define))
  else (opts, kd).

Fixpoint match_defines (w : World) (opts : Dict.t Option.t)
    (defs : Dict.t Define.t) : Dict.t Option.t * Dict.t Define.t :=
  match defs with
  | [] => (opts, [])
  | kd :: rest =>
      let '(opts', kd') := match_define w opts kd in
      let '(opts'', rest') := match_defines w opts' rest in
      (opts'', kd' :: rest')
  end.

(** The end of [process_configure_ac]: both merges. *)
Definition merge_defines (w : World) (g : Globals) : Globals :=
  let '(opts1, defs1) := bind_options (options g) (temp_defines g) in
  let '(opts2, defs2) := match_defines w opts1 defs1 in
  set_temp_defines (set_options g opts2) defs2.


(** ** Makefile.am: [process_makefile_am] *)

(** [os.path.dirname]: the text before the last ['/'], without trailing
    slashes unless it consists of slashes only. *)
Fixpoint drop_to_slash (l : list ascii) : list ascii :=
  match l with
  | [] => []
  | c :: l' => if decide (c = "/"%char) then l else drop_to_slash l'
  end.

Fixpoint drop_slashes (l : list ascii) : list ascii :=
  match l with
  | [] => []
  | c :: l' => if decide (c = "/"%char) then drop_slashes l' else l
  end.

Definition dirname (p : string) : string :=
  let head := drop_to_slash (rev (Py.chars p)) in
  match drop_slashes head with
  | [] => Py.text (rev head)
  | h => Py.text (rev h)
  end.

(** The first run: the libraries and programs the file declares. *)
Definition declared_library (line library_name makefiles_directory : string)
  : Library.t :=
  let library := Library.init library_name makefiles_directory in
  if Py.contains line "_PROGRAMS"
  then Library.set_target library PROGRAM (Library.canonic_name library)
  else library.

Definition declare_libraries (line makefiles_directory : string)
    (library_names : list string) (libraries : list Library.t)
  : list Library.t :=
  fold_left
    (fun libs library_name =>
       let library := declared_library line library_name makefiles_directory in
       if has_library libs (Library.canonic_name library) then libs
       else libs ++ [library])
    library_names libraries.

Definition first_run_line (exclude_directories : list string)
    (current_directory : string) (libraries : list Library.t) (raw : string)
  : list Library.t :=
  let line := Py.strip raw in
  if Py.startswith line "#" then libraries
  else if Py.contains line "_LIBRARIES" || Py.contains line "_PROGRAMS" then
    let elements := Py.split line in
    let library_names := drop 2 elements in
    let process_it :=
      negb (existsb (fun excluded_dir =>
                       Py.startswith current_directory excluded_dir
                       && Py.truthy excluded_dir) exclude_directories) in
    if process_it
    then declare_libraries line current_directory library_names libraries
    else libraries
  else libraries.

Definition first_run (exclude_directories : list string)
    (current_directory : string) (content : list string)
    (libraries : list Library.t) : list Library.t :=
  fold_left (first_run_line exclude_directories current_directory)
    content libraries.

(** An entry of [defined_variables]: the lists under ["value"] and
    ["condition"]; the value lists are objects of the store. *)
Record DefinedVariable : Type := mkDefinedVariable {
  dv_value : list ref;
  dv_condition : list string
}.

(** The variables of the second run.  [dirs_to_go_in] is [None] while it is
    still the empty list it starts as. *)
Record MakefileRun : Type := mkRun {
  run_libraries : list Library.t;
  run_heap : Heap;
  defined_variables : Dict.t DefinedVariable;
  libraries_in_this_file : list string;
  if_condition : string;
  dirs_to_go_in : option string
}.

Definition set_if_condition (st : MakefileRun) (v : string) : MakefileRun :=
  mkRun (run_libraries st) (run_heap st) (defined_variables st)
    (libraries_in_this_file st) v (dirs_to_go_in st).

(** [while line.endswith('\\'): i += 1; line += content[i].strip()] *)
Fixpoint join_continuations (line : string) (rest : list string) : option string :=
  if Py.endswith line Py.backslash then
    match rest with
    | [] => None
    | next :: rest' => join_continuations (line +:+ Py.strip next) rest'
    end
  else Some line.

(** [''.join('%-1s' % item for item in line.split('\t '))] *)
Definition pad_item (item : string) : string :=
  match item with EmptyString => " " | _ => item end.

Definition rejoin_tab_blank (line : string) : string :=
  Py.concat_all (map pad_item (Py.split_on_pair Py.tab_char " " line)).

(** The body shared by the four target attributes: when the library is
    found it is recorded in [libraries_in_this_file], its condition is
    extended by the active one, and the attribute is updated. *)
Definition gather (st : MakefileRun) (target_lib_name : string)
    (update : Library.t -> Library.t) : MakefileRun * bool :=
  match get_library_for_name (run_libraries st) target_lib_name with
  | None => (st, false)
  | Some _ =>
      let record library :=
        let library :=
          if Py.truthy (if_condition st)
          then Library.set_condition library
                 (PyText.iadd (Library.condition library) (if_condition st))
          else library in
        update library in
      (mkRun (update_library (run_libraries st) target_lib_name record)
         (run_heap st) (defined_variables st)
         (libraries_in_this_file st ++ [target_lib_name])
         (if_condition st) (dirs_to_go_in st), true)
  end.

(** A plain variable: recorded with the active condition. *)
Definition define_variable (st : MakefileRun) (variable value : string)
  : MakefileRun :=
  let '(h, r) := heap_alloc (run_heap st) (Py.split value) in
  let entry :=
    match Dict.get (defined_variables st) variable with
    | None => mkDefinedVariable [r] [if_condition st]
    | Some dv =>
        mkDefinedVariable (dv_value dv ++ [r]) (dv_condition dv ++ [if_condition st])
    end in
  mkRun (run_libraries st) h (Dict.set (defined_variables st) variable entry)
    (libraries_in_this_file st) (if_condition st) (dirs_to_go_in st).

(** The variable an assignment line assigns to: [elements[0]], stripped,
    and without the ['+'] of a [+=]. *)
Definition assigned_variable (elements0 : string) : string :=
  let variable := Py.strip elements0 in
  if Py.has_char variable "+"
  then Py.strip (Py.remove_char "+" variable) else variable.

(** The assignment branch of the second run, on the joined line. *)
Definition assignment (line : string) (st : MakefileRun) : option MakefileRun :=
  match Py.split_on "=" line with
  | elements0 :: elements1 :: _ =>
      let variable := assigned_variable elements0 in
      let plus := Py.contains line "+=" in
      let '(st, used1) :=
        if Py.endswith variable "_SOURCES" then
          gather st (Py.drop_back (String.length "_SOURCES") variable)
            (fun library =>
               Library.set_filelist library
                 (if plus then Library.filelist library ++ Py.split elements1
                  else Py.split elements1))
        else (st, false) in
      let '(st, used2) :=
        if Py.endswith variable "_LDADD" then
          gather st (Py.drop_back (String.length "_LDADD") variable)
            (fun library =>
               Library.set_link_with_libs library
                 (if plus then Library.link_with_libs library ++ Py.split elements1
                  else Py.split elements1))
        else (st, false) in
      let '(st, used3) :=
        if Py.endswith variable "_CXXFLAGS" || Py.endswith variable "_CPPFLAGS"
           || Py.endswith variable "_CFLAGS" then
          let target_lib_name :=
            if Py.endswith variable "_CFLAGS"
            then Py.drop_back (String.length "_CFLAGS") variable
            else Py.drop_back (String.length "_CXXFLAGS") variable in
          let defines :=
            Py.strip (Py.replace_first "=" EmptyString
                        (Py.replace_first variable EmptyString line)) in
          gather st target_lib_name
            (fun library =>
               Library.set_compiler_flags library
                 (if plus then PyText.iadd (Library.compiler_flags library) defines
                  else PyStr defines))
        else (st, false) in
      let '(st, used4) :=
        if Py.endswith variable "_LDFLAGS" then
          gather st (Py.drop_back (String.length "_LDFLAGS") variable)
            (fun library =>
               Library.set_linker_flags library
                 (if plus then Library.linker_flags library ++ Py.split elements1
                  else Py.split elements1))
        else (st, false) in
      if used1 || used2 || used3 || used4 then Some st
      else
        let st :=
          if Py.eqb variable "SUBDIRS"
          then mkRun (run_libraries st) (run_heap st) (defined_variables st)
                 (libraries_in_this_file st) (if_condition st) (Some elements1)
          else st in
        if negb (Py.contains variable "_LIBRARIES")
           && negb (Py.contains variable "_PROGRAMS")
        then Some (define_variable st variable elements1)
        else Some st
  | _ => None
  end.

(** The logical line of an assignment: the continuation lines joined, the
    backslashes removed, and the tab-blank pairs rejoined. *)
Definition logical_line (line : string) (rest : list string) : option string :=
  match join_continuations line rest with
  | None => None
  | Some line =>
      Some (rejoin_tab_blank (Py.remove_char Py.backslash_char line))
  end.

(** One iteration of the second run: the line [raw] and the lines after it. *)
Definition second_run_line (raw : string) (rest : list string)
    (st : MakefileRun) : option MakefileRun :=
  let line := Py.strip raw in
  if Py.startswith line "#" then Some st
  else
    let st_if :=
      if Py.startswith line "if" then
        match Py.split line !! 1 with
        | Some e => Some (set_if_condition st e)
        | None => None
        end
      else Some st in
    match st_if with
    | None => None
    | Some st =>
        let st := if Py.startswith line "endif"
                  then set_if_condition st EmptyString else st in
        if Py.contains line "=" || Py.contains line "+=" then
          match logical_line line rest with
          | None => None
          | Some line => assignment line st
          end
        else Some st
    end.

Fixpoint second_run (content : list string) (st : MakefileRun)
  : option MakefileRun :=
  match content with
  | [] => Some st
  | raw :: rest =>
      match second_run_line raw rest st with
      | None => None
      | Some st' => second_run rest st'
      end
  end.

(** The replacement of [$(variable)] references, for one variable and one
    library of the file.  [pairs] is [zip(condition, value)]. *)
Fixpoint append_conditionals (pairs : list (string * ref))
    (appends : Dict.t ref) (h : Heap) : Dict.t ref * Heap :=
  match pairs with
  | [] => (appends, h)
  | (cond, value) :: pairs' =>
      let cond_name := remove_garbage cond in
      match Dict.get appends cond_name with
      | Some r =>
          append_conditionals pairs' appends
            (heap_append h r (Py.join " " (heap_get h value)))
      | None =>
          append_conditionals pairs' (Dict.set appends cond_name value) h
      end
  end.

Definition resolve_variable (var_name : string) (dv : DefinedVariable)
    (defined_lib_name : string) (libs : list Library.t) (h : Heap)
  : option (list Library.t * Heap) :=
  match get_library_for_name libs defined_lib_name with
  | None => None
  | Some library =>
      let inside_varname := "$(" +:+ var_name +:+ ")" in
      let pairs := zip (dv_condition dv) (dv_value dv) in
      let referenced :=
        existsb (fun file => Py.contains file inside_varname)
          (Library.filelist library) in
      let found := referenced && negb (bool_decide (pairs = [])) in
      let '(appends, h') :=
        if referenced
        then append_conditionals pairs (Library.conditional_appends library) h
        else (Library.conditional_appends library, h) in
      let update l :=
        let l := Library.set_conditional_appends l appends in
        if found then l
        else Library.set_just_variables l
               (Dict.set (Library.just_variables l) var_name (dv_value dv)) in
      Some (update_library libs defined_lib_name update, h')
  end.

Fixpoint resolve_in_libraries (var_name : string) (dv : DefinedVariable)
    (names : list string) (libs : list Library.t) (h : Heap)
  : option (list Library.t * Heap) :=
  match names with
  | [] => Some (libs, h)
  | defined_lib_name :: names' =>
      match resolve_variable var_name dv defined_lib_name libs h with
      | None => None
      | Some (libs', h') => resolve_in_libraries var_name dv names' libs' h'
      end
  end.

Fixpoint resolve_variables (vars : Dict.t DefinedVariable)
    (names : list string) (libs : list Library.t) (h : Heap)
  : option (list Library.t * Heap) :=
  match vars with
  | [] => Some (libs, h)
  | (var_name, dv) :: vars' =>
      match resolve_in_libraries var_name dv names libs h with
      | None => None
      | Some (libs', h') => resolve_variables vars' names libs' h'
      end
  end.

(** The end of [process_makefile_am]: the sub-directories to recurse into. *)
Definition subdir_step (exclude_directories : list string)
    (current_directory : string) (acc : string * list string) (subdir : string)
  : string * list string :=
  if negb (should_exclude exclude_directories
             (current_directory +:+ "/" +:+ subdir))
  then (fst acc +:+ Py.nl +:+ "add_subdirectory( " +:+ subdir +:+ " )",
        snd acc ++ [current_directory +:+ "/" +:+ subdir])
  else acc.

Definition queue_subdirs (current_directory : string)
    (dirs_to_go_in : option string) (g : Globals) : Globals :=
  match dirs_to_go_in with
  | None => g
  | Some d =>
      if Py.truthy d then
        let '(extra_dir, required) :=
          fold_left (subdir_step (exclude_directories g) current_directory)
            (Py.split d) (EmptyString, required_directories g) in
        set_extra_content
          (set_required_directories g required)
          (Dict.set (extra_content g) current_directory extra_dir)
      else g
  end.

(** [process_makefile_am]: the new globals and the diagnostics printed. *)
Definition process_makefile_am (w : World) (file : string) (g : Globals)
  : option (Globals * list string) :=
  if negb (isfile w file) then Some (g, ["File not found:" +:+ file])
  else
    let current_directory := dirname file in
    if should_exclude (exclude_directories g) current_directory then Some (g, [])
    else
      let content := readlines w file in
      let libs1 :=
        first_run (exclude_directories g) current_directory content (libraries g) in
      match second_run content
              (mkRun libs1 (heap g) [] [] EmptyString None) with
      | None => None
      | Some st =>
          match resolve_variables (defined_variables st)
                  (set_order w (libraries_in_this_file st))
                  (run_libraries st) (run_heap st) with
          | None => None
          | Some (libs2, h2) =>
              Some (queue_subdirs current_directory (dirs_to_go_in st)
                      (set_libraries g libs2 h2), [])
          end
      end.

(** [process_config_files] *)
Fixpoint process_makefiles (w : World) (files : list string) (g : Globals)
  : option (Globals * list string) :=
  match files with
  | [] => Some (g, [])
  | file :: files' =>
      let makefile_am := working_directory g +:+ "/" +:+ file +:+ ".am" in
      if isfile w makefile_am then
        match process_makefile_am w makefile_am g with
        | None => None
        | Some (g', out) =>
            match process_makefiles w files' g' with
            | None => None
            | Some (g'', out') => Some (g'', out ++ out')
            end
        end
      else process_makefiles w files' g
  end.

Definition process_config_files (w : World) (line : string) (g : Globals)
  : option (Globals * list string) :=
  let s := Py.strip (Py.drop_front (String.length "AC_CONFIG_FILES(") line) in
  let s := remove_garbage s in
  process_makefiles w (Py.split s) g.

(** ** configure.ac: the loop of [process_configure_ac] *)

(** The lines the loop remembers: the line just handled, the last line that
    held a ['$'], and how far back that one is. *)
Record ConfigureScan : Type := mkConfigureScan {
  current_line : string;
  previous_line : string;
  line_distance : nat
}.

(** The head of an iteration: which line is kept for the next [AC_DEFINE]. *)
Definition remember_line (sc : ConfigureScan) : string * nat :=
  if (1 <? String.length (current_line sc)) && Py.has_char (current_line sc) "$"
  then (current_line sc, 0)
  else if line_distance sc <? 3 then
    if Py.has_char (current_line sc) "$" then (current_line sc, 0)
    else (previous_line sc, S (line_distance sc))
  else (EmptyString, S (line_distance sc)).

Fixpoint drop_while (p : ascii -> bool) (l : list ascii) : list ascii :=
  match l with
  | [] => []
  | c :: l' => if p c then drop_while p l' else l
  end.

Definition name_char (c : ascii) : bool :=
  Py.isalpha c || Py.isdigit c || bool_decide (c = "_"%char).

(** A plain [name = value] line: the value is appended to the variable's
    list.  The two [while] loops index the line and stop before its ['=']. *)
Definition variable_definition (current_line : string)
    (vars : Dict.t ConfigVar) : option (Dict.t ConfigVar) :=
  if Py.has_char current_line "=" then
    match Py.chars current_line with
    | [] => None
    | c :: _ =>
        if Py.isalpha c then
          let cs := Py.chars current_line in
          let varname := Py.text (take_until (fun x => negb (name_char x)) cs) in
          match drop_while Py.isspace (drop_while name_char cs) with
          | [] => None
          | x :: var_value =>
              if decide (x = "="%char) then
                let old := match Dict.get vars varname with
                           | Some v => v
                           | None => []
                           end in
                Some (Dict.set vars varname (old ++ [Py.text var_value]))
              else Some vars
          end
        else Some vars
    end
  else Some vars.

(** The [while True] loop: lines are added, each stripped and followed by a
    blank, until the parentheses balance; [None] when the file ends first.
    The second component is the last line read. *)
Fixpoint accumulate (full_line : string) (lines : list string)
  : option (string * string) :=
  match lines with
  | [] => None
  | raw :: rest =>
      let current_line := Py.strip raw in
      let full_line := full_line +:+ current_line +:+ " " in
      if bool_decide (count_parentheses full_line = 0%Z)
      then Some (full_line, current_line)
      else accumulate full_line rest
  end.

Definition set_config_ac_variables (g : Globals) (v : Dict.t ConfigVar) : Globals :=
  {| working_directory := working_directory g;
     exclude_directories := exclude_directories g;
     libraries := libraries g; options := options g;
     temp_defines := temp_defines g; cmake_files := cmake_files g;
     config_ac_variables := v;
     extra_content := extra_content g;
     required_directories := required_directories g; heap := heap g |}.

(** [function_list[method](line=full_line)] *)
Definition dispatch (w : World) (method full_line : string) (g : Globals)
  : option (Globals * list string) :=
  if Py.eqb method "AC_ARG_ENABLE" then
    match process_argument full_line (options g) with
    | Some opts => Some (set_options g opts, [])
    | None => None
    end
  else if Py.eqb method "AM_CONDITIONAL" then
    Some (set_options g (process_conditional full_line (options g)), [])
  else if Py.eqb method "AC_DEFINE" then
    Some (set_temp_defines g (process_a_define full_line (temp_defines g)), [])
  else process_config_files w full_line g.

(** One iteration of the loop over the lines of configure.ac: the line
    [raw] and the lines after it. *)
Definition configure_line (w : World) (raw : string) (rest : list string)
    (acc : ConfigureScan * Globals * list string)
  : option (ConfigureScan * Globals * list string) :=
  let '(sc, g, out) := acc in
  let '(previous, distance) := remember_line sc in
  let current := Py.strip raw in
  if Py.startswith current "#" || negb (Py.truthy current)
  then Some (mkConfigureScan current previous distance, g, out)
  else
    match variable_definition current (config_ac_variables g) with
    | None => None
    | Some vars =>
        let g := set_config_ac_variables g vars in
        let method := processable_line current in
        if Py.truthy method then
          match accumulate EmptyString (raw :: rest) with
          | None => None
          | Some (full_line, last_line) =>
              let full_line :=
                if Py.eqb method "AC_DEFINE" then full_line +:+ previous
                else full_line in
              match dispatch w method full_line g with
              | None => None
              | Some (g', out') =>
                  Some (mkConfigureScan last_line previous distance, g',
                        out ++ out')
              end
          end
        else Some (mkConfigureScan current previous distance, g, out)
    end.

Fixpoint configure_lines (w : World) (content : list string)
    (acc : ConfigureScan * Globals * list string)
  : option (ConfigureScan * Globals * list string) :=
  match content with
  | [] => Some acc
  | raw :: rest =>
      match configure_line w raw rest acc with
      | None => None
      | Some acc' => configure_lines w rest acc'
      end
  end.

(** [process_configure_ac] *)
Definition process_configure_ac (w : World) (fname : string) (g : Globals)
  : option (Globals * list string) :=
  match configure_lines w (readlines w fname)
          (mkConfigureScan EmptyString EmptyString 0, g, []) with
  | None => None
  | Some (_, g', out) => Some (merge_defines w g', out)
  end.

(** ** Generation *)

(** One iteration of [filelist_to_string]: the text added for [file] and the
    warning printed, if any. *)
Definition missing_file_warning (source_directory file : string) : string :=
  "WARNING!!! The file: " +:+ source_directory +:+ "/" +:+ file
  +:+ " is present in the Makefile.am but cannot be found in the filesystem".

Definition source_line (spacecount : nat) (file : string) : string :=
  Py.nl +:+ Py.spaces spacecount +:+ "${CMAKE_CURRENT_SOURCE_DIR}/" +:+ file.

Definition missing_line (spacecount : nat) (file : string) : string :=
  Py.nl +:+ "#" +:+ Py.spaces spacecount +:+ "${CMAKE_CURRENT_SOURCE_DIR}/"
  +:+ file +:+ " # File not found. Fix manually".

Definition file_entry (w : World) (source_directory : string)
    (spacecount : nat) (file : string) : string * list string :=
  if isfile w (source_directory +:+ "/" +:+ file)
  then (source_line spacecount file, [])
  else (missing_line spacecount file,
        [missing_file_warning source_directory file]).

Definition render_entries (w : World) (source_directory : string)
    (spacecount : nat) (files : list string) : string * list string :=
  fold_left
    (fun acc file =>
       let e := file_entry w source_directory spacecount file in
       (fst acc +:+ fst e, snd acc ++ snd e))
    files (EmptyString, []).

(** [filelist_to_string]: the text and the warnings printed. *)
Definition filelist_to_string (w : World) (elements : list string)
    (source_directory : string) (spacecount : nat) : string * list string :=
  render_entries w source_directory spacecount (Py.sorted elements).

(** What [process_libraries] appends to [added_files]. *)
Inductive Added : Type :=
| AddedText (s : string)
| AddedList (l : list string).

(** The local variables of one iteration of [process_libraries]. *)
Record LibraryText : Type := mkText {
  current_content : string;
  added_files : list Added;
  condition_required : string;
  printed : list string
}.

Definition emit (t : LibraryText) (s : string) : LibraryText :=
  mkText (current_content t +:+ s) (added_files t) (condition_required t)
    (printed t).

(** The scan of a conditional append for [$] references: the last one that
    names a plain variable of the library gives the unfolded file list. *)
Definition unfold_step (w : World) (h : Heap) (library : Library.t)
    (acc : string * list string) (cond_append : string)
  : string * list string :=
  if Py.has_char cond_append "$" then
    let nice_var_name := remove_garbage cond_append in
    match Dict.get (Library.just_variables library) nice_var_name with
    | Some refs =>
        let l := flat_map (heap_get h) refs in
        let r := filelist_to_string w l (Library.directory library) 8 in
        (fst r, snd acc ++ snd r)
    | None => acc
    end
  else acc.

(** The body of [for opt_name in options] for a named condition. *)
Definition conditional_for_option (w : World) (h : Heap) (library : Library.t)
    (cond : string) (conditional_append : list string)
    (acc : LibraryText * bool) (ko : string * Option.t) : LibraryText * bool :=
  let '(t, used_cond) := acc in
  let option := snd ko in
  if Py.eqb (Option.define option) cond then
    let t := emit t (Py.nl +:+ "if(" +:+ Option.name option +:+ ")" +:+ Py.nl) in
    let '(unfolded_conditionals, warnings) :=
      fold_left (unfold_step w h library) conditional_append (EmptyString, []) in
    let t := mkText (current_content t) (added_files t) (Option.name option)
               (printed t ++ warnings) in
    let t :=
      if Py.truthy unfolded_conditionals then
        mkText (current_content t +:+ "    list(APPEND ${project}_SOURCES"
                +:+ unfolded_conditionals)
          (added_files t ++ [AddedText unfolded_conditionals])
          (condition_required t) (printed t)
      else
        mkText (current_content t +:+ "    list(APPEND ${project}_SOURCES"
                +:+ Py.nl +:+ "        "
                +:+ Py.join (Py.nl +:+ "        ") conditional_append)
          (added_files t ++ [AddedList conditional_append])
          (condition_required t) (printed t) in
    (emit t (Py.nl +:+ "    )" +:+ Py.nl +:+ "endif()" +:+ Py.nl), true)
  else (t, used_cond).

(** The body of [for cond in library.conditional_appends]. *)
Definition conditional_sources (w : World) (h : Heap)
    (options : Dict.t Option.t) (library : Library.t)
    (t : LibraryText) (entry : string * ref) : LibraryText :=
  let cond := fst entry in
  let conditional_append := heap_get h (snd entry) in
  if Py.truthy cond then
    let '(t, used_cond) :=
      fold_left (conditional_for_option w h library cond conditional_append)
        options (t, false) in
    if negb used_cond then
      let t := mkText (current_content t) (added_files t) cond (printed t) in
      emit t (Py.nl +:+ "if(" +:+ cond +:+ ")" +:+ Py.nl
              +:+ "    list(APPEND ${project}_SOURCES" +:+ Py.nl +:+ "        "
              +:+ Py.join (Py.nl +:+ "        ") conditional_append
              +:+ Py.nl +:+ "    )" +:+ Py.nl +:+ "endif()" +:+ Py.nl)
    else t
  else
    let '(unfolded_conditionals, warnings, add_regardless) :=
      fold_left
        (fun acc cond_append =>
           if Py.has_char cond_append "$"
           then let r := unfold_step w h library (fst acc) cond_append in
                (r, snd acc)
           else (fst acc, snd acc ++ [cond_append]))
        conditional_append (EmptyString, [], []) in
    let r := filelist_to_string w add_regardless (Library.directory library) 8 in
    let unfolded_conditionals := unfolded_conditionals +:+ fst r in
    mkText (current_content t +:+ "list(APPEND ${project}_SOURCES"
            +:+ unfolded_conditionals +:+ Py.nl +:+ ")" +:+ Py.nl)
      (added_files t ++ [AddedText unfolded_conditionals])
      (condition_required t) (printed t ++ warnings ++ snd r).

(** The body of [for option in options] matching the library's condition. *)
Definition guarded_for_option (w : World) (library : Library.t)
    (acc : LibraryText * bool) (ko : string * Option.t) : LibraryText * bool :=
  let '(t, condition_used) := acc in
  let option := snd ko in
  if PyText.eq_str (Option.define option) (Library.condition library) then
    let r := filelist_to_string w (Library.filelist library)
               (Library.directory library) 4 in
    (mkText (current_content t +:+ "if (" +:+ Option.name option +:+ ")" +:+ Py.nl
             +:+ "    list(APPEND ${project}_SOURCES" +:+ Py.nl +:+ "    "
             +:+ fst r +:+ ")" +:+ Py.nl +:+ "endif()" +:+ Py.nl +:+ Py.nl)
       (added_files t ++ [AddedText (fst r)])
       (Option.name option) (printed t ++ snd r), true)
  else (t, condition_used).

(** The source list of the library itself; the library comes back with its
    condition joined to a [str] when no option matched it. *)
Definition own_sources (w : World) (options : Dict.t Option.t)
    (library : Library.t) (t : LibraryText) : LibraryText * Library.t :=
  if PyText.truthy (Library.condition library) then
    let '(t, condition_used) :=
      fold_left (guarded_for_option w library) options (t, false) in
    if negb condition_used then
      let new_condition := PyText.join (Library.condition library) in
      let library := Library.set_condition library (PyStr new_condition) in
      let r := filelist_to_string w (Library.filelist library)
                 (Library.directory library) 4 in
      (mkText (current_content t +:+ "if (" +:+ new_condition +:+ ")" +:+ Py.nl
               +:+ "    list(APPEND ${project}_SOURCES" +:+ Py.nl +:+ "    "
               +:+ fst r +:+ ")" +:+ Py.nl +:+ "endif()" +:+ Py.nl +:+ Py.nl)
         (added_files t ++ [AddedText (fst r)])
         new_condition (printed t ++ snd r), library)
    else (t, library)
  else
    let r := filelist_to_string w (Library.filelist library)
               (Library.directory library) 4 in
    let work_list := Py.strip (fst r) in
    (mkText (current_content t +:+ "list(APPEND ${project}_SOURCES" +:+ Py.nl
             +:+ "    " +:+ work_list +:+ Py.nl +:+ ")" +:+ Py.nl)
       (added_files t ++ [AddedText work_list])
       (condition_required t) (printed t ++ snd r), library).

(** The command that creates the target. *)
Definition creation_command (library : Library.t) : string :=
  match Library.target_type library with
  | LIBRARY =>
      "add_library ( " +:+ Library.referred_name library +:+ " "
      +:+ Library.type library +:+ " " +:+ "${${project}_SOURCES} )" +:+ Py.nl
  | PROGRAM =>
      "add_executable(" +:+ Library.name library +:+ " ${${project}_SOURCES} )"
      +:+ Py.nl
  end.

(** The part of [process_libraries] between the creation command and the
    closing [endif()]: the compile flags, the include directories and the
    link libraries.  It reads the library, the store and
    [config_ac_variables], changes none of them, and is a parameter of the
    generation phase: the text it adds and the warnings it prints. *)
Definition TargetSettings : Type :=
  Heap -> Dict.t ConfigVar -> Library.t -> string * list string.

(** One iteration of [process_libraries]: the content for the library, the
    library as the iteration leaves it, and what was printed.  [None] is the
    [TypeError] of concatenating a [str] and a list. *)
Definition library_content (w : World) (settings : TargetSettings)
    (g : Globals) (library : Library.t)
  : option (string * Library.t * list string) :=
  let t := mkText EmptyString [] EmptyString
             (if Py.eqb (Library.name library) "libauth.a" then ["asd"] else []) in
  let t := if generate_comments
           then emit t ("# Generating the library " +:+ Library.name library +:+ Py.nl)
           else t in
  let t := emit t ("set(project " +:+ Py.dquote +:+ Library.referred_name library
                   +:+ Py.dquote +:+ ")" +:+ Py.nl +:+ Py.nl) in
  let t := emit t ("set(${project}, " +:+ Py.dquote +:+ Py.dquote +:+ ")" +:+ Py.nl) in
  let t := fold_left (conditional_sources w (heap g) (options g) library)
             (Library.conditional_appends library) t in
  let '(t, library) := own_sources w (options g) library t in
  let required :=
    if PyText.truthy (Library.condition library) then
      match Library.condition library with
      | PyStr s => Some s
      | PyChars _ => None
      end
    else Some (condition_required t) in
  match required with
  | None => None
  | Some condition_required =>
      let t := if Py.truthy condition_required
               then emit t ("if (" +:+ condition_required +:+ ")" +:+ Py.nl)
               else t in
      let t := emit t (creation_command library) in
      let t :=
        match added_files t with
        | [] => mkText (current_content t) (added_files t) condition_required
                  (printed t ++ ["No source files found for " +:+ Library.name library])
        | _ => t
        end in
      let s := settings (heap g) (config_ac_variables g) library in
      let t := mkText (current_content t +:+ fst s) (added_files t)
                 condition_required (printed t ++ snd s) in
      let t := if Py.truthy condition_required
               then emit t (Py.nl +:+ "endif()" +:+ Py.nl)
               else t in
      Some (current_content t, library, printed t)
  end.

(** The end of the iteration: the content goes to the directory's
    [CMakeFile], created on first use. *)
Definition hold_content (files : Dict.t CMakeFile.t) (library : Library.t)
    (content : string) : Dict.t CMakeFile.t :=
  let directory := Library.directory library in
  let holder :=
    match Dict.get files directory with
    | Some f => f
    | None => CMakeFile.init directory
    end in
  Dict.set files directory
    {| CMakeFile.directory := CMakeFile.directory holder;
       CMakeFile.contained_libraries_content :=
         CMakeFile.contained_libraries_content holder ++ [content];
       CMakeFile.libraries :=
         CMakeFile.libraries holder ++ [Library.canonic_name library];
       CMakeFile.extra_content := CMakeFile.extra_content holder |}.

(** [process_libraries]: the libraries as the loop leaves them, the
    [cmake_files], and what was printed. *)
Fixpoint process_library_list (w : World) (settings : TargetSettings)
    (g : Globals) (todo : list Library.t) (files : Dict.t CMakeFile.t)
  : option (list Library.t * Dict.t CMakeFile.t * list string) :=
  match todo with
  | [] => Some ([], files, [])
  | library :: todo' =>
      match library_content w settings g library with
      | None => None
      | Some (content, library', out) =>
          match process_library_list w settings g todo'
                  (hold_content files library' content) with
          | None => None
          | Some (done, files', out') =>
              Some (library' :: done, files', out ++ out')
          end
      end
  end.

Definition process_libraries (w : World) (settings : TargetSettings)
    (g : Globals) : option (Globals * list string) :=
  match process_library_list w settings g (libraries g) (cmake_files g) with
  | None => None
  | Some (libs, files, out) =>
      Some (set_cmake_files (set_libraries g libs (heap g)) files, out)
  end.

(** The top-level CMakeLists.txt, as [convert] writes it. *)
Definition bsn : string := Py.backslash +:+ "n".

Definition sorted_options (options : Dict.t Option.t) : list (string * Option.t) :=
  Py.sorted_by (fun ko : string * Option.t => Option.name (snd ko)) options.

(** The first loop over [sorted_options], for an option already finalized. *)
Definition option_declaration (o : Option.t) : string :=
  (if generate_comments
   then "# Option to " +:+ Option.description o +:+ Py.nl else EmptyString)
  +:+ "option( " +:+ Option.name o +:+ " " +:+ Py.dquote
  +:+ Option.description o +:+ Py.dquote +:+ " " +:+ Option.status o +:+ " )"
  +:+ Py.nl
  +:+ (if more_newlines then Py.nl else EmptyString).

Definition extra_define_lines (extra : string) : string :=
  let extra_value := remove_garbage extra in
  "## !!! WARNING " +:+ extra_value
  +:+ " Identified with some pattern matching magic." +:+ Py.nl
  +:+ "## Remove if not relevant!" +:+ Py.dquote +:+ ")" +:+ Py.nl
  +:+ "    file(APPEND ${CONFIG_H} " +:+ Py.dquote +:+ "#define " +:+ extra_value
  +:+ bsn +:+ bsn +:+ Py.dquote +:+ ")" +:+ Py.nl.

(** The second loop over [sorted_options]. *)
Definition option_block (o : Option.t) : string :=
  "if( " +:+ Option.name o +:+ " )" +:+ Py.nl
  +:+ "    message(" +:+ Py.dquote +:+ " " +:+ Option.name o +:+ " Enabled"
  +:+ Py.dquote +:+ ")" +:+ Py.nl
  +:+ "    file(APPEND ${CONFIG_H} " +:+ Py.dquote +:+ "/* "
  +:+ remove_garbage (Option.define_description o) +:+ " */" +:+ bsn
  +:+ Py.dquote +:+ ")" +:+ Py.nl
  +:+ (if 1 <=? String.length (Option.define o) then
         let extra := remove_garbage (Option.define_value o) in
         "    file(APPEND ${CONFIG_H} " +:+ Py.dquote +:+ "#define "
         +:+ Option.define o +:+ " " +:+ replace_quotes extra +:+ bsn +:+ bsn
         +:+ Py.dquote +:+ ")" +:+ Py.nl
       else
         "    file(APPEND ${CONFIG_H} " +:+ Py.dquote +:+ "#define HAVE_"
         +:+ Option.name o +:+ " " +:+ bsn +:+ bsn +:+ Py.dquote +:+ ")" +:+ Py.nl)
  +:+ Py.concat_all (map extra_define_lines (Option.extra_defines o))
  +:+ "endif( " +:+ Option.name o +:+ " )" +:+ Py.nl.

(** The loop over [temp_defines] for the defines still unused. *)
Definition unused_define_lines (kd : string * Define.t) : string :=
  let '(temp_define_name, temp_define) := kd in
  if Define.used temp_define =? 0 then
    let extra_value := remove_garbage (Define.value temp_define) in
    "file(APPEND ${CONFIG_H} " +:+ Py.dquote +:+ "/* "
    +:+ remove_garbage (Define.description temp_define) +:+ " */" +:+ bsn
    +:+ Py.dquote +:+ ")" +:+ Py.nl
    +:+ "file(APPEND ${CONFIG_H} " +:+ Py.dquote +:+ "#define "
    +:+ temp_define_name +:+ " " +:+ replace_quotes extra_value +:+ " "
    +:+ bsn +:+ bsn +:+ " " +:+ Py.dquote +:+ ")" +:+ Py.nl
  else EmptyString.

(** The line that carries the reading of the clock. *)
Definition toplevel_banner (now : string) : string :=
  if generate_comments
  then "# Autogenerated by auto2cmake on " +:+ now +:+ Py.nl +:+ Py.nl
       +:+ "# Options" +:+ Py.nl +:+ Py.nl
  else EmptyString.

(** Everything [convert] writes to the top-level file after the banner. *)
Definition toplevel_body (options : Dict.t Option.t)
    (temp_defines : Dict.t Define.t) : string :=
  let finalized :=
    map (fun ko : string * Option.t => Option.finalize (snd ko))
      (sorted_options options) in
  "cmake_minimum_required(VERSION 2.8)" +:+ Py.nl
  +:+ Py.concat_all (map option_declaration finalized)
  +:+ (if generate_comments
       then "# The lines below will generate the config.h based on the options above"
            +:+ Py.nl
            +:+ "# The file will be in the ${CMAKE_BINARY_DIR} location" +:+ Py.nl
       else EmptyString)
  +:+ "set(CONFIG_H ${CMAKE_BINARY_DIR}/config.h)" +:+ Py.nl
  +:+ "string(TIMESTAMP CURRENT_TIMESTAMP)" +:+ Py.nl
  +:+ "file(WRITE ${CONFIG_H} " +:+ Py.dquote
  +:+ "/* WARNING: This file is auto-generated by CMake on ${CURRENT_TIMESTAMP}"
  +:+ ". DO NOT EDIT!!! */" +:+ bsn +:+ bsn +:+ Py.dquote +:+ ")" +:+ Py.nl
  +:+ Py.concat_all (map option_block finalized)
  +:+ Py.nl
  +:+ "## !!! WARNING These are the defines that were defined regardless of an option."
  +:+ Py.nl
  +:+ "## !!! Or the script couldn't match them. Match them accordingly, delete them or keep them"
  +:+ Py.nl
  +:+ Py.concat_all (map unused_define_lines temp_defines)
  +:+ Py.nl
  +:+ (if generate_comments
       then "# Setting the include directory for the application to find config.h"
            +:+ Py.nl
       else EmptyString)
  +:+ "include_directories( ${CMAKE_BINARY_DIR} )"
  +:+ Py.nl
  +:+ (if generate_comments
       then "# Since we have created a config.h add a global define for it" +:+ Py.nl
       else EmptyString)
  +:+ "add_definitions( " +:+ Py.dquote +:+ "-DHAVE_CONFIG_H" +:+ Py.dquote +:+ " )".

Definition toplevel_text (w : World) (options : Dict.t Option.t)
    (temp_defines : Dict.t Define.t) : string :=
  toplevel_banner (strftime w) +:+ toplevel_body options temp_defines.

(** The options after the first loop: [finalize] has run on each of them. *)
Definition finalize_options (options : Dict.t Option.t) : Dict.t Option.t :=
  map (fun ko : string * Option.t => (fst ko, Option.finalize (snd ko))) options.

(** [process_cmake_file_directories] *)
Definition process_cmake_file_directories (extra_content : Dict.t string)
    (files : Dict.t CMakeFile.t) : Dict.t CMakeFile.t :=
  fold_left
    (fun files (entry : string * string) =>
       let '(dirname, extra_c) := entry in
       let c_cmake_file :=
         match Dict.get files dirname with
         | Some f => f
         | None => CMakeFile.init dirname
         end in
       Dict.set files dirname
         {| CMakeFile.directory := CMakeFile.directory c_cmake_file;
            CMakeFile.contained_libraries_content :=
              CMakeFile.contained_libraries_content c_cmake_file;
            CMakeFile.libraries := CMakeFile.libraries c_cmake_file;
            CMakeFile.extra_content := extra_c |})
    extra_content files.

(** What [convert] does to the file system, in order. *)
Inductive FileOp : Type :=
| WriteFile (path text : string)
| RemoveIfFile (path : string)
| AppendFile (path text : string).

(** [list.remove(x)]: the first occurrence goes. *)
Fixpoint list_remove (x : string) (l : list string) : list string :=
  match l with
  | [] => []
  | y :: l' => if decide (y = x) then l' else y :: list_remove x l'
  end.

(** [generate_default_cmake]: the text written to the directory's file. *)
Definition last_component (path : string) : string :=
  List.last (Py.split_on "/" path) EmptyString.

Definition default_cmake_text (w : World) (req_dir : string) : string :=
  let listed pattern :=
    Py.concat_all
      (map (fun f => Py.text [Py.tab_char] +:+ "${CMAKE_CURRENT_SOURCE_DIR}/"
                     +:+ last_component f +:+ Py.nl)
         (glob w (req_dir +:+ pattern))) in
  "cmake_minimum_required(VERSION 2.8)" +:+ Py.nl
  +:+ "set (project " +:+ last_component req_dir +:+ ")" +:+ Py.nl
  +:+ "set(${project}_SOURCES" +:+ Py.nl
  +:+ listed "/*.c*" +:+ listed "/*.h*"
  +:+ ")" +:+ Py.nl
  +:+ "add_library(${project} STATIC ${${project}_SOURCES} )".

Definition generate_default_cmake (w : World) (req_dir : string) : FileOp :=
  WriteFile (req_dir +:+ "/CMakeLists.txt") (default_cmake_text w req_dir).

(** The loop that removes earlier CMakeLists.txt files. *)
Definition removals (working_directory : string) (files : Dict.t CMakeFile.t)
  : list FileOp :=
  flat_map
    (fun entry : string * CMakeFile.t =>
       let cfile := snd entry in
       if bool_decide (working_directory <> CMakeFile.directory cfile)
       then [RemoveIfFile (CMakeFile.directory cfile +:+ "/CMakeLists.txt")]
       else [])
    files.

(** The loop that writes the directory files: the operations, and the
    required directories that are left. *)
Definition write_cmake_file (acc : list FileOp * list string)
    (entry : string * CMakeFile.t) : list FileOp * list string :=
  let cfile := snd entry in
  let required :=
    if bool_decide (CMakeFile.directory cfile ∈ snd acc)
    then list_remove (CMakeFile.directory cfile) (snd acc)
    else snd acc in
  (fst acc
   ++ [AppendFile (CMakeFile.directory cfile +:+ "/CMakeLists.txt")
         (CMakeFile.extra_content cfile
          +:+ Py.concat_all (CMakeFile.contained_libraries_content cfile))],
   required).

Definition write_cmake_files (files : Dict.t CMakeFile.t)
    (required_directories : list string) : list FileOp * list string :=
  fold_left write_cmake_file files ([], required_directories).

(** The result of the generation phase. *)
Record Generated : Type := mkGenerated {
  globals : Globals;
  file_ops : list FileOp;
  output : list string
}.

(** The [CMakeLists.txt] of a directory, and whether every one of a list of
    directories can have its file opened. *)
Definition cmakelists (directory : string) : string :=
  directory +:+ "/CMakeLists.txt".

Definition opens (w : World) (directories : list string) : bool :=
  forallb (fun d => can_open w (cmakelists d)) directories.

(** [convert], from the point where configure.ac has been processed.  The
    three places that open a file for writing (the top-level file, the
    file of each [CMakeFile], the file of [generate_default_cmake]) raise
    when the file cannot be opened; nothing catches the exception, and the
    run ends there. *)
Definition generate (w : World) (settings : TargetSettings) (g : Globals)
  : option Generated :=
  let top := WriteFile (working_directory g +:+ "/CMakeLists.txt")
               (toplevel_text w (options g) (temp_defines g)) in
  if negb (opens w [working_directory g]) then None
  else
  let g := set_options g (finalize_options (options g)) in
  match process_libraries w settings g with
  | None => None
  | Some (g, printed) =>
      let files := process_cmake_file_directories (extra_content g) (cmake_files g) in
      let g := set_cmake_files g files in
      if negb (opens w (map (fun entry : string * CMakeFile.t =>
                               CMakeFile.directory (snd entry)) files))
      then None
      else
      let '(writes, required) := write_cmake_files files (required_directories g) in
      let g := set_required_directories g required in
      let final_list :=
        filter (fun x => negb (should_exclude (exclude_directories g) x)) required in
      if negb (opens w final_list) then None
      else
      Some {| globals := g;
              file_ops :=
                [top] ++ removals (working_directory g) files ++ writes
                ++ map (generate_default_cmake w) final_list;
              output :=
                printed
                ++ ["WARNING!!! Creating default CMakeLists.txt in the directories below. Don't forget to fix these later"]
                ++ map (fun req_dir => "Default CMakeLists.txt in:" +:+ req_dir)
                     final_list |}
  end.

(** ** Notions used to state the properties *)

(** Whether the line [raw], followed by [rest], is an assignment to
    [SUBDIRS], and whether some line of [content] is. *)
Definition assigns_subdirs (raw : string) (rest : list string) : bool :=
  let line := Py.strip raw in
  negb (Py.startswith line "#")
  && (Py.contains line "=" || Py.contains line "+=")
  && match logical_line line rest with
     | Some l =>
         match Py.split_on "=" l with
         | elements0 :: _ => Py.eqb (assigned_variable elements0) "SUBDIRS"
         | [] => false
         end
     | None => false
     end.

Fixpoint assigns_subdirs_in (content : list string) : bool :=
  match content with
  | [] => false
  | raw :: rest => assigns_subdirs raw rest || assigns_subdirs_in rest
  end.

(** A directory name as it stands in a [SUBDIRS] line: not empty, without
    blanks, ['='] or backslashes. *)
Definition plain_word (s : string) : bool :=
  Py.truthy s
  && forallb (fun c => negb (Py.isspace c)
                       && negb (bool_decide (c = "="%char))
                       && negb (bool_decide (c = Py.backslash_char)))
       (Py.chars s).

(** The option [o'] is [o] with, possibly, more extra defines. *)
Definition extends (o o' : Option.t) : Prop :=
  Option.name o' = Option.name o
  /\ Option.description o' = Option.description o
  /\ Option.status o' = Option.status o
  /\ Option.define o' = Option.define o
  /\ Option.define_value o' = Option.define_value o
  /\ Option.define_description o' = Option.define_description o
  /\ forall x, x ∈ Option.extra_defines o -> x ∈ Option.extra_defines o'.

(** Every option's name is its dictionary key up to case. *)
Definition named_by_key (opts : Dict.t Option.t) : Prop :=
  Forall (fun ko : string * Option.t =>
            Py.upper (Option.name (snd ko)) = Py.upper (fst ko)) opts.

(** No required directory is in the exclude set. *)
Definition required_not_excluded (g : Globals) : Prop :=
  Forall (fun d => should_exclude (exclude_directories g) d = false)
    (required_directories g).

(** Every [CMakeFile] is stored under its own directory. *)
Definition keyed_by_directory (files : Dict.t CMakeFile.t) : Prop :=
  Forall (fun kf : string * CMakeFile.t => CMakeFile.directory (snd kf) = fst kf) files.

(** A library is as it was, or has its condition joined to a [str]. *)
Definition same_but_condition_joined (before after : Library.t) : Prop :=
  after = before
  \/ after = Library.set_condition before
               (PyStr (PyText.join (Library.condition before))).

(** ** An example project, used to run the definitions

    A source tree with [./src/Makefile.am] and [./src/a.c]; [./src/b.c] is
    named in the makefile and missing on disk, and [./src/sub] is an empty
    directory, so that every [CMakeLists.txt] of the run can be opened.
    configure.ac declares the argument [foo] and binds the conditional
    [WITH_FOO] to it. *)

Definition example_makefile : list string :=
  [ "SUBDIRS = sub" +:+ Py.nl;
    "noinst_LIBRARIES = libx.a" +:+ Py.nl;
    "if WITH_FOO" +:+ Py.nl;
    "libx_a_SOURCES = a.c b.c" +:+ Py.nl;
    "endif" +:+ Py.nl ].

Definition example_configure_ac : list string :=
  [ "# configure.ac of the example" +:+ Py.nl;
    "AC_ARG_ENABLE(foo, [  --enable-foo  Enable foo support])" +:+ Py.nl;
    "AM_CONDITIONAL(WITH_FOO, test " +:+ Py.dquote +:+ "$foo" +:+ Py.dquote
    +:+ " = yes)" +:+ Py.nl;
    "AC_CONFIG_FILES([src/Makefile])" +:+ Py.nl ].

Definition example_world : World :=
  {| isfile := fun p => bool_decide (p = "./src/a.c")
                        || bool_decide (p = "./src/Makefile.am");
     glob := fun _ => [];
     strftime := "2020-01-01 00:00:00";
     similar := fun _ _ => 0%Q;
     set_order := remove_dups;
     readlines := fun path =>
                    if bool_decide (path = "./configure.ac")
                    then example_configure_ac else example_makefile;
     can_open := fun _ => true |}.

Definition example_world_later : World :=
  {| isfile := isfile example_world;
     glob := glob example_world;
     strftime := "2020-01-01 00:00:01";
     similar := similar example_world;
     set_order := set_order example_world;
     readlines := readlines example_world;
     can_open := can_open example_world |}.

Definition example_settings : TargetSettings := fun _ _ _ => (EmptyString, []).

(** A makefile that assigns [SUBDIRS] twice, and the example project with
    that makefile in [./src]. *)
Definition example_subdirs_makefile : list string :=
  [ "SUBDIRS = lib" +:+ Py.nl;
    "SUBDIRS += tests" +:+ Py.nl ].

Definition example_subdirs_world : World :=
  {| isfile := isfile example_world;
     glob := glob example_world;
     strftime := strftime example_world;
     similar := similar example_world;
     set_order := set_order example_world;
     readlines := fun _ => example_subdirs_makefile;
     can_open := can_open example_world |}.

Definition empty_globals : Globals :=
  {| working_directory := "."; exclude_directories := []; libraries := [];
     options := []; temp_defines := []; cmake_files := [];
     config_ac_variables := []; extra_content := [];
     required_directories := []; heap := [] |}.

Definition example_argument : string :=
  "AC_ARG_ENABLE(foo, [  --enable-foo  Enable foo support]) ".

Definition example_argument_yes : string :=
  "AC_ARG_ENABLE(bar, [  --disable-bar  Disable bar], [enable_bar=yes]) ".

Definition example_argument_bare : string := "AC_ARG_ENABLE(foo, yes) ".

Definition example_conditional : string :=
  "AM_CONDITIONAL(WITH_FOO, test " +:+ Py.dquote +:+ "$foo" +:+ Py.dquote
  +:+ " = yes) ".

Definition example_option : Option.t :=
  {| Option.name := "FOO"; Option.description := "Enable foo support";
     Option.status := "OFF"; Option.define := "WITH_FOO";
     Option.define_value := EmptyString;
     Option.define_description := EmptyString; Option.extra_defines := [] |}.

(** A define that no option binds exactly, and an option it resembles. *)
Definition example_define : Define.t :=
  {| Define.name := "HAVE_FOO_BAR"; Define.option_name := EmptyString;
     Define.description := "Define if foo bar is there"; Define.value := "1";
     Define.used := 0 |}.

Definition example_fuzzy_option : Option.t :=
  {| Option.name := "FOO_BAR"; Option.description := "Enable foo bar";
     Option.status := "OFF"; Option.define := EmptyString;
     Option.define_value := EmptyString;
     Option.define_description := EmptyString; Option.extra_defines := [] |}.

(** The globals after configure.ac: the option [FOO] bound to [WITH_FOO]. *)
Definition example_configured : Globals :=
  set_options empty_globals [("foo", example_option)].

(** The globals after [./src/Makefile.am] has been processed as well. *)
Definition example_parsed : Globals :=
  match process_makefile_am example_world "./src/Makefile.am" example_configured with
  | Some (g, _) => g
  | None => example_configured
  end.

(** The content [process_libraries] holds for [libx.a] in the example. *)
Definition example_library_text : string :=
  Py.join Py.nl
    [ "# Generating the library libx.a";
      "set(project " +:+ Py.dquote +:+ "x" +:+ Py.dquote +:+ ")";
      EmptyString;
      "set(${project}, " +:+ Py.dquote +:+ Py.dquote +:+ ")";
      "if (WITH_FOO)";
      "    list(APPEND ${project}_SOURCES";
      "    ";
      "    ${CMAKE_CURRENT_SOURCE_DIR}/a.c";
      "#    ${CMAKE_CURRENT_SOURCE_DIR}/b.c # File not found. Fix manually)";
      "endif()";
      EmptyString;
      "if (WITH_FOO)";
      "add_library ( x STATIC ${${project}_SOURCES} )";
      EmptyString;
      "endif()";
      EmptyString ].

(** Globals whose only option comes from a conditional binding. *)
Definition example_bound_only : Globals :=
  set_options empty_globals (process_conditional example_conditional []).

(** ** [process_libraries]: flags, include directories and link libraries

    The part of an iteration of [process_libraries] that [TargetSettings]
    stands for, as the script has it. *)

(** [s.replace(old, new)] for a non-empty [old]: the occurrences are
    replaced from the left and do not overlap; [skip] counts the characters
    of the occurrence just replaced that are still to be passed. *)
Fixpoint replace_chars (old new : list ascii) (skip : nat) (l : list ascii)
  : list ascii :=
  match l with
  | [] => []
  | c :: l' =>
      match skip with
      | S k => replace_chars old new k l'
      | 0 =>
          if Py.prefix_chars old l
          then new ++ replace_chars old new (length old - 1) l'
          else c :: replace_chars old new 0 l'
      end
  end.

Definition str_replace (old new s : string) : string :=
  Py.text (replace_chars (Py.chars old) (Py.chars new) 0 (Py.chars s)).

(** [make_nice_library_name] *)
Definition make_nice_library_name (link_name : string) : string :=
  let link_name := Py.remove_char "'" link_name in
  if Py.startswith link_name "-L" then link_name
  else
    let fullp := Py.split_on "/" link_name in
    let target_link_lib :=
      if 1 <? length fullp then List.last fullp EmptyString
      else Py.concat_all fullp in
    let target_link_lib :=
      if Py.has_char target_link_lib "." then
        let target_link_lib := hd EmptyString (Py.split_on "." target_link_lib) in
        if Py.startswith target_link_lib "lib"
        then Py.drop_front 3 target_link_lib else target_link_lib
      else target_link_lib in
    if Py.startswith target_link_lib "-l"
    then Py.drop_front 2 target_link_lib else target_link_lib.

(** The compile flags without ['$'] and ['@'], as they go into
    [COMPILE_FLAGS], and the flags that hold a reference. *)
Definition plain_flag (flag : string) : bool :=
  negb (Py.has_char flag "$") && negb (Py.has_char flag "@").

Definition plain_flags_text (flags : list string) : string :=
  Py.concat_all
    (map (fun flag => replace_quotes flag +:+ " ")
       (List.filter plain_flag flags)).

Definition compile_flags_command (library : Library.t) (final_flags : string)
  : string :=
  if Py.truthy final_flags then
    "set_target_properties( " +:+ Library.referred_name library +:+ Py.nl
    +:+ "    PROPERTIES COMPILE_FLAGS " +:+ Py.dquote +:+ final_flags
    +:+ Py.dquote +:+ Py.nl +:+ ")"
  else EmptyString.

(** [re.search("\$\(.*\)", flag)]: the text of the leftmost match.  The
    [.*] is greedy and does not pass a newline, so the match runs from the
    first ["$("] that has a [')'] after it on its line to the last such
    [')']. *)
Fixpoint upto_last_paren (l : list ascii) : option (list ascii) :=
  match l with
  | [] => None
  | c :: l' =>
      if bool_decide (c = ascii_of_nat 10) then None
      else
        match upto_last_paren l' with
        | Some m => Some (c :: m)
        | None => if bool_decide (c = ")"%char) then Some [c] else None
        end
  end.

Fixpoint search_variable (l : list ascii) : option (list ascii) :=
  match l with
  | [] => None
  | c :: l' =>
      let here :=
        if bool_decide (c = "$"%char) then
          match l' with
          | d :: r =>
              if bool_decide (d = "("%char) then
                match upto_last_paren r with
                | Some m => Some (c :: d :: m)
                | None => None
                end
              else None
          | [] => None
          end
        else None in
      match here with
      | Some m => Some m
      | None => search_variable l'
      end
  end.

(** The body of [for flag in to_work_with_flags]: the list being iterated
    over and [final_flags], after the iteration for [flag]. *)
Definition flag_step (config_ac_variables : Dict.t ConfigVar) (flag : string)
    (acc : list string * list string) : list string * list string :=
  let '(to_work_with_flags, final_flags) := acc in
  let '(to_work_with_flags, final_flags) :=
    if Py.has_char flag "$" then
      match search_variable (Py.chars flag) with
      | Some m =>
          let desired_var := remove_garbage (Py.text m) in
          if Py.eqb desired_var "top_srcdir"
          then (to_work_with_flags ++ ["{CMAKE_SOURCE_DIR}"], final_flags)
          else
            match Dict.get config_ac_variables desired_var with
            | Some value => (to_work_with_flags, final_flags ++ value)
            | None => (to_work_with_flags, final_flags)
            end
      | None => (to_work_with_flags, final_flags)
      end
    else (to_work_with_flags, final_flags) in
  (if bool_decide (flag ∈ to_work_with_flags)
   then list_remove flag to_work_with_flags else to_work_with_flags,
   final_flags).

(** The [for] loop over a list that its body changes: the iterator holds
    an index, reads the element at that index of the list as it is then,
    and stops when the index is past the end.  [fuel] bounds the number of
    iterations. *)
Fixpoint for_flags (fuel : nat) (config_ac_variables : Dict.t ConfigVar)
    (i : nat) (acc : list string * list string)
  : option (list string * list string) :=
  match fuel with
  | 0 => None
  | S fuel' =>
      match fst acc !! i with
      | None => Some acc
      | Some flag =>
          for_flags fuel' config_ac_variables (S i)
            (flag_step config_ac_variables flag acc)
      end
  end.

(** [while not done]: a pass of the [for] loop, then the test whether a
    flag with a ['$'] is left.  [fuel] bounds the number of passes. *)
Fixpoint while_flags (fuel : nat) (config_ac_variables : Dict.t ConfigVar)
    (acc : list string * list string)
  : option (list string * list string) :=
  match fuel with
  | 0 => None
  | S fuel' =>
      match for_flags (S (length (fst acc))) config_ac_variables 0 acc with
      | None => None
      | Some acc' =>
          if existsb (fun flag => Py.has_char flag "$") (fst acc')
          then while_flags fuel' config_ac_variables acc'
          else Some acc'
      end
  end.

(** The loop on the flags [to_work_with_flags]: what is left of them, and
    [final_flags].  Every iteration lowers [flags_measure], which is at
    most twice the length of the list, so the bound is never reached. *)
Definition substitute_flags (config_ac_variables : Dict.t ConfigVar)
    (to_work_with_flags : list string) : option (list string * list string) :=
  while_flags (S (2 * length to_work_with_flags)) config_ac_variables
    (to_work_with_flags, []).

(** The include directories found in [final_flags], and their command. *)
Definition include_directories (final_flags : list string) : list string :=
  flat_map
    (fun flag =>
       let flag := Py.strip (Py.remove_char "'" flag) in
       flat_map
         (fun newflag =>
            if Py.startswith (Py.strip newflag) "-I"
            then [str_replace "$(top_srcdir)" "${CMAKE_SOURCE_DIR}" newflag]
            else [])
         (Py.split flag))
    final_flags.

Definition include_directories_command (library : Library.t)
    (include_directories : list string) : string :=
  match include_directories with
  | [] => EmptyString
  | _ =>
      Py.nl +:+ "target_include_directories( " +:+ Library.referred_name library
      +:+ " PRIVATE"
      +:+ Py.concat_all
            (map (fun i_d => Py.nl +:+ "    " +:+ str_replace "-I" EmptyString i_d)
               include_directories)
      +:+ Py.nl +:+ ")" +:+ Py.nl
  end.

(** The body of [for link_name in library.link_with_libs]: the text added
    to [final_link_list] and the warning printed, if any. *)
Definition link_entry (h : Heap) (config_ac_variables : Dict.t ConfigVar)
    (library : Library.t) (link_name : string) : string * list string :=
  let target_link_lib := make_nice_library_name link_name in
  if Py.startswith target_link_lib "$" then
    let clean_tll_name := remove_garbage target_link_lib in
    match Dict.get (Library.just_variables library) clean_tll_name with
    | Some more_link_names =>
        (Py.concat_all
           (flat_map
              (fun more_link_names_list =>
                 map (fun real_link =>
                        Py.nl +:+ "    " +:+ make_nice_library_name real_link)
                   (heap_get h more_link_names_list))
              more_link_names), [])
    | None => (EmptyString, [])
    end
  else if Py.startswith target_link_lib "@" then
    let canname := Py.remove_char "@" target_link_lib in
    match Dict.get config_ac_variables canname with
    | Some libs =>
        (Py.concat_all
           (flat_map
              (fun lib =>
                 let link_lib_name := make_nice_library_name lib in
                 if negb (Py.startswith link_lib_name "-L")
                 then [Py.nl +:+ "    " +:+ link_lib_name] else [])
              (Py.split (Py.concat_all libs))), [])
    | None =>
        (Py.nl +:+ "#    " +:+ target_link_lib +:+ " # <-- FIX THIS",
         ["WARNING: " +:+ target_link_lib +:+ " in "
          +:+ (Library.directory library +:+ "/CMakeLists.txt")
          +:+ " was not indentifiable, fix it manually"])
    end
  else (Py.nl +:+ "    " +:+ target_link_lib, []).

Definition link_libraries_command (h : Heap)
    (config_ac_variables : Dict.t ConfigVar) (library : Library.t)
  : string * list string :=
  match Library.link_with_libs library with
  | [] => (EmptyString, [])
  | link_with_libs =>
      let entries := map (link_entry h config_ac_variables library) link_with_libs in
      (Py.nl +:+ "target_link_libraries( " +:+ Library.referred_name library
       +:+ Py.concat_all (map fst entries) +:+ Py.nl +:+ ")" +:+ Py.nl,
       flat_map snd entries)
  end.

(** The three commands of one library; [None] only if the loop on the flags
    ran out of its bound. *)
Definition target_settings_run (h : Heap)
    (config_ac_variables : Dict.t ConfigVar) (library : Library.t)
  : option (string * list string) :=
  let flags := Py.split (PyText.join (Library.compiler_flags library)) in
  let to_work_with_flags := List.filter (fun flag => negb (plain_flag flag)) flags in
  match substitute_flags config_ac_variables to_work_with_flags with
  | None => None
  | Some (_, final_flags) =>
      let links := link_libraries_command h config_ac_variables library in
      Some (compile_flags_command library (plain_flags_text flags)
            +:+ include_directories_command library
                  (include_directories final_flags)
            +:+ fst links,
            snd links)
  end.

(** The settings as [process_libraries] computes them; the loop on the
    flags always ends, so the second branch is never taken. *)
Definition target_settings : TargetSettings :=
  fun h config_ac_variables library =>
    match target_settings_run h config_ac_variables library with
    | Some r => r
    | None => (EmptyString, [])
    end.

(** ** Quick mode: [create_cmakefile]

    [os.path.join] of two components. *)
Definition pjoin (a b : string) : string :=
  if Py.startswith b "/" then b
  else if negb (Py.truthy a) || Py.endswith a "/" then a +:+ b
  else a +:+ "/" +:+ b.

(** [moc_header]: whether a line of the file, stripped, is [Q_OBJECT], and
    the line printed.  The file is one that [os.walk] listed, so it can be
    read. *)
Definition moc_header (w : World) (fn : string) : bool * string :=
  let found :=
    existsb (fun line => Py.eqb "Q_OBJECT" (Py.strip line)) (readlines w fn) in
  (found,
   "  Checking if " +:+ fn +:+ " is moc:" +:+ (if found then "True" else "False")).

(** The loop over [headers]: the lines written under [_HEADERS], the
    headers put aside in [moc_headers], and what [moc_header] printed. *)
Definition header_step (w : World) (path : string)
    (acc : string * list string * list string) (fn : string)
  : string * list string * list string :=
  let '(text, moc_headers, printed) := acc in
  let m := moc_header w (pjoin path fn) in
  if negb (fst m)
  then (text +:+ "    ${CMAKE_CURRENT_SOURCE_DIR}/" +:+ fn +:+ Py.nl,
        moc_headers, printed ++ [snd m])
  else (text, moc_headers ++ [fn], printed ++ [snd m]).

Definition source_lines (files : list string) : string :=
  Py.concat_all
    (map (fun fn => "    ${CMAKE_CURRENT_SOURCE_DIR}/" +:+ fn +:+ Py.nl) files).

(** The value [create_cmakefile] returns. *)
Record Created : Type := mkCreated {
  cpps_found : bool;
  headers_found : bool;
  mocs_found : bool;
  used_module : string
}.

(** The head of [create_cmakefile]: [full_module], the path below the
    working directory with its slashes turned into underscores. *)
Definition path_module (working_directory path : string) : string :=
  let full_module := Py.drop_front (String.length working_directory) path in
  if (1 <? String.length full_module)
     && match Py.chars full_module with
        | c :: _ => bool_decide (c = "/"%char)
        | [] => false
        end
  then Py.replace_char "/" "_" (Py.drop_front 1 full_module)
  else full_module.

(** [create_cmakefile]: the file written, the lines printed, and the value
    returned. *)
Definition create_cmakefile (w : World) (working_directory path : string)
    (cpps headers : list string) (module : string)
  : FileOp * list string * Created :=
  let full_module := path_module working_directory path in
  let text := "cmake_minimum_required(VERSION 2.8)" +:+ Py.nl in
  let text :=
    text +:+ "set (project "
    +:+ (if Py.truthy full_module then full_module else module)
    +:+ ")" +:+ Py.nl +:+ Py.nl in
  let full_module := if Py.truthy full_module then full_module else module in
  let text :=
    match cpps with
    | [] => text
    | _ => text +:+ "set(${project}_SOURCES" +:+ Py.nl +:+ source_lines cpps
           +:+ ")" +:+ Py.nl +:+ Py.nl
    end in
  let '(text, moc_headers, printed) :=
    match headers with
    | [] => (text, [], [])
    | _ =>
        let '(text, moc_headers, printed) :=
          fold_left (header_step w path) headers
            (text +:+ "set(${project}_HEADERS" +:+ Py.nl, [], []) in
        (text +:+ ")" +:+ Py.nl +:+ Py.nl, moc_headers, printed)
    end in
  let text :=
    match moc_headers with
    | [] => text
    | _ => text +:+ "set(${project}_MOC_HEADERS" +:+ Py.nl
           +:+ source_lines moc_headers +:+ ")" +:+ Py.nl +:+ Py.nl
    end in
  (WriteFile (pjoin path "CMakeLists.txt") text, printed,
   {| cpps_found := match cpps with [] => false | _ => true end;
      headers_found := match headers with [] => false | _ => true end;
      mocs_found := match moc_headers with [] => false | _ => true end;
      used_module := full_module |}).

(** ** Further notions

    A character of a symbol as it stands first in an [AC_DEFINE]: no blank,
    comma or parenthesis. *)
Definition symbol_char (c : ascii) : bool :=
  negb (Py.isspace c)
  && negb (bool_decide (c = ","%char))
  && negb (bool_decide (c = "("%char))
  && negb (bool_decide (c = ")"%char)).

(** The define [d'] is [d], possibly marked used. *)
Definition marked (d d' : Define.t) : Prop :=
  d' = d \/ d' = Define.set_used d 1.

(** The option [o'] has the declaration of [o] (name, description, status)
    and its extra defines, possibly followed by more. *)
Definition same_declaration (o o' : Option.t) : Prop :=
  Option.name o' = Option.name o
  /\ Option.description o' = Option.description o
  /\ Option.status o' = Option.status o
  /\ exists more, Option.extra_defines o' = Option.extra_defines o ++ more.

(** The target [b] is the target [a]: what identifies a target and decides
    its creation command is the same; the file list, the condition, the
    flags, the link libraries and the variables may differ. *)
Definition same_target (a b : Library.t) : Prop :=
  Library.name b = Library.name a
  /\ Library.dependant b = Library.dependant a
  /\ Library.target_type b = Library.target_type a
  /\ Library.referred_name b = Library.referred_name a
  /\ Library.canonic_name b = Library.canonic_name a
  /\ Library.directory b = Library.directory a
  /\ Library.type b = Library.type a.

(** The second run went from [st0] to [st]: the targets are the same, and
    every name recorded in [libraries_in_this_file] is the canonic name of
    a target, if that held before. *)
Definition run_names_known (st : MakefileRun) : Prop :=
  Forall (fun n => n ∈ map Library.canonic_name (run_libraries st))
    (libraries_in_this_file st).

Definition run_step (st0 st : MakefileRun) : Prop :=
  Forall2 same_target (run_libraries st0) (run_libraries st)
  /\ (run_names_known st0 -> run_names_known st).

(** The number of flags that hold a ['$'], and the measure that every
    iteration of the loop on the flags lowers. *)
Definition dollar_flags (flags : list string) : nat :=
  length (List.filter (fun flag => Py.has_char flag "$") flags).

Definition flags_measure (flags : list string) : nat :=
  length flags + dollar_flags flags.

(** A value recorded for some variable of configure.ac. *)
Definition configured_value (config_ac_variables : Dict.t ConfigVar)
    (v : string) : Prop :=
  exists name value,
    Dict.get config_ac_variables name = Some value /\ v ∈ value.

(** A character of a library's base name: no quote, slash or dot. *)
Definition library_name_char (c : ascii) : bool :=
  negb (bool_decide (c = "'"%char))
  && negb (bool_decide (c = "/"%char))
  && negb (bool_decide (c = "."%char)).

(** The canonic names of the targets filed in the [CMakeFile]s, and the
    number of texts they hold. *)
Definition filed_targets (files : Dict.t CMakeFile.t) : list string :=
  flat_map (fun kf : string * CMakeFile.t => CMakeFile.libraries (snd kf)) files.

Definition filed_contents (files : Dict.t CMakeFile.t) : list string :=
  flat_map (fun kf : string * CMakeFile.t =>
              CMakeFile.contained_libraries_content (snd kf)) files.

(** The generation phase on the example project, with the settings of the
    script. *)
Definition example_generated : Generated :=
  match generate example_world target_settings example_parsed with
  | Some gen => gen
  | None => mkGenerated example_parsed [] []
  end.

(** The names of the options are in ascending order. *)
Definition names_ascending (opts : list (string * Option.t)) : Prop :=
  Sorted (fun a b : string * Option.t =>
            String.leb (Option.name (snd a)) (Option.name (snd b)) = true) opts.

(** The condition of a library is the empty list it starts as, or a [str]. *)
Definition condition_joined (library : Library.t) : Prop :=
  Library.condition library = PyChars []
  \/ exists s, Library.condition library = PyStr s.

(** What the classification of a target is made of: its name, whether it
    is a program or a library, the library type and the dependant flag. *)
Definition target_kind (l : Library.t) : string * TargetType * string * bool :=
  (Library.name l, Library.target_type l, Library.type l, Library.dependant l).

(** * Properties *)

(** ** Strings and dictionaries *)

Lemma append_nil_r (s : string) : s +:+ EmptyString = s.
Proof.
  induction s as [|c s IH]; [reflexivity | exact (f_equal (String c) IH)].
Qed.

Lemma append_assoc (a b c : string) : (a +:+ b) +:+ c = a +:+ (b +:+ c).
Proof.
  induction a as [|x a IH]; [reflexivity | exact (f_equal (String x) IH)].
Qed.

Lemma chars_text (l : list ascii) : Py.chars (Py.text l) = l.
Proof. apply list_ascii_of_string_of_list_ascii. Qed.

Lemma text_chars (s : string) : Py.text (Py.chars s) = s.
Proof. apply string_of_list_ascii_of_string. Qed.

Lemma chars_append (a b : string) : Py.chars (a +:+ b) = Py.chars a ++ Py.chars b.
Proof.
  induction a as [|x a IH]; [reflexivity | exact (f_equal (cons x) IH)].
Qed.

Lemma concat_all_app (xs ys : list string) :
  Py.concat_all (xs ++ ys) = Py.concat_all xs +:+ Py.concat_all ys.
Proof.
  induction xs as [|x xs IH]; simpl; [reflexivity|].
  now rewrite IH, append_assoc.
Qed.

(** ** [filelist_to_string] *)

Lemma render_entries_from (w : World) (dir : string) (n : nat)
    (files : list string) (acc : string * list string) :
  fold_left
    (fun acc file =>
       let e := file_entry w dir n file in
       (fst acc +:+ fst e, snd acc ++ snd e)) files acc
  = (fst acc +:+ Py.concat_all (map (fun f => fst (file_entry w dir n f)) files),
     snd acc ++ flat_map (fun f => snd (file_entry w dir n f)) files).
Proof.
  revert acc; induction files as [|f files IH]; intros [t d]; simpl.
  - now rewrite append_nil_r, app_nil_r.
  - rewrite IH; simpl. now rewrite append_assoc, <- app_assoc.
Qed.

Lemma render_entries_eq (w : World) (dir : string) (n : nat) (files : list string) :
  render_entries w dir n files
  = (Py.concat_all (map (fun f => fst (file_entry w dir n f)) files),
     flat_map (fun f => snd (file_entry w dir n f)) files).
Proof. unfold render_entries. now rewrite render_entries_from. Qed.

Lemma render_entries_split (w : World) (dir : string) (n : nat)
    (before after : list string) (file : string) :
  render_entries w dir n (before ++ file :: after)
  = (fst (render_entries w dir n before) +:+ fst (file_entry w dir n file)
     +:+ fst (render_entries w dir n after),
     snd (render_entries w dir n before) ++ snd (file_entry w dir n file)
     ++ snd (render_entries w dir n after)).
Proof.
  rewrite !render_entries_eq; simpl.
  rewrite map_app, concat_all_app, flat_map_app. reflexivity.
Qed.

Lemma sorted_permutation (l : list string) : Py.sorted l ≡ₚ l.
Proof. apply merge_sort_Permutation. Qed.

Lemma sorted_unique (l1 l2 : list string) :
  l1 ≡ₚ l2 -> Py.sorted l1 = Py.sorted l2.
Proof.
  intros Hp. unfold Py.sorted.
  apply (StronglySorted_unique String.le).
  - apply StronglySorted_merge_sort; apply _.
  - apply StronglySorted_merge_sort; apply _.
  - now rewrite !merge_sort_Permutation.
Qed.

(** C7.  Every name of the file list has its entry in the text, at its place
    in the sorted order: the plain source line when the file is on disk, and
    otherwise the commented-out line with the marker, together with the
    warning that is printed.  The function is total and the entries of the
    other files surround it, so a missing file stops nothing. *)
Theorem filelist_to_string_every_file (w : World) (elements : list string)
    (dir : string) (n : nat) (file : string) :
  file ∈ elements ->
  exists before after,
    Py.sorted elements = before ++ file :: after
    /\ filelist_to_string w elements dir n
       = (fst (render_entries w dir n before) +:+ fst (file_entry w dir n file)
          +:+ fst (render_entries w dir n after),
          snd (render_entries w dir n before) ++ snd (file_entry w dir n file)
          ++ snd (render_entries w dir n after))
    /\ (isfile w (dir +:+ "/" +:+ file) = true ->
        file_entry w dir n file
        = (Py.nl +:+ Py.spaces n +:+ "${CMAKE_CURRENT_SOURCE_DIR}/" +:+ file, []))
    /\ (isfile w (dir +:+ "/" +:+ file) = false ->
        file_entry w dir n file
        = (Py.nl +:+ "#" +:+ Py.spaces n +:+ "${CMAKE_CURRENT_SOURCE_DIR}/"
           +:+ file +:+ " # File not found. Fix manually",
           ["WARNING!!! The file: " +:+ dir +:+ "/" +:+ file
            +:+ " is present in the Makefile.am but cannot be found in the filesystem"])).
Proof.
  intros Hin.
  assert (Hs : file ∈ Py.sorted elements) by now rewrite sorted_permutation.
  apply list_elem_of_split in Hs as (before & after & Hs).
  exists before, after. split; [exact Hs|]. split.
  - unfold filelist_to_string. rewrite Hs. apply render_entries_split.
  - unfold file_entry. split; intros ->; reflexivity.
Qed.

Lemma filelist_to_string_every_file_witness :
  "b.c" ∈ ["b.c"; "a.c"]
  /\ exists before after,
      Py.sorted ["b.c"; "a.c"] = before ++ "b.c" :: after
      /\ filelist_to_string example_world ["b.c"; "a.c"] "./src" 4
         = (fst (render_entries example_world "./src" 4 before)
            +:+ fst (file_entry example_world "./src" 4 "b.c")
            +:+ fst (render_entries example_world "./src" 4 after),
            snd (render_entries example_world "./src" 4 before)
            ++ snd (file_entry example_world "./src" 4 "b.c")
            ++ snd (render_entries example_world "./src" 4 after))
      /\ (isfile example_world ("./src" +:+ "/" +:+ "b.c") = true ->
          file_entry example_world "./src" 4 "b.c"
          = (Py.nl +:+ Py.spaces 4 +:+ "${CMAKE_CURRENT_SOURCE_DIR}/" +:+ "b.c", []))
      /\ (isfile example_world ("./src" +:+ "/" +:+ "b.c") = false ->
          file_entry example_world "./src" 4 "b.c"
          = (Py.nl +:+ "#" +:+ Py.spaces 4 +:+ "${CMAKE_CURRENT_SOURCE_DIR}/"
             +:+ "b.c" +:+ " # File not found. Fix manually",
             ["WARNING!!! The file: " +:+ "./src" +:+ "/" +:+ "b.c"
              +:+ " is present in the Makefile.am but cannot be found in the filesystem"])).
Proof.
  split.
  - apply list_elem_of_here.
  - apply (filelist_to_string_every_file example_world ["b.c"; "a.c"] "./src" 4 "b.c").
    apply list_elem_of_here.
Defined.

(** C10.  Two file lists that are permutations of each other are rendered to
    the same text, and the same warnings are printed, whatever the directory
    and the indentation: the names are emitted in ascending order. *)
Theorem filelist_to_string_permutation (w : World) (l1 l2 : list string)
    (dir : string) (n : nat) :
  l1 ≡ₚ l2 ->
  filelist_to_string w l1 dir n = filelist_to_string w l2 dir n.
Proof.
  intros Hp. unfold filelist_to_string. now rewrite (sorted_unique l1 l2 Hp).
Qed.

Lemma filelist_to_string_permutation_witness :
  ["b.c"; "a.c"; "c.c"] ≡ₚ ["c.c"; "b.c"; "a.c"]
  /\ filelist_to_string example_world ["b.c"; "a.c"; "c.c"] "./src" 4
     = filelist_to_string example_world ["c.c"; "b.c"; "a.c"] "./src" 4.
Proof.
  assert (Hp : ["b.c"; "a.c"; "c.c"] ≡ₚ ["c.c"; "b.c"; "a.c"]).
  { change (["b.c"; "a.c"] ++ ["c.c"] ≡ₚ ["c.c"] ++ ["b.c"; "a.c"]).
    apply Permutation_app_comm. }
  split; [exact Hp|].
  apply (filelist_to_string_permutation example_world _ _ "./src" 4 Hp).
Defined.

(** ** Substrings, prefixes and [strip] *)

Lemma prefix_chars_spec (p l : list ascii) :
  Py.prefix_chars p l = true <-> exists r, l = p ++ r.
Proof.
  revert l; induction p as [|a p IH]; intros l; simpl.
  - split; [intros _; now exists l | reflexivity].
  - destruct l as [|b l].
    + split; [discriminate | intros [r Hr]; discriminate].
    + destruct (decide (a = b)) as [->|Hne].
      * rewrite IH. split; intros [r Hr]; exists r; [now rewrite Hr | now injection Hr].
      * split; [discriminate | intros [r Hr]; injection Hr; congruence].
Qed.

Lemma infix_chars_spec (p l : list ascii) :
  Py.infix_chars p l = true <-> exists a b, l = a ++ p ++ b.
Proof.
  induction l as [|x l IH]; simpl.
  - rewrite orb_false_r, prefix_chars_spec. split.
    + intros [r Hr]. now exists [], r.
    + intros (a & b & H). destruct a; [now exists b | discriminate].
  - rewrite orb_true_iff, prefix_chars_spec, IH. split.
    + intros [[r Hr] | (a & b & H)].
      * now exists [], r.
      * exists (x :: a), b. now rewrite H.
    + intros (a & b & H). destruct a as [|y a].
      * left. now exists b.
      * right. injection H as _ H. now exists a, b.
Qed.

(** An occurrence of a word cannot start inside a prefix that lacks the
    word's first character, nor end inside a suffix that lacks its last. *)
Lemma infix_skip_prefix (c : ascii) (p pre m a b : list ascii) :
  Forall (fun x => x <> c) pre ->
  pre ++ m = a ++ (c :: p) ++ b ->
  exists a', m = a' ++ (c :: p) ++ b.
Proof.
  revert a; induction pre as [|x pre IH]; intros a Hall H.
  - now exists a.
  - inversion Hall as [|? ? Hx Hpre]; subst.
    destruct a as [|y a]; simpl in H; injection H as Hxy H.
    + congruence.
    + now apply (IH a).
Qed.

Lemma infix_skip_suffix (c : ascii) (p suf m a b : list ascii) :
  Forall (fun x => x <> c) suf ->
  m ++ suf = a ++ (p ++ [c]) ++ b ->
  exists b', m = a ++ (p ++ [c]) ++ b'.
Proof.
  revert b; induction suf as [|x suf IH] using rev_ind; intros b Hall H.
  - exists b. now rewrite app_nil_r in H.
  - apply Forall_app in Hall as [Hsuf Hx].
    inversion Hx as [|? ? Hxc _]; subst.
    destruct b as [|y b _] using rev_ind.
    + rewrite app_nil_r in H. rewrite !app_assoc in H.
      apply app_inj_tail in H as [_ H]. congruence.
    + rewrite !app_assoc in H. apply app_inj_tail in H as [H _].
      apply (IH b Hsuf). now rewrite H, !app_assoc.
Qed.

Lemma lstrip_chars_spec (l : list ascii) :
  exists ws, l = ws ++ Py.lstrip_chars l
             /\ Forall (fun x => Py.isspace x = true) ws.
Proof.
  induction l as [|c l (ws & Hl & Hws)]; simpl.
  - now exists [].
  - destruct (Py.isspace c) eqn:Hc.
    + exists (c :: ws). split; [simpl; now rewrite <- Hl | now constructor].
    + now exists [].
Qed.

Lemma rstrip_chars_spec (l : list ascii) :
  exists ws, l = Py.rstrip_chars l ++ ws
             /\ Forall (fun x => Py.isspace x = true) ws.
Proof.
  induction l as [|c l (ws & Hl & Hws)]; simpl.
  - now exists [].
  - destruct (Py.rstrip_chars l) as [|r rs] eqn:Hr.
    + destruct (Py.isspace c) eqn:Hc.
      * exists (c :: ws). split; [simpl in *; now rewrite <- Hl | now constructor].
      * exists ws. split; [simpl in *; now rewrite <- Hl | assumption].
    + exists ws. split; [simpl in *; now rewrite <- Hl | assumption].
Qed.

Lemma strip_spec (s : string) :
  exists ws1 ws2,
    Py.chars s = ws1 ++ Py.chars (Py.strip s) ++ ws2
    /\ Forall (fun x => Py.isspace x = true) ws1
    /\ Forall (fun x => Py.isspace x = true) ws2.
Proof.
  unfold Py.strip. rewrite chars_text.
  destruct (lstrip_chars_spec (Py.chars s)) as (ws1 & H1 & Hws1).
  destruct (rstrip_chars_spec (Py.lstrip_chars (Py.chars s))) as (ws2 & H2 & Hws2).
  exists ws1, ws2. split; [|now split].
  now rewrite <- H2.
Qed.

(** [strip] neither adds nor loses an occurrence of a word that begins and
    ends with a character that is not a blank. *)
Lemma contains_strip (s : string) (c d : ascii) (p : list ascii) :
  Py.isspace c = false -> Py.isspace d = false ->
  Py.contains (Py.strip s) (Py.text (c :: p ++ [d]))
  = Py.contains s (Py.text (c :: p ++ [d])).
Proof.
  intros Hc Hd. unfold Py.contains. rewrite chars_text.
  destruct (strip_spec s) as (ws1 & ws2 & Hs & Hws1 & Hws2).
  apply eq_true_iff_eq. rewrite !infix_chars_spec. split.
  - intros (a & b & H). exists (ws1 ++ a), (b ++ ws2).
    rewrite Hs, H. now rewrite <- !app_assoc.
  - intros (a & b & H). rewrite Hs in H.
    apply infix_skip_prefix in H as [a' H].
    2:{ eapply Forall_impl; [exact Hws1|]. simpl; intros x Hx ->. congruence. }
    change (c :: p ++ [d]) with ((c :: p) ++ [d]) in H.
    apply infix_skip_suffix in H as [b' H].
    2:{ eapply Forall_impl; [exact Hws2|]. simpl; intros x Hx ->. congruence. }
    now exists a', b'.
Qed.

(** Dropping a head that lacks the word's first character keeps the
    occurrences of the word. *)
Lemma contains_drop_front (s head : string) (c : ascii) (p : list ascii) :
  Py.startswith s head = true ->
  Forall (fun x => x <> c) (Py.chars head) ->
  Py.contains (Py.drop_front (String.length head) s) (Py.text (c :: p))
  = Py.contains s (Py.text (c :: p)).
Proof.
  intros Hstart Hhead. unfold Py.contains, Py.drop_front.
  rewrite !chars_text.
  apply prefix_chars_spec in Hstart as [r Hr].
  assert (Hlen : String.length head = length (Py.chars head)).
  { clear. induction head as [|x h IH]; simpl; [reflexivity | now rewrite IH]. }
  rewrite Hr, Hlen, drop_app_length.
  apply eq_true_iff_eq. rewrite !infix_chars_spec. split.
  - intros (a & b & H). exists (Py.chars head ++ a), b.
    now rewrite H, <- app_assoc.
  - intros (a & b & H).
    apply infix_skip_prefix in H as [a' H]; [now exists a', b | assumption].
Qed.

(** ** Dictionaries *)

Lemma dict_get_set_eq {V} (d : Dict.t V) (k : string) (v : V) :
  Dict.get (Dict.set d k v) k = Some v.
Proof.
  induction d as [|[k' v'] d IH]; simpl.
  - now rewrite decide_True.
  - destruct (decide (k' = k)) as [->|Hne]; simpl.
    + now rewrite decide_True.
    + now rewrite decide_False.
Qed.

Lemma dict_get_set_ne {V} (d : Dict.t V) (k k' : string) (v : V) :
  k <> k' -> Dict.get (Dict.set d k v) k' = Dict.get d k'.
Proof.
  intros Hne. induction d as [|[k0 v0] d IH]; simpl.
  - now rewrite decide_False.
  - destruct (decide (k0 = k)) as [->|Hk]; simpl.
    + now rewrite !decide_False.
    + destruct (decide (k0 = k')); [reflexivity | exact IH].
Qed.

(** ** [process_argument] *)

Lemma argument_status_of_line (line : string) :
  Py.startswith line "AC_ARG_ENABLE(" = true ->
  argument_status line = if Py.contains line "=yes" then "ON" else "OFF".
Proof.
  intros Hstart. unfold argument_status, argument_text.
  change "=yes" with (Py.text ("="%char :: ["y"; "e"]%char ++ ["s"%char])).
  rewrite contains_strip by reflexivity.
  change (Py.text ("="%char :: ["y"; "e"]%char ++ ["s"%char]))
    with (Py.text ("="%char :: ["y"; "e"; "s"]%char)).
  rewrite contains_drop_front; [reflexivity | exact Hstart |].
  repeat constructor; discriminate.
Qed.

Lemma finalize_status (o : Option.t) :
  1 < String.length (Option.status o) ->
  Option.status (Option.finalize o) = Option.status o.
Proof.
  intros Hlen. unfold Option.finalize.
  set (o1 := if String.length (Option.description o) <=? 1
             then Option.set_description o ("Enable " +:+ Option.name o) else o).
  assert (H1 : Option.status o1 = Option.status o)
    by (unfold o1; destruct (_ <=? 1); reflexivity).
  assert (H2 : (String.length (Option.status o1) <=? 1) = false)
    by (rewrite H1; apply Nat.leb_gt; exact Hlen).
  rewrite H2.
  destruct (String.length (Option.define_description o1) <=? 1); simpl; exact H1.
Qed.

(** C9.  For an argument declaration that [process_argument] handles, the
    option created or updated under the argument's name has the status ON
    when the raw text contains [=yes] and OFF otherwise, and [finalize]
    leaves that status in place. *)
Theorem process_argument_status (line : string) (opts opts' : Dict.t Option.t) :
  Py.startswith line "AC_ARG_ENABLE(" = true ->
  process_argument line opts = Some opts' ->
  exists o,
    Dict.get opts' (argument_name line) = Some o
    /\ Option.status o = (if Py.contains line "=yes" then "ON" else "OFF")
    /\ (Option.status o = "ON" <-> Py.contains line "=yes" = true)
    /\ Option.status (Option.finalize o) = Option.status o.
Proof.
  intros Hstart Hrun. unfold process_argument in Hrun.
  destruct (argument_description _) as [d|]; [|discriminate].
  assert (Hfin : forall o : Option.t,
             Option.status o = argument_status line ->
             Option.status o = (if Py.contains line "=yes" then "ON" else "OFF")
             /\ (Option.status o = "ON" <-> Py.contains line "=yes" = true)
             /\ Option.status (Option.finalize o) = Option.status o).
  { intros o Ho. rewrite (argument_status_of_line line Hstart) in Ho.
    split; [exact Ho|]. split.
    - rewrite Ho. destruct (Py.contains line "=yes"); split; congruence.
    - apply finalize_status. rewrite Ho.
      destruct (Py.contains line "=yes"); simpl; lia. }
  destruct (Dict.get opts (argument_name line)) as [o|];
    injection Hrun as <-; rewrite dict_get_set_eq;
    eexists; (split; [reflexivity|]); apply Hfin; reflexivity.
Qed.

Lemma process_argument_status_witness :
  Py.startswith example_argument_yes "AC_ARG_ENABLE(" = true
  /\ process_argument example_argument_yes []
     = Some [("bar", Option.mk "BAR" "Disable bar" "ON" "" "" "" [])]
  /\ exists o,
      Dict.get [("bar", Option.mk "BAR" "Disable bar" "ON" "" "" "" [])]
        (argument_name example_argument_yes) = Some o
      /\ Option.status o
         = (if Py.contains example_argument_yes "=yes" then "ON" else "OFF")
      /\ (Option.status o = "ON" <-> Py.contains example_argument_yes "=yes" = true)
      /\ Option.status (Option.finalize o) = Option.status o.
Proof.
  split; [reflexivity|]. split; [reflexivity|].
  apply (process_argument_status example_argument_yes []); reflexivity.
Defined.

(** ** The merge of option sightings *)

(** C2, as stated, fails: a second argument declaration for [foo] that
    carries no bracketed description replaces the description recorded by
    the first with the empty string (and the name by the raw argument
    name). *)
Lemma later_argument_clears_description :
  process_argument example_argument []
  = Some [("foo", Option.mk "FOO" "Enable foo support" "OFF" "" "" "" [])]
  /\ process_argument example_argument_bare
       [("foo", Option.mk "FOO" "Enable foo support" "OFF" "" "" "" [])]
     = Some [("foo", Option.mk "foo" "" "OFF" "" "" "" [])].
Proof. split; reflexivity. Qed.

Lemma argument_status_nonempty (line : string) :
  argument_status line <> EmptyString.
Proof. unfold argument_status. destruct (Py.contains _ _); discriminate. Qed.

(** C2, amended.  The merge goes by dictionary key.  An argument declaration
    under an existing key replaces the description and the status by the
    parsed ones and keeps the define, its value, its comment and the extra
    defines; a conditional binding under an existing key replaces the define
    alone.  An option seen in both, in either order, ends with the parsed
    description, a status that is ON or OFF, and the symbol of the binding. *)
Theorem option_merge_by_key (arg cond : string) (opts : Dict.t Option.t)
    (d : list ascii) :
  argument_name arg = conditional_option cond ->
  argument_description (Py.chars (argument_text arg)) = Some d ->
  let key := argument_name arg in
  (forall o, Dict.get opts key = Some o ->
     exists opts' o',
       process_argument arg opts = Some opts'
       /\ Dict.get opts' key = Some o'
       /\ Option.description o' = Py.text d
       /\ Option.status o' = argument_status arg
       /\ Option.define o' = Option.define o
       /\ Option.define_value o' = Option.define_value o
       /\ Option.define_description o' = Option.define_description o
       /\ Option.extra_defines o' = Option.extra_defines o)
  /\ (forall o, Dict.get opts key = Some o ->
        exists o',
          Dict.get (process_conditional cond opts) key = Some o'
          /\ Option.define o' = conditional_define cond
          /\ Option.name o' = Option.name o
          /\ Option.description o' = Option.description o
          /\ Option.status o' = Option.status o
          /\ Option.define_value o' = Option.define_value o
          /\ Option.define_description o' = Option.define_description o
          /\ Option.extra_defines o' = Option.extra_defines o)
  /\ (exists opts1 o1,
        process_argument arg opts = Some opts1
        /\ Dict.get (process_conditional cond opts1) key = Some o1
        /\ Option.description o1 = Py.text d
        /\ Option.status o1 = argument_status arg
        /\ Option.status o1 <> EmptyString
        /\ Option.define o1 = conditional_define cond)
  /\ (exists opts2 o2,
        process_argument arg (process_conditional cond opts) = Some opts2
        /\ Dict.get opts2 key = Some o2
        /\ Option.description o2 = Py.text d
        /\ Option.status o2 = argument_status arg
        /\ Option.status o2 <> EmptyString
        /\ Option.define o2 = conditional_define cond).
Proof.
  intros Hkey Hd key.
  assert (Harg : forall opts0,
             exists o', process_argument arg opts0
                        = Some (Dict.set opts0 key o')
                        /\ Option.description o' = Py.text d
                        /\ Option.status o' = argument_status arg
                        /\ forall o, Dict.get opts0 key = Some o ->
                             Option.define o' = Option.define o
                             /\ Option.define_value o' = Option.define_value o
                             /\ Option.define_description o'
                                = Option.define_description o
                             /\ Option.extra_defines o' = Option.extra_defines o).
  { intros opts0. unfold process_argument. rewrite Hd. fold key.
    destruct (Dict.get opts0 key) as [o0|] eqn:Hget; eexists;
      (split; [reflexivity|]); (split; [reflexivity|]);
      (split; [reflexivity|]).
    - intros o [= <-]. repeat split.
    - intros o [=]. }
  assert (Hcond : forall opts0,
             exists o', process_conditional cond opts0
                        = Dict.set opts0 key o'
                        /\ Option.define o' = conditional_define cond
                        /\ forall o, Dict.get opts0 key = Some o ->
                             Option.name o' = Option.name o
                             /\ Option.description o' = Option.description o
                             /\ Option.status o' = Option.status o
                             /\ Option.define_value o' = Option.define_value o
                             /\ Option.define_description o'
                                = Option.define_description o
                             /\ Option.extra_defines o' = Option.extra_defines o).
  { intros opts0. unfold process_conditional. rewrite <- Hkey. fold key.
    destruct (Dict.get opts0 key) as [o0|] eqn:Hget; eexists;
      (split; [reflexivity|]); (split; [reflexivity|]).
    - intros o [= <-]. repeat split.
    - intros o [=]. }
  split; [|split; [|split]].
  - intros o Hget. destruct (Harg opts) as (o' & Hrun & Hdesc & Hst & Hkeep).
    destruct (Hkeep o Hget) as (H1 & H2 & H3 & H4).
    exists (Dict.set opts key o'), o'.
    rewrite dict_get_set_eq. repeat split; assumption.
  - intros o Hget. destruct (Hcond opts) as (o' & Hrun & Hdef & Hkeep).
    destruct (Hkeep o Hget) as (H1 & H2 & H3 & H4 & H5 & H6).
    exists o'. rewrite Hrun, dict_get_set_eq. repeat split; assumption.
  - destruct (Harg opts) as (o' & Hrun & Hdesc & Hst & _).
    destruct (Hcond (Dict.set opts key o')) as (o1 & Hrun1 & Hdef & Hkeep).
    destruct (Hkeep o' (dict_get_set_eq _ _ _)) as (_ & H2 & H3 & _).
    exists (Dict.set opts key o'), o1.
    rewrite Hrun1, dict_get_set_eq.
    repeat split; try congruence.
    rewrite H3, Hst. apply argument_status_nonempty.
  - destruct (Hcond opts) as (o' & Hrun & Hdef & _).
    destruct (Harg (Dict.set opts key o')) as (o2 & Hrun2 & Hdesc & Hst & Hkeep).
    destruct (Hkeep o' (dict_get_set_eq _ _ _)) as (H1 & _).
    exists (Dict.set (Dict.set opts key o') key o2), o2.
    rewrite Hrun, Hrun2, dict_get_set_eq.
    repeat split; try congruence.
    rewrite Hst. apply argument_status_nonempty.
Qed.

Lemma option_merge_by_key_witness :
  argument_name example_argument = conditional_option example_conditional
  /\ argument_description (Py.chars (argument_text example_argument))
     = Some (Py.chars "Enable foo support")
  /\ exists opts1 o1,
      process_argument example_argument [] = Some opts1
      /\ Dict.get (process_conditional example_conditional opts1)
           (argument_name example_argument) = Some o1
      /\ Option.description o1 = Py.text (Py.chars "Enable foo support")
      /\ Option.status o1 = argument_status example_argument
      /\ Option.status o1 <> EmptyString
      /\ Option.define o1 = conditional_define example_conditional.
Proof.
  split; [reflexivity|]. split; [reflexivity|].
  exact (proj1 (proj2 (proj2
           (option_merge_by_key example_argument example_conditional []
              (Py.chars "Enable foo support") eq_refl eq_refl)))).
Defined.

(** ** The fuzzy pass over the unused defines *)

Lemma fuzzy_match_upper (w : World) (x a b : string) :
  Py.upper a = Py.upper b -> fuzzy_match w x a = fuzzy_match w x b.
Proof. intros H. unfold fuzzy_match. now rewrite H. Qed.

Lemma lookup_map_attach (w : World) (k : string) (opts : Dict.t Option.t)
    (i : nat) (ko : string * Option.t) :
  opts !! i = Some ko -> map (attach w k) opts !! i = Some (attach w k ko).
Proof.
  revert i; induction opts as [|x opts IH]; intros [|i] H; simpl in *;
    try discriminate.
  - now injection H as ->.
  - now apply IH.
Qed.

Lemma extends_refl (o : Option.t) : extends o o.
Proof. repeat split; auto. Qed.

Lemma extends_trans (a b c : Option.t) : extends a b -> extends b c -> extends a c.
Proof.
  intros (A1 & A2 & A3 & A4 & A5 & A6 & A7) (B1 & B2 & B3 & B4 & B5 & B6 & B7).
  repeat split; try congruence. auto.
Qed.

Lemma attach_extends (w : World) (k oname : string) (o : Option.t) :
  exists o', attach w k (oname, o) = (oname, o') /\ extends o o'
             /\ (fuzzy_match w k oname = true -> k ∈ Option.extra_defines o').
Proof.
  unfold attach; simpl. destruct (fuzzy_match w k oname).
  - eexists. split; [reflexivity|]. split.
    + repeat split; simpl; auto. intros x Hx. apply elem_of_app. now left.
    + intros _. simpl. apply elem_of_app. right. apply list_elem_of_here.
  - exists o. split; [reflexivity|]. split; [apply extends_refl | discriminate].
Qed.

Lemma match_define_options (w : World) (opts : Dict.t Option.t)
    (kd : string * Define.t) (i : nat) (oname : string) (o : Option.t) :
  opts !! i = Some (oname, o) ->
  exists o', fst (match_define w opts kd) !! i = Some (oname, o')
             /\ extends o o'
             /\ (Define.used (snd kd) = 0 -> fuzzy_match w (fst kd) oname = true ->
                 fst kd ∈ Option.extra_defines o'
                 /\ snd (match_define w opts kd)
                    = (fst kd, Define.set_used (snd kd) 1)).
Proof.
  intros Hi. destruct kd as [k d]; simpl.
  destruct (Define.used d =? 0) eqn:Hu; simpl.
  - rewrite (lookup_map_attach w k opts i _ Hi).
    destruct (attach_extends w k oname o) as (o' & -> & Hext & Hatt).
    exists o'. split; [reflexivity|]. split; [exact Hext|].
    intros _ Hm. split; [now apply Hatt|].
    assert (He : existsb (fun ko : string * Option.t => fuzzy_match w k (fst ko)) opts
                 = true).
    { apply existsb_exists. exists (oname, o). split; [|exact Hm].
      apply list_elem_of_In. eapply list_elem_of_lookup_2. exact Hi. }
    now rewrite He.
  - exists o. split; [exact Hi|]. split; [apply extends_refl|].
    intros H0. apply Nat.eqb_neq in Hu. contradiction.
Qed.

Lemma match_defines_options (w : World) (defs : Dict.t Define.t)
    (opts : Dict.t Option.t) (i : nat) (oname : string) (o : Option.t) :
  opts !! i = Some (oname, o) ->
  exists o', fst (match_defines w opts defs) !! i = Some (oname, o')
             /\ extends o o'.
Proof.
  revert opts o; induction defs as [|kd defs IH]; intros opts o Hi; simpl.
  - exists o. split; [exact Hi | apply extends_refl].
  - destruct (match_define_options w opts kd i oname o Hi) as (o1 & H1 & E1 & _).
    destruct (match_define w opts kd) as [opts1 kd1]; simpl in H1.
    destruct (IH opts1 o1 H1) as (o2 & H2 & E2).
    destruct (match_defines w opts1 defs) as [opts2 defs2]; simpl in *.
    exists o2. split; [exact H2 | now apply (extends_trans o o1 o2)].
Qed.

(** C6.  A define that reaches the second merge unused is attached, as an
    extra define, to every option whose name matches it (similarity above
    one half, or containment either way, all in upper case), and is marked
    used: its [used] flag is 1 afterwards, and its other fields are as they
    were; the option keeps its place and its other fields.  A define named
    HAVE_FOO_BAR matches an option named FOO_BAR whatever the similarity. *)
Theorem fuzzy_pass_attaches (w : World) (opts : Dict.t Option.t)
    (defs : Dict.t Define.t) (i j : nat) (oname dname : string)
    (o : Option.t) (d : Define.t) :
  defs !! j = Some (dname, d) ->
  Define.used d = 0 ->
  opts !! i = Some (oname, o) ->
  Py.upper (Option.name o) = Py.upper oname ->
  fuzzy_match w dname (Option.name o) = true ->
  (exists o' d',
     fst (match_defines w opts defs) !! i = Some (oname, o')
     /\ dname ∈ Option.extra_defines o'
     /\ extends o o'
     /\ snd (match_defines w opts defs) !! j = Some (dname, d')
     /\ Define.used d' = 1
     /\ Define.name d' = Define.name d
     /\ Define.option_name d' = Define.option_name d
     /\ Define.description d' = Define.description d
     /\ Define.value d' = Define.value d)
  /\ fuzzy_match w "HAVE_FOO_BAR" "FOO_BAR" = true.
Proof.
  intros Hj Hu Hi Hname Hm.
  rewrite (fuzzy_match_upper w dname _ _ Hname) in Hm. clear Hname.
  split.
  2:{ unfold fuzzy_match. apply orb_true_iff. right. reflexivity. }
  assert (Hmain : exists o',
             fst (match_defines w opts defs) !! i = Some (oname, o')
             /\ dname ∈ Option.extra_defines o'
             /\ extends o o'
             /\ snd (match_defines w opts defs) !! j
                = Some (dname, Define.set_used d 1)).
  2:{ destruct Hmain as (o' & H1 & H2 & H3 & H4).
      exists o', (Define.set_used d 1).
      split; [exact H1|]. split; [exact H2|]. split; [exact H3|].
      split; [exact H4|]. repeat split. }
  revert opts o j Hj Hi; induction defs as [|kd defs IH]; intros opts o j Hj Hi.
  - destruct j; discriminate.
  - simpl.
    destruct (match_define_options w opts kd i oname o Hi) as (o1 & H1 & E1 & Hatt).
    destruct j as [|j]; simpl in Hj.
    + injection Hj as ->.
      destruct (Hatt Hu Hm) as [Hin Hkd].
      destruct (match_define w opts (dname, d)) as [opts1 kd1]; simpl in *.
      destruct (match_defines_options w defs opts1 i oname o1 H1) as (o2 & H2 & E2).
      destruct (match_defines w opts1 defs) as [opts2 defs2]; simpl in *.
      exists o2. split; [exact H2|]. split; [now apply E2|].
      split; [now apply (extends_trans o o1 o2)|]. now rewrite Hkd.
    + destruct (match_define w opts kd) as [opts1 kd1]; simpl in H1.
      destruct (IH opts1 o1 j Hj H1) as (o2 & H2 & Hin & E2 & Hd).
      destruct (match_defines w opts1 defs) as [opts2 defs2]; simpl in *.
      exists o2. split; [exact H2|]. split; [exact Hin|].
      split; [now apply (extends_trans o o1 o2) | exact Hd].
Qed.

Lemma fuzzy_pass_attaches_witness :
  [("HAVE_FOO_BAR", example_define)] !! 0 = Some ("HAVE_FOO_BAR", example_define)
  /\ Define.used example_define = 0
  /\ [("foo_bar", example_fuzzy_option)] !! 0 = Some ("foo_bar", example_fuzzy_option)
  /\ Py.upper (Option.name example_fuzzy_option) = Py.upper "foo_bar"
  /\ fuzzy_match example_world "HAVE_FOO_BAR" (Option.name example_fuzzy_option) = true
  /\ (exists o' d',
        fst (match_defines example_world [("foo_bar", example_fuzzy_option)]
               [("HAVE_FOO_BAR", example_define)]) !! 0 = Some ("foo_bar", o')
        /\ "HAVE_FOO_BAR" ∈ Option.extra_defines o'
        /\ extends example_fuzzy_option o'
        /\ snd (match_defines example_world [("foo_bar", example_fuzzy_option)]
                  [("HAVE_FOO_BAR", example_define)]) !! 0
           = Some ("HAVE_FOO_BAR", d')
        /\ Define.used d' = 1
        /\ Define.name d' = Define.name example_define
        /\ Define.option_name d' = Define.option_name example_define
        /\ Define.description d' = Define.description example_define
        /\ Define.value d' = Define.value example_define)
  /\ fuzzy_match example_world "HAVE_FOO_BAR" "FOO_BAR" = true.
Proof.
  do 5 (split; [reflexivity|]).
  apply (fuzzy_pass_attaches example_world [("foo_bar", example_fuzzy_option)]
           [("HAVE_FOO_BAR", example_define)] 0 0 "foo_bar" "HAVE_FOO_BAR"
           example_fuzzy_option example_define); reflexivity.
Defined.

(** ** The kind of a target *)

Lemma split_ws_go_infix (cur l : list ascii) (tok : string) :
  tok ∈ Py.split_ws_go cur l ->
  exists a b, rev cur ++ l = a ++ Py.chars tok ++ b.
Proof.
  revert cur; induction l as [|c l IH]; intros cur Hin; simpl in Hin.
  - destruct cur as [|x cur]; [inversion Hin|].
    apply list_elem_of_singleton in Hin as ->. rewrite chars_text.
    exists [], []. now rewrite !app_nil_r.
  - destruct (Py.isspace c).
    + destruct cur as [|x cur].
      * destruct (IH [] Hin) as (a & b & H). simpl in H.
        exists (c :: a), b. simpl. now rewrite H.
      * apply elem_of_cons in Hin as [-> | Hin].
        -- rewrite chars_text. now exists [], (c :: l).
        -- destruct (IH [] Hin) as (a & b & H). simpl in H.
           exists (rev (x :: cur) ++ c :: a), b. rewrite H.
           now rewrite <- !app_assoc.
    + destruct (IH (c :: cur) Hin) as (a & b & H).
      exists a, b. rewrite <- H. simpl. now rewrite <- app_assoc.
Qed.

Lemma contains_token (line tok word : string) :
  tok ∈ Py.split line ->
  Py.contains tok word = true -> Py.contains line word = true.
Proof.
  unfold Py.split, Py.contains. intros Hin Hw.
  apply split_ws_go_infix in Hin as (a & b & H). simpl in H.
  apply infix_chars_spec in Hw as (a' & b' & Hw).
  apply infix_chars_spec. exists (a ++ a'), (b' ++ b).
  rewrite H, Hw. now rewrite <- !app_assoc.
Qed.

Lemma contains_has_char (s : string) (c : ascii) (rest : list ascii) :
  Py.contains s (Py.text (c :: rest)) = true -> Py.has_char s c = true.
Proof.
  unfold Py.contains, Py.has_char. rewrite chars_text.
  intros H. apply infix_chars_spec in H as (a & b & H).
  apply existsb_exists. exists c. split.
  - rewrite H. apply in_or_app. right. now left.
  - now rewrite decide_True.
Qed.

Lemma declare_libraries_elem (line dir : string) (names : list string)
    (libs : list Library.t) (l : Library.t) :
  l ∈ declare_libraries line dir names libs ->
  l ∈ libs \/ exists name, name ∈ names /\ l = declared_library line name dir.
Proof.
  unfold declare_libraries.
  revert libs; induction names as [|n names IH]; intros libs Hin; simpl in Hin.
  - now left.
  - apply IH in Hin as [Hin | (name & Hn & ->)].
    + destruct (has_library libs _).
      * now left.
      * apply elem_of_app in Hin as [Hin | Hin]; [now left|].
        apply list_elem_of_singleton in Hin as ->.
        right. exists n. split; [apply list_elem_of_here | reflexivity].
    + right. exists name. split; [now apply list_elem_of_further | reflexivity].
Qed.

(** ** [SUBDIRS] and the required directories *)

Lemma text_app (a b : list ascii) : Py.text (a ++ b) = Py.text a +:+ Py.text b.
Proof.
  induction a as [|x a IH]; [reflexivity | exact (f_equal (String x) IH)].
Qed.

Lemma rstrip_chars_blank (ws : list ascii) :
  Forall (fun c => Py.isspace c = true) ws -> Py.rstrip_chars ws = [].
Proof.
  induction 1 as [|c ws Hc _ IH]; simpl; [reflexivity|]. now rewrite IH, Hc.
Qed.

Lemma rstrip_chars_app_blank (l ws : list ascii) :
  Forall (fun c => Py.isspace c = true) ws ->
  Py.rstrip_chars (l ++ ws) = Py.rstrip_chars l.
Proof.
  intros Hws. induction l as [|c l IH]; simpl.
  - now apply rstrip_chars_blank.
  - now rewrite IH.
Qed.

Lemma rstrip_chars_nonblank_end (l : list ascii) (c : ascii) :
  Py.isspace c = false -> Py.rstrip_chars (l ++ [c]) = l ++ [c].
Proof.
  intros Hc. induction l as [|x l IH]; simpl.
  - now rewrite Hc.
  - rewrite IH. destruct l; reflexivity.
Qed.

Lemma remove_absent_char (c : ascii) (new : string) (s : string) :
  Forall (fun x => x <> c) (Py.chars s) -> Py.replace_char c new s = s.
Proof.
  unfold Py.replace_char. intros H.
  rewrite <- (text_chars s) at 2. f_equal.
  induction H as [|x l Hx _ IH]; simpl; [reflexivity|].
  now rewrite decide_False, IH.
Qed.

Lemma split_char_go_absent (c : ascii) (cur l : list ascii) :
  Forall (fun x => x <> c) l ->
  Py.split_char_go c cur l = [Py.text (rev cur ++ l)].
Proof.
  intros H. revert cur; induction H as [|x l Hx _ IH]; intros cur; simpl.
  - now rewrite app_nil_r.
  - rewrite decide_False by exact Hx. rewrite IH. simpl.
    now rewrite <- app_assoc.
Qed.

Lemma split_pair_go_absent (a b : ascii) (cur l : list ascii) :
  Forall (fun x => x <> a) l ->
  Py.split_pair_go a b cur l = [Py.text (rev cur ++ l)].
Proof.
  intros H. revert cur; induction H as [|x l Hx Hl IH]; intros cur; simpl.
  - now rewrite app_nil_r.
  - destruct l as [|y l].
    + reflexivity.
    + rewrite bool_decide_eq_false_2 by exact Hx. simpl andb. cbv iota.
      rewrite IH. simpl. now rewrite <- app_assoc.
Qed.

Lemma split_ws_go_plain (cur l : list ascii) :
  Forall (fun x => Py.isspace x = false) l ->
  Py.split_ws_go cur l
  = match rev cur ++ l with [] => [] | _ => [Py.text (rev cur ++ l)] end.
Proof.
  intros H. revert cur; induction H as [|x l Hx _ IH]; intros cur; simpl.
  - rewrite app_nil_r. destruct cur as [|c cur]; [reflexivity|].
    simpl. destruct (rev cur ++ [c]) eqn:E; [|reflexivity].
    now destruct (rev cur).
  - rewrite Hx, IH. simpl. now rewrite <- app_assoc.
Qed.

Lemma endswith_other_end (s : string) (l : list ascii) (c x : ascii) :
  Py.chars s = l ++ [c] -> c <> x ->
  Py.endswith s (String x EmptyString) = false.
Proof.
  intros Hs Hne. unfold Py.endswith. rewrite Hs, rev_app_distr. simpl.
  rewrite decide_False; [reflexivity | congruence].
Qed.

Lemma join_continuations_done (line : string) (rest : list string) :
  Py.endswith line Py.backslash = false ->
  join_continuations line rest = Some line.
Proof. intros H. destruct rest; simpl; now rewrite H. Qed.

(** What [plain_word] gives: the characters of the word. *)
Lemma plain_word_chars (sub : string) :
  plain_word sub = true ->
  exists l c,
    Py.chars sub = l ++ [c]
    /\ Py.isspace c = false /\ c <> Py.backslash_char
    /\ Forall (fun x => Py.isspace x = false) (Py.chars sub)
    /\ Forall (fun x => x <> "="%char) (Py.chars sub)
    /\ Forall (fun x => x <> Py.backslash_char) (Py.chars sub).
Proof.
  unfold plain_word. intros H. apply andb_true_iff in H as [Hne Hall].
  assert (Hf : Forall (fun x => Py.isspace x = false /\ x <> "="%char
                                /\ x <> Py.backslash_char) (Py.chars sub)).
  { apply Forall_forall. intros x Hx%list_elem_of_In.
    rewrite forallb_forall in Hall. specialize (Hall x Hx).
    apply andb_true_iff in Hall as [Hall H3].
    apply andb_true_iff in Hall as [H1 H2].
    apply negb_true_iff in H1, H2, H3.
    apply bool_decide_eq_false in H2, H3. now repeat split. }
  destruct (Py.chars sub) as [|x l] eqn:E using rev_ind.
  - destruct sub; discriminate.
  - clear IHl. exists l, x.
    pose proof Hf as Hf'. apply Forall_app in Hf' as [_ Hx].
    inversion Hx as [|? ? (H1 & H2 & H3) _]; subst.
    split; [reflexivity|]. split; [exact H1|]. split; [exact H3|].
    repeat split; eapply Forall_impl; try exact Hf; simpl; tauto.
Qed.

Ltac concrete_neq :=
  let H := fresh in intros H; vm_compute in H; discriminate H.

Lemma strip_subdirs_line (sub : string) :
  plain_word sub = true ->
  Py.strip ("SUBDIRS = " +:+ sub +:+ Py.nl) = "SUBDIRS = " +:+ sub.
Proof.
  intros Hp.
  destruct (plain_word_chars sub Hp) as (l & c & Hs & Hc & _).
  unfold Py.strip. rewrite !chars_append.
  change (Py.lstrip_chars (Py.chars "SUBDIRS = " ++ Py.chars sub ++ Py.chars Py.nl))
    with (Py.chars "SUBDIRS = " ++ Py.chars sub ++ Py.chars Py.nl).
  rewrite app_assoc, rstrip_chars_app_blank by (repeat constructor).
  rewrite Hs, app_assoc, rstrip_chars_nonblank_end by exact Hc.
  rewrite <- app_assoc, <- Hs, text_app, !text_chars. reflexivity.
Qed.

Lemma logical_subdirs_line (sub : string) (rest : list string) :
  plain_word sub = true ->
  logical_line ("SUBDIRS = " +:+ sub) rest = Some ("SUBDIRS = " +:+ sub).
Proof.
  intros Hp.
  destruct (plain_word_chars sub Hp) as (l & c & Hs & Hc & Hb & Hsp & _ & Hbs).
  set (line := "SUBDIRS = " +:+ sub).
  assert (Hchars : Py.chars line = Py.chars "SUBDIRS = " ++ Py.chars sub)
    by apply chars_append.
  unfold logical_line. rewrite join_continuations_done.
  2:{ apply (endswith_other_end line (Py.chars "SUBDIRS = " ++ l) c).
      - now rewrite Hchars, Hs, app_assoc.
      - exact Hb. }
  unfold Py.remove_char. rewrite remove_absent_char.
  2:{ rewrite Hchars. apply Forall_app. split; [|exact Hbs].
      repeat constructor; concrete_neq. }
  unfold rejoin_tab_blank, Py.split_on_pair. rewrite split_pair_go_absent.
  2:{ rewrite Hchars. apply Forall_app. split.
      - repeat constructor; concrete_neq.
      - eapply Forall_impl; [exact Hsp|]. simpl. intros x Hx ->. discriminate Hx. }
  change (rev [] ++ Py.chars line) with (Py.chars line). rewrite text_chars.
  change (map pad_item [line]) with [line].
  simpl. now rewrite append_nil_r.
Qed.

Lemma split_subdirs_line (sub : string) :
  plain_word sub = true ->
  Py.split_on "=" ("SUBDIRS = " +:+ sub) = ["SUBDIRS "; " " +:+ sub].
Proof.
  intros Hp.
  destruct (plain_word_chars sub Hp) as (l & c & Hs & Hc & Hb & Hsp & Heq & Hbs).
  unfold Py.split_on. rewrite chars_append.
  change (Py.split_char_go "=" [] (Py.chars "SUBDIRS = " ++ Py.chars sub))
    with ("SUBDIRS " :: Py.split_char_go "=" [] (" "%char :: Py.chars sub)).
  rewrite split_char_go_absent.
  2:{ constructor; [concrete_neq | exact Heq]. }
  simpl. now rewrite text_chars.
Qed.

Lemma split_subdirs_value (sub : string) :
  plain_word sub = true -> Py.split (" " +:+ sub) = [sub].
Proof.
  intros Hp.
  destruct (plain_word_chars sub Hp) as (l & c & Hs & Hc & Hb & Hsp & _).
  unfold Py.split.
  change (Py.split_ws_go [] (Py.chars (" " +:+ sub)))
    with (Py.split_ws_go [] (Py.chars sub)).
  rewrite split_ws_go_plain by exact Hsp. simpl.
  rewrite text_chars. rewrite Hs. now destruct l.
Qed.

(** The step of the second run on a [SUBDIRS = sub] line. *)
Lemma second_run_subdirs_line (sub : string) (rest : list string)
    (st : MakefileRun) :
  plain_word sub = true ->
  exists st',
    second_run_line ("SUBDIRS = " +:+ sub +:+ Py.nl) rest st = Some st'
    /\ dirs_to_go_in st' = Some (" " +:+ sub).
Proof.
  intros Hp. unfold second_run_line.
  rewrite (strip_subdirs_line sub Hp).
  set (line := "SUBDIRS = " +:+ sub).
  assert (H1 : Py.startswith line "#" = false) by reflexivity.
  assert (H2 : Py.startswith line "if" = false) by reflexivity.
  assert (H3 : Py.startswith line "endif" = false) by reflexivity.
  assert (H4 : Py.contains line "=" = true) by reflexivity.
  rewrite H1, H2, H3, H4. simpl orb. cbv iota.
  unfold line. rewrite (logical_subdirs_line sub rest Hp).
  unfold assignment. rewrite (split_subdirs_line sub Hp).
  change (assigned_variable "SUBDIRS ") with "SUBDIRS".
  change (Py.endswith "SUBDIRS" "_SOURCES") with false.
  change (Py.endswith "SUBDIRS" "_LDADD") with false.
  change (Py.endswith "SUBDIRS" "_CXXFLAGS") with false.
  change (Py.endswith "SUBDIRS" "_CPPFLAGS") with false.
  change (Py.endswith "SUBDIRS" "_CFLAGS") with false.
  change (Py.endswith "SUBDIRS" "_LDFLAGS") with false.
  change (Py.eqb "SUBDIRS" "SUBDIRS") with true.
  change (Py.contains "SUBDIRS" "_LIBRARIES") with false.
  change (Py.contains "SUBDIRS" "_PROGRAMS") with false.
  cbv beta iota zeta. simpl orb. simpl negb. simpl andb. cbv iota.
  eexists. split; [reflexivity|].
  unfold define_variable, heap_alloc. simpl. reflexivity.
Qed.

Lemma gather_dirs (st : MakefileRun) (target : string)
    (update : Library.t -> Library.t) :
  dirs_to_go_in (fst (gather st target update)) = dirs_to_go_in st.
Proof. unfold gather. destruct (get_library_for_name _ _); reflexivity. Qed.

Lemma gather_if_dirs (b : bool) (st : MakefileRun) (target : string)
    (update : Library.t -> Library.t) :
  dirs_to_go_in (fst (if b then gather st target update else (st, false)))
  = dirs_to_go_in st.
Proof. destruct b; [apply gather_dirs | reflexivity]. Qed.

Lemma define_variable_dirs (st : MakefileRun) (variable value : string) :
  dirs_to_go_in (define_variable st variable value) = dirs_to_go_in st.
Proof. unfold define_variable, heap_alloc. reflexivity. Qed.

(** An assignment to another variable leaves [dirs_to_go_in] alone. *)
Lemma assignment_dirs (line : string) (st st' : MakefileRun) :
  assignment line st = Some st' ->
  match Py.split_on "=" line with
  | elements0 :: _ => Py.eqb (assigned_variable elements0) "SUBDIRS"
  | [] => false
  end = false ->
  dirs_to_go_in st' = dirs_to_go_in st.
Proof.
  unfold assignment.
  destruct (Py.split_on "=" line) as [|e0 [|e1 els]]; try discriminate.
  intros Hrun Hvar.
  set (variable := assigned_variable e0) in *.
  set (plus := Py.contains line "+=") in *.
  match type of Hrun with
  | (let '(s, u) := ?X in _) = _ =>
      pose proof (gather_if_dirs (Py.endswith variable "_SOURCES") st
                    (Py.drop_back (String.length "_SOURCES") variable)
                    (fun library =>
                       Library.set_filelist library
                         (if plus then Library.filelist library ++ Py.split e1
                          else Py.split e1))) as D1;
      destruct X as [st1 u1]
  end.
  match type of Hrun with
  | (let '(s, u) := ?X in _) = _ =>
      pose proof (gather_if_dirs (Py.endswith variable "_LDADD") st1
                    (Py.drop_back (String.length "_LDADD") variable)
                    (fun library =>
                       Library.set_link_with_libs library
                         (if plus then Library.link_with_libs library ++ Py.split e1
                          else Py.split e1))) as D2;
      destruct X as [st2 u2]
  end.
  match type of Hrun with
  | (let '(s, u) := ?X in _) = _ =>
      assert (D3 : dirs_to_go_in (fst X) = dirs_to_go_in st2)
        by apply gather_if_dirs;
      destruct X as [st3 u3]
  end.
  match type of Hrun with
  | (let '(s, u) := ?X in _) = _ =>
      assert (D4 : dirs_to_go_in (fst X) = dirs_to_go_in st3)
        by apply gather_if_dirs;
      destruct X as [st4 u4]
  end.
  simpl in D1, D2, D3, D4.
  assert (D : dirs_to_go_in st4 = dirs_to_go_in st) by congruence.
  destruct (u1 || u2 || u3 || u4).
  - injection Hrun as <-. exact D.
  - rewrite Hvar in Hrun.
    destruct (negb _ && negb _); injection Hrun as <-;
      [rewrite define_variable_dirs|]; exact D.
Qed.

Lemma second_run_line_dirs (raw : string) (rest : list string)
    (st st' : MakefileRun) :
  second_run_line raw rest st = Some st' ->
  assigns_subdirs raw rest = false ->
  dirs_to_go_in st' = dirs_to_go_in st.
Proof.
  unfold second_run_line, assigns_subdirs.
  set (line := Py.strip raw).
  destruct (Py.startswith line "#"); [now intros [= <-]|].
  intros Hrun Hsub. simpl in Hsub.
  assert (Hif : exists st1,
             (if Py.startswith line "if"
              then match Py.split line !! 1 with
                   | Some e => Some (set_if_condition st e)
                   | None => None
                   end
              else Some st) = Some st1
             /\ dirs_to_go_in st1 = dirs_to_go_in st).
  { destruct (Py.startswith line "if").
    - destruct (Py.split line !! 1); [|discriminate]. now eexists.
    - now eexists. }
  destruct Hif as (st1 & Hst1 & D1). rewrite Hst1 in Hrun.
  set (st2 := if Py.startswith line "endif"
              then set_if_condition st1 EmptyString else st1) in *.
  assert (D2 : dirs_to_go_in st2 = dirs_to_go_in st1)
    by (unfold st2; destruct (Py.startswith line "endif"); reflexivity).
  destruct (Py.contains line "=" || Py.contains line "+=").
  - destruct (logical_line line rest) as [ll|]; [|discriminate].
    simpl in Hsub.
    rewrite (assignment_dirs ll st2 st' Hrun Hsub). congruence.
  - injection Hrun as <-. congruence.
Qed.

Lemma second_run_dirs (content : list string) (st st' : MakefileRun) :
  second_run content st = Some st' ->
  assigns_subdirs_in content = false ->
  dirs_to_go_in st' = dirs_to_go_in st.
Proof.
  revert st; induction content as [|raw rest IH]; intros st Hrun Hsub; simpl in *.
  - now injection Hrun as <-.
  - apply orb_false_iff in Hsub as [H1 H2].
    destruct (second_run_line raw rest st) as [st1|] eqn:E; [|discriminate].
    rewrite (IH st1 Hrun H2). now apply (second_run_line_dirs raw rest).
Qed.

Lemma second_run_app (pre : list string) (raw : string) (post : list string)
    (st st' : MakefileRun) :
  second_run (pre ++ raw :: post) st = Some st' ->
  exists st1 st2,
    second_run_line raw post st1 = Some st2 /\ second_run post st2 = Some st'.
Proof.
  revert st; induction pre as [|x pre IH]; intros st Hrun; simpl in Hrun.
  - destruct (second_run_line raw post st) as [st2|] eqn:E; [|discriminate].
    now exists st, st2.
  - destruct (second_run_line x (pre ++ raw :: post) st) as [st1|];
      [|discriminate].
    now apply (IH st1).
Qed.

Lemma dict_set_keys_elem {V} (d : Dict.t V) (k : string) (v : V) (x : string) :
  x ∈ Dict.keys (Dict.set d k v) -> x = k \/ x ∈ Dict.keys d.
Proof.
  unfold Dict.keys. induction d as [|[k0 v0] d IH]; simpl; intros Hx.
  - apply list_elem_of_singleton in Hx. now left.
  - destruct (decide (k0 = k)) as [->|Hne]; simpl in Hx.
    + right. exact Hx.
    + apply elem_of_cons in Hx as [-> | Hx].
      * right. apply list_elem_of_here.
      * destruct (IH Hx) as [-> | Hin]; [now left | right].
        now apply list_elem_of_further.
Qed.

Lemma dict_set_keys_nodup {V} (d : Dict.t V) (k : string) (v : V) :
  NoDup (Dict.keys d) -> NoDup (Dict.keys (Dict.set d k v)).
Proof.
  unfold Dict.keys. induction d as [|[k0 v0] d IH]; simpl; intros Hnd.
  - apply NoDup_cons. split; [apply not_elem_of_nil | apply NoDup_nil_2].
  - apply NoDup_cons in Hnd as [Hnot Hnd].
    destruct (decide (k0 = k)) as [->|Hne]; simpl.
    + apply NoDup_cons. now split.
    + apply NoDup_cons. split; [|now apply IH].
      intros Hin. apply dict_set_keys_elem in Hin as [-> | Hin];
        [congruence | contradiction].
Qed.

(** The makefile side of C8: the directive and the required directory. *)
Lemma subdirs_line_queued (w : World) (file : string) (g g' : Globals)
    (pre post : list string) (sub : string) (out : list string) :
  isfile w file = true ->
  should_exclude (exclude_directories g) (dirname file) = false ->
  readlines w file = pre ++ ("SUBDIRS = " +:+ sub +:+ Py.nl) :: post ->
  plain_word sub = true ->
  assigns_subdirs_in post = false ->
  should_exclude (exclude_directories g) (dirname file +:+ "/" +:+ sub) = false ->
  process_makefile_am w file g = Some (g', out) ->
  Dict.get (extra_content g') (dirname file)
  = Some (Py.nl +:+ "add_subdirectory( " +:+ sub +:+ " )")
  /\ required_directories g'
     = required_directories g ++ [dirname file +:+ "/" +:+ sub]
  /\ (NoDup (Dict.keys (extra_content g)) ->
      NoDup (Dict.keys (extra_content g'))).
Proof.
  intros Hfile Hdir Hcontent Hp Hpost Hsub Hrun.
  unfold process_makefile_am in Hrun.
  rewrite Hfile, Hdir, Hcontent in Hrun. simpl negb in Hrun. cbv iota in Hrun.
  destruct (second_run _ _) as [st|] eqn:Hsecond; [|discriminate].
  destruct (resolve_variables _ _ _ _) as [[libs2 h2]|]; [|discriminate].
  injection Hrun as <- _.
  apply second_run_app in Hsecond as (st1 & st2 & Hline & Hrest).
  destruct (second_run_subdirs_line sub post st1 Hp) as (st2' & Hline' & Hdirs).
  rewrite Hline in Hline'. injection Hline' as <-.
  rewrite <- (second_run_dirs post st2 st Hrest Hpost) in Hdirs.
  rewrite Hdirs. unfold queue_subdirs.
  change (Py.truthy (" " +:+ sub)) with true. cbv iota.
  rewrite (split_subdirs_value sub Hp).
  unfold fold_left, subdir_step. simpl exclude_directories.
  rewrite Hsub. simpl.
  rewrite dict_get_set_eq. repeat split.
  intros Hnd. now apply dict_set_keys_nodup.
Qed.

(** ** The shape of [generate] *)

Lemma generate_inv (w : World) (settings : TargetSettings) (g : Globals)
    (gen : Generated) :
  generate w settings g = Some gen ->
  exists libs files1 printed,
    process_library_list w settings
      (set_options g (finalize_options (options g)))
      (libraries g) (cmake_files g) = Some (libs, files1, printed)
    /\ let files := process_cmake_file_directories (extra_content g) files1 in
       let written := write_cmake_files files (required_directories g) in
       let final_list :=
         filter (fun x => negb (should_exclude (exclude_directories g) x))
           (snd written) in
       globals gen
       = {| working_directory := working_directory g;
            exclude_directories := exclude_directories g;
            libraries := libs;
            options := finalize_options (options g);
            temp_defines := temp_defines g;
            cmake_files := files;
            config_ac_variables := config_ac_variables g;
            extra_content := extra_content g;
            required_directories := snd written;
            heap := heap g |}
       /\ file_ops gen
          = [WriteFile (working_directory g +:+ "/CMakeLists.txt")
               (toplevel_text w (options g) (temp_defines g))]
            ++ removals (working_directory g) files ++ fst written
            ++ map (generate_default_cmake w) final_list.
Proof.
  unfold generate, process_libraries.
  destruct (negb (opens w [working_directory g])); [discriminate|].
  cbn [options set_options libraries cmake_files].
  destruct (process_library_list _ _ _ _ _) as [[[libs files1] printed]|];
    [|discriminate].
  cbn [set_libraries set_options extra_content cmake_files set_cmake_files
       required_directories exclude_directories working_directory].
  destruct (negb (opens w (map _ _))); [discriminate|].
  destruct (write_cmake_files _ _) as [writes required] eqn:Hw.
  cbn [set_required_directories exclude_directories working_directory].
  destruct (negb (opens w _)); [discriminate|].
  intros [= <-]. exists libs, files1, printed. split; [reflexivity|].
  simpl. rewrite Hw. split; reflexivity.
Qed.

Lemma dict_get_elem {V} (d : Dict.t V) (k : string) (v : V) :
  Dict.get d k = Some v -> (k, v) ∈ d.
Proof.
  induction d as [|[k0 v0] d IH]; simpl; [discriminate|].
  destruct (decide (k0 = k)) as [->|Hne].
  - intros [= ->]. apply list_elem_of_here.
  - intros H. apply list_elem_of_further. now apply IH.
Qed.

Lemma dict_get_none {V} (d : Dict.t V) (k : string) :
  Dict.get d k = None -> Forall (fun kv => fst kv <> k) d.
Proof.
  induction d as [|[k0 v0] d IH]; simpl; [constructor|].
  destruct (decide (k0 = k)) as [->|Hne]; [discriminate|].
  intros H. constructor; [exact Hne | now apply IH].
Qed.

Lemma dict_get_not_key {V} (d : Dict.t V) (k : string) :
  k ∉ Dict.keys d -> Dict.get d k = None.
Proof.
  unfold Dict.keys. induction d as [|[k0 v0] d IH]; simpl; [reflexivity|].
  intros Hnot. destruct (decide (k0 = k)) as [->|Hne].
  - exfalso. apply Hnot. apply list_elem_of_here.
  - apply IH. intros Hin. apply Hnot. now apply list_elem_of_further.
Qed.

Lemma process_cmake_file_directories_cons (entry : string * string)
    (extra : Dict.t string) (files : Dict.t CMakeFile.t) :
  process_cmake_file_directories (entry :: extra) files
  = process_cmake_file_directories extra
      (process_cmake_file_directories [entry] files).
Proof. reflexivity. Qed.

Lemma process_cmake_file_directories_one (dir text : string)
    (files : Dict.t CMakeFile.t) :
  exists f,
    process_cmake_file_directories [(dir, text)] files = Dict.set files dir f
    /\ CMakeFile.extra_content f = text
    /\ CMakeFile.directory f
       = match Dict.get files dir with
         | Some f0 => CMakeFile.directory f0
         | None => dir
         end.
Proof.
  unfold process_cmake_file_directories; simpl.
  eexists. split; [reflexivity|]. split; [reflexivity|].
  simpl. destruct (Dict.get files dir); reflexivity.
Qed.

Lemma process_cmake_file_directories_other (extra : Dict.t string)
    (files : Dict.t CMakeFile.t) (dir : string) :
  dir ∉ Dict.keys extra ->
  Dict.get (process_cmake_file_directories extra files) dir
  = Dict.get files dir.
Proof.
  revert files; induction extra as [|[k t] extra IH]; intros files Hnot.
  - reflexivity.
  - rewrite process_cmake_file_directories_cons.
    rewrite IH.
    2:{ intros Hin. apply Hnot. now apply list_elem_of_further. }
    destruct (process_cmake_file_directories_one k t files) as (f & -> & _).
    apply dict_get_set_ne. intros ->. apply Hnot. apply list_elem_of_here.
Qed.

Lemma process_cmake_file_directories_extra (extra : Dict.t string)
    (files : Dict.t CMakeFile.t) (dir text : string) :
  NoDup (Dict.keys extra) ->
  Dict.get extra dir = Some text ->
  exists f,
    Dict.get (process_cmake_file_directories extra files) dir = Some f
    /\ CMakeFile.extra_content f = text.
Proof.
  revert files; induction extra as [|[k t] extra IH]; intros files Hnd Hget.
  - discriminate.
  - simpl in Hget. apply NoDup_cons in Hnd as [Hnot Hnd].
    rewrite process_cmake_file_directories_cons.
    destruct (decide (k = dir)) as [->|Hne].
    + injection Hget as ->.
      rewrite process_cmake_file_directories_other by exact Hnot.
      destruct (process_cmake_file_directories_one dir text files)
        as (f & -> & Hf & _).
      exists f. split; [apply dict_get_set_eq | exact Hf].
    + now apply IH.
Qed.

Lemma dict_set_forall {V} (P : string * V -> Prop) (d : Dict.t V)
    (k : string) (v : V) :
  Forall P d -> P (k, v) ->
  (forall v0, Dict.get d k = Some v0 -> P (k, v)) ->
  Forall P (Dict.set d k v).
Proof.
  intros Hd Hkv _. induction Hd as [|[k0 v0] d H0 Hd IH]; simpl.
  - now constructor.
  - destruct (decide (k0 = k)) as [->|Hne]; constructor; auto.
Qed.

Lemma keyed_get (files : Dict.t CMakeFile.t) (dir : string) (f : CMakeFile.t) :
  keyed_by_directory files -> Dict.get files dir = Some f ->
  CMakeFile.directory f = dir.
Proof.
  intros Hk Hget. apply dict_get_elem in Hget.
  unfold keyed_by_directory in Hk. rewrite Forall_forall in Hk.
  exact (Hk _ Hget).
Qed.

Lemma hold_content_keyed (files : Dict.t CMakeFile.t) (library : Library.t)
    (content : string) :
  keyed_by_directory files -> keyed_by_directory (hold_content files library content).
Proof.
  intros Hk. unfold hold_content.
  apply dict_set_forall; [exact Hk | | intros _ _]; simpl;
    (destruct (Dict.get files (Library.directory library)) as [f|] eqn:E;
     [now apply (keyed_get files) | reflexivity]).
Qed.

Lemma process_library_list_keyed (w : World) (settings : TargetSettings)
    (g : Globals) (todo : list Library.t) (files files' : Dict.t CMakeFile.t)
    (libs : list Library.t) (out : list string) :
  keyed_by_directory files ->
  process_library_list w settings g todo files = Some (libs, files', out) ->
  keyed_by_directory files'.
Proof.
  revert files libs out; induction todo as [|l todo IH];
    intros files libs out Hk Hrun; simpl in Hrun.
  - now injection Hrun as _ <- _.
  - destruct (library_content w settings g l) as [[[content l'] o]|];
      [|discriminate].
    destruct (process_library_list _ _ _ _ _) as [[[done files2] o2]|] eqn:E;
      [|discriminate].
    injection Hrun as _ <- _.
    eapply IH; [|exact E]. now apply hold_content_keyed.
Qed.

Lemma process_cmake_file_directories_keyed (extra : Dict.t string)
    (files : Dict.t CMakeFile.t) :
  keyed_by_directory files ->
  keyed_by_directory (process_cmake_file_directories extra files).
Proof.
  revert files; induction extra as [|[k t] extra IH]; intros files Hk.
  - exact Hk.
  - rewrite process_cmake_file_directories_cons. apply IH.
    destruct (process_cmake_file_directories_one k t files) as (f & -> & _ & Hd).
    apply dict_set_forall; [exact Hk | | intros _ _]; simpl; rewrite Hd;
      (destruct (Dict.get files k) as [f0|] eqn:E;
       [now apply (keyed_get files) | reflexivity]).
Qed.

(** The loop that writes the files drops a required directory only when a
    [CMakeFile] of that directory is written. *)
Lemma list_remove_other (x d : string) (l : list string) :
  d ∈ l -> x <> d -> d ∈ list_remove x l.
Proof.
  intros Hin Hne. induction l as [|y l IH]; simpl; [inversion Hin|].
  destruct (decide (y = x)) as [->|Hyx].
  - apply elem_of_cons in Hin as [-> | Hin]; [congruence | exact Hin].
  - apply elem_of_cons in Hin as [-> | Hin].
    + apply list_elem_of_here.
    + apply list_elem_of_further. now apply IH.
Qed.

Lemma write_cmake_file_keeps (files : Dict.t CMakeFile.t)
    (acc : list FileOp * list string) (d : string) :
  d ∈ snd acc ->
  Forall (fun kf : string * CMakeFile.t => CMakeFile.directory (snd kf) <> d) files ->
  d ∈ snd (fold_left write_cmake_file files acc).
Proof.
  intros Hin Hall. revert acc Hin.
  induction Hall as [|[k f] files Hf _ IH]; intros acc Hin; simpl.
  - exact Hin.
  - apply IH. unfold write_cmake_file; simpl in *.
    destruct (bool_decide _); [now apply list_remove_other | exact Hin].
Qed.

Lemma write_cmake_files_keeps (files : Dict.t CMakeFile.t)
    (required : list string) (d : string) :
  d ∈ required ->
  Forall (fun kf : string * CMakeFile.t => CMakeFile.directory (snd kf) <> d) files ->
  d ∈ snd (write_cmake_files files required).
Proof. intros Hin Hall. now apply write_cmake_file_keeps. Qed.

Lemma write_cmake_file_ops_kept (files : Dict.t CMakeFile.t)
    (acc : list FileOp * list string) (op : FileOp) :
  op ∈ fst acc -> op ∈ fst (fold_left write_cmake_file files acc).
Proof.
  revert acc; induction files as [|e files IH]; intros acc Hop; simpl.
  - exact Hop.
  - apply IH. unfold write_cmake_file; simpl. apply elem_of_app. now left.
Qed.

Lemma write_cmake_file_ops (files : Dict.t CMakeFile.t)
    (acc : list FileOp * list string) (dir : string) (f : CMakeFile.t) :
  (dir, f) ∈ files ->
  AppendFile (CMakeFile.directory f +:+ "/CMakeLists.txt")
    (CMakeFile.extra_content f
     +:+ Py.concat_all (CMakeFile.contained_libraries_content f))
  ∈ fst (fold_left write_cmake_file files acc).
Proof.
  revert acc; induction files as [|e files IH]; intros acc Hin.
  - inversion Hin.
  - apply elem_of_cons in Hin as [<- | Hin]; simpl.
    + apply write_cmake_file_ops_kept. unfold write_cmake_file; simpl.
      apply elem_of_app. right. apply list_elem_of_here.
    + now apply IH.
Qed.

Lemma generate_writes_extra_content (w : World) (settings : TargetSettings)
    (g : Globals) (gen : Generated) (dir text : string) :
  generate w settings g = Some gen ->
  keyed_by_directory (cmake_files g) ->
  NoDup (Dict.keys (extra_content g)) ->
  Dict.get (extra_content g) dir = Some text ->
  exists f,
    Dict.get (cmake_files (globals gen)) dir = Some f
    /\ CMakeFile.extra_content f = text
    /\ AppendFile (dir +:+ "/CMakeLists.txt")
         (text +:+ Py.concat_all (CMakeFile.contained_libraries_content f))
       ∈ file_ops gen.
Proof.
  intros Hgen Hkeyed Hnd Hget.
  apply generate_inv in Hgen as (libs & files1 & printed & Hrun & Hg & Hops).
  cbv zeta in Hg, Hops.
  destruct (process_cmake_file_directories_extra (extra_content g) files1 dir
              text Hnd Hget) as (f & Hf & Htext).
  assert (Hk : keyed_by_directory
                 (process_cmake_file_directories (extra_content g) files1)).
  { apply process_cmake_file_directories_keyed.
    eapply process_library_list_keyed; [exact Hkeyed | exact Hrun]. }
  exists f. rewrite Hg; simpl. split; [exact Hf|]. split; [exact Htext|].
  rewrite Hops. apply elem_of_app. right. apply elem_of_app. right.
  apply elem_of_app. left.
  rewrite <- Htext, <- (keyed_get _ dir f Hk Hf).
  apply (write_cmake_file_ops _ _ dir). now apply dict_get_elem.
Qed.

Lemma generate_falls_back (w : World) (settings : TargetSettings)
    (g : Globals) (gen : Generated) (d : string) :
  generate w settings g = Some gen ->
  keyed_by_directory (cmake_files g) ->
  d ∈ required_directories g ->
  should_exclude (exclude_directories g) d = false ->
  Dict.get (cmake_files (globals gen)) d = None ->
  WriteFile (d +:+ "/CMakeLists.txt") (default_cmake_text w d) ∈ file_ops gen.
Proof.
  intros Hgen Hkeyed Hreq Hexc Hnone.
  apply generate_inv in Hgen as (libs & files1 & printed & Hrun & Hg & Hops).
  cbv zeta in Hg, Hops. rewrite Hg in Hnone; simpl in Hnone.
  assert (Hk : keyed_by_directory
                 (process_cmake_file_directories (extra_content g) files1)).
  { apply process_cmake_file_directories_keyed.
    eapply process_library_list_keyed; [exact Hkeyed | exact Hrun]. }
  assert (Hall : Forall (fun kf : string * CMakeFile.t =>
                           CMakeFile.directory (snd kf) <> d)
                   (process_cmake_file_directories (extra_content g) files1)).
  { apply dict_get_none in Hnone. unfold keyed_by_directory in Hk.
    rewrite Forall_forall in *. intros kf Hin.
    rewrite (Hk kf Hin). now apply Hnone. }
  rewrite Hops. apply elem_of_app. right. apply elem_of_app. right.
  apply elem_of_app. right.
  apply list_elem_of_In.
  apply (in_map (generate_default_cmake w)).
  apply list_elem_of_In. apply list_elem_of_filter. split.
  - rewrite Hexc. exact I.
  - now apply write_cmake_files_keeps.
Qed.

(** C8, as stated, fails: every assignment to [SUBDIRS], a [+=] as well,
    replaces what the earlier ones gave.  After [SUBDIRS = lib] and
    [SUBDIRS += tests] the directory has the directive for [tests] alone,
    and [./src/lib] is no required directory. *)
Lemma later_subdirs_assignment_replaces :
  option_map
    (fun r : Globals * list string =>
       (extra_content (fst r), required_directories (fst r)))
    (process_makefile_am example_subdirs_world "./src/Makefile.am" empty_globals)
  = Some ([("./src", Py.nl +:+ "add_subdirectory( tests )")], ["./src/tests"]).
Proof. vm_compute. reflexivity. Qed.

(** C8, amended.  A [SUBDIRS = sub] line of a makefile that is read without
    a Python exception, with [sub] one directory name outside the exclude
    set and no later assignment to [SUBDIRS] in the file, leaves the
    directive [add_subdirectory( sub )] as the extra content of the
    makefile's directory and appends the sub-directory to the required
    directories.  The generation phase, when it returns, puts the extra
    content of a directory into its [CMakeFile] and writes it at the head
    of the directory's file; and a required directory outside the exclude
    set for which no [CMakeFile] exists at the end gets the file of
    [generate_default_cmake]: the minimum version, the project named after
    the last component of the path, the [*.c*] and [*.h*] files of the
    directory as its sources, and a static library of them. *)
Theorem subdirs_and_fallback (w : World) (settings : TargetSettings) :
  (forall (file : string) (g g' : Globals) (pre post : list string)
          (sub : string) (out : list string),
     isfile w file = true ->
     should_exclude (exclude_directories g) (dirname file) = false ->
     readlines w file = pre ++ ("SUBDIRS = " +:+ sub +:+ Py.nl) :: post ->
     plain_word sub = true ->
     assigns_subdirs_in post = false ->
     should_exclude (exclude_directories g) (dirname file +:+ "/" +:+ sub) = false ->
     process_makefile_am w file g = Some (g', out) ->
     Dict.get (extra_content g') (dirname file)
     = Some (Py.nl +:+ "add_subdirectory( " +:+ sub +:+ " )")
     /\ required_directories g'
        = required_directories g ++ [dirname file +:+ "/" +:+ sub]
     /\ (NoDup (Dict.keys (extra_content g)) ->
         NoDup (Dict.keys (extra_content g'))))
  /\ (forall (g : Globals) (gen : Generated) (dir text : string),
        generate w settings g = Some gen ->
        keyed_by_directory (cmake_files g) ->
        NoDup (Dict.keys (extra_content g)) ->
        Dict.get (extra_content g) dir = Some text ->
        exists f,
          Dict.get (cmake_files (globals gen)) dir = Some f
          /\ CMakeFile.extra_content f = text
          /\ AppendFile (dir +:+ "/CMakeLists.txt")
               (text +:+ Py.concat_all (CMakeFile.contained_libraries_content f))
             ∈ file_ops gen)
  /\ (forall (g : Globals) (gen : Generated) (d : string),
        generate w settings g = Some gen ->
        keyed_by_directory (cmake_files g) ->
        d ∈ required_directories g ->
        should_exclude (exclude_directories g) d = false ->
        Dict.get (cmake_files (globals gen)) d = None ->
        let source f :=
          Py.text [Py.tab_char] +:+ "${CMAKE_CURRENT_SOURCE_DIR}/"
          +:+ List.last (Py.split_on "/" f) EmptyString +:+ Py.nl in
        WriteFile (d +:+ "/CMakeLists.txt")
          ("cmake_minimum_required(VERSION 2.8)" +:+ Py.nl
           +:+ "set (project " +:+ List.last (Py.split_on "/" d) EmptyString
           +:+ ")" +:+ Py.nl
           +:+ "set(${project}_SOURCES" +:+ Py.nl
           +:+ Py.concat_all (map source (glob w (d +:+ "/*.c*")))
           +:+ Py.concat_all (map source (glob w (d +:+ "/*.h*")))
           +:+ ")" +:+ Py.nl
           +:+ "add_library(${project} STATIC ${${project}_SOURCES} )")
        ∈ file_ops gen).
Proof.
  split; [|split].
  - intros. eapply subdirs_line_queued; eassumption.
  - intros. eapply generate_writes_extra_content; eassumption.
  - intros g gen d Hgen Hk Hreq Hexc Hnone source.
    exact (generate_falls_back w settings g gen d Hgen Hk Hreq Hexc Hnone).
Qed.

Lemma subdirs_and_fallback_witness :
  process_makefile_am example_world "./src/Makefile.am" example_configured
  = Some (example_parsed, [])
  /\ Dict.get (extra_content example_parsed) (dirname "./src/Makefile.am")
     = Some (Py.nl +:+ "add_subdirectory( " +:+ "sub" +:+ " )")
  /\ required_directories example_parsed
     = required_directories example_configured
       ++ [dirname "./src/Makefile.am" +:+ "/" +:+ "sub"]
  /\ exists gen,
      generate example_world example_settings example_parsed = Some gen
      /\ WriteFile "./src/sub/CMakeLists.txt"
           ("cmake_minimum_required(VERSION 2.8)" +:+ Py.nl
            +:+ "set (project sub)" +:+ Py.nl
            +:+ "set(${project}_SOURCES" +:+ Py.nl
            +:+ ")" +:+ Py.nl
            +:+ "add_library(${project} STATIC ${${project}_SOURCES} )")
         ∈ file_ops gen.
Proof.
  assert (Hrun : process_makefile_am example_world "./src/Makefile.am"
                   example_configured = Some (example_parsed, []))
    by (vm_compute; reflexivity).
  destruct (subdirs_and_fallback example_world example_settings) as (HA & _ & HB).
  destruct (HA "./src/Makefile.am" example_configured example_parsed []
              (tl example_makefile) "sub" [])
    as (H1 & H2 & _);
    [reflexivity | reflexivity | reflexivity | reflexivity | reflexivity
    | reflexivity | exact Hrun |].
  split; [exact Hrun|]. split; [exact H1|]. split; [exact H2|].
  destruct (generate example_world example_settings example_parsed)
    as [gen|] eqn:Hgen; [|vm_compute in Hgen; discriminate Hgen].
  exists gen. split; [reflexivity|].
  apply (HB example_parsed gen "./src/sub" Hgen).
  - vm_compute. constructor.
  - vm_compute. apply list_elem_of_here.
  - reflexivity.
  - vm_compute in Hgen. injection Hgen as <-. reflexivity.
Defined.

(** ** The guard of a conditional target *)

(** The condition the parser records is a list of characters, and no
    option's define, a [str], is equal to a list. *)
Lemma chars_condition_matches_no_option (w : World) (library : Library.t)
    (l : list ascii) (options : Dict.t Option.t) (t : LibraryText) :
  Library.condition library = PyChars l ->
  fold_left (guarded_for_option w library) options (t, false) = (t, false).
Proof.
  intros Hc.
  assert (Hstep : forall ko, guarded_for_option w library (t, false) ko = (t, false)).
  { intros ko. unfold guarded_for_option. now rewrite Hc. }
  induction options as [|ko options IH]; [reflexivity|].
  change (fold_left (guarded_for_option w library) options
            (guarded_for_option w library (t, false) ko) = (t, false)).
  now rewrite Hstep.
Qed.

(** C1, on the example project.  configure.ac declares the argument [foo],
    binds [WITH_FOO] to it and names [src/Makefile]; the makefile declares
    [libx.a] and gives its sources under [if WITH_FOO].  The parser records the condition, as the characters of
    [WITH_FOO]; the generator guards both the source list and the creation
    command by [if (WITH_FOO)], the raw token, and nowhere by [if (FOO)]. *)
Theorem conditional_target_guard :
  process_configure_ac example_world "./configure.ac" empty_globals
  = Some (example_parsed, [])
  /\ process_makefile_am example_world "./src/Makefile.am" example_configured
     = Some (example_parsed, [])
  /\ map Library.condition (libraries example_parsed)
     = [PyChars (Py.chars "WITH_FOO")]
  /\ options example_parsed = [("foo", example_option)]
  /\ Option.name example_option = "FOO"
  /\ Option.define example_option = "WITH_FOO"
  /\ exists gen f,
      generate example_world example_settings example_parsed = Some gen
      /\ Dict.get (cmake_files (globals gen)) "./src" = Some f
      /\ CMakeFile.contained_libraries_content f = [example_library_text]
      /\ Py.contains example_library_text "if (WITH_FOO)" = true
      /\ Py.contains example_library_text "if (FOO)" = false.
Proof.
  split; [vm_compute; reflexivity|].
  split; [vm_compute; reflexivity|].
  split; [vm_compute; reflexivity|].
  split; [vm_compute; reflexivity|].
  split; [reflexivity|]. split; [reflexivity|].
  destruct (generate example_world example_settings example_parsed)
    as [gen|] eqn:Hgen; [|vm_compute in Hgen; discriminate Hgen].
  vm_compute in Hgen. injection Hgen as <-.
  eexists. eexists. split; [reflexivity|].
  split; [vm_compute; reflexivity|].
  split; [vm_compute; reflexivity|].
  split; vm_compute; reflexivity.
Qed.

(** ** Running the generation again *)

Lemma length_append (a b : string) :
  String.length (a +:+ b) = String.length a + String.length b.
Proof.
  induction a as [|x a IH]; [reflexivity | exact (f_equal S IH)].
Qed.

Lemma finalize_name (o : Option.t) : Option.name (Option.finalize o) = Option.name o.
Proof.
  unfold Option.finalize.
  destruct (String.length (Option.description o) <=? 1); simpl;
    destruct (String.length (Option.status o) <=? 1); simpl;
    match goal with |- context [if ?b then _ else _] => destruct b end;
    reflexivity.
Qed.

Lemma finalize_fixed (o : Option.t) :
  1 < String.length (Option.description o) ->
  1 < String.length (Option.status o) ->
  1 < String.length (Option.define_description o) ->
  Option.finalize o = o.
Proof.
  intros H1 H2 H3. unfold Option.finalize.
  apply Nat.leb_gt in H1, H2, H3. now rewrite H1, H2, H3.
Qed.

Lemma finalize_lengths (o : Option.t) :
  1 < String.length (Option.description (Option.finalize o))
  /\ 1 < String.length (Option.status (Option.finalize o))
  /\ 1 < String.length (Option.define_description (Option.finalize o)).
Proof.
  unfold Option.finalize.
  destruct (String.length (Option.description o) <=? 1) eqn:E1; simpl;
    destruct (String.length (Option.status o) <=? 1) eqn:E2; simpl;
    match goal with |- context [if ?b then _ else _] => destruct b eqn:E3 end;
    simpl; rewrite ?length_append; simpl;
    try apply Nat.leb_gt in E1; try apply Nat.leb_gt in E2;
    try apply Nat.leb_gt in E3; repeat split; lia.
Qed.

Lemma finalize_idempotent (o : Option.t) :
  Option.finalize (Option.finalize o) = Option.finalize o.
Proof.
  destruct (finalize_lengths o) as (H1 & H2 & H3). now apply finalize_fixed.
Qed.

(** A stable sort commutes with a map that keeps the keys. *)
Lemma insert_by_map {A} (key : A -> string) (f : A -> A) (x : A) (l : list A) :
  (forall y, key (f y) = key y) ->
  Py.insert_by key (f x) (map f l) = map f (Py.insert_by key x l).
Proof.
  intros Hk. induction l as [|y l IH]; simpl; [reflexivity|].
  rewrite !Hk. destruct (String.leb (key x) (key y)); simpl; [reflexivity|].
  now rewrite IH.
Qed.

Lemma sorted_by_map {A} (key : A -> string) (f : A -> A) (l : list A) :
  (forall y, key (f y) = key y) ->
  Py.sorted_by key (map f l) = map f (Py.sorted_by key l).
Proof.
  intros Hk. induction l as [|x l IH]; simpl; [reflexivity|].
  now rewrite IH, insert_by_map.
Qed.

Lemma toplevel_body_finalized (opts : Dict.t Option.t) (defs : Dict.t Define.t) :
  toplevel_body (finalize_options opts) defs = toplevel_body opts defs.
Proof.
  unfold toplevel_body, sorted_options, finalize_options.
  rewrite (sorted_by_map _
             (fun ko : string * Option.t => (fst ko, Option.finalize (snd ko))))
    by (intros [k o]; simpl; apply finalize_name).
  assert (Hm : forall l : list (string * Option.t),
             map (fun ko : string * Option.t => Option.finalize (snd ko))
               (map (fun ko : string * Option.t =>
                       (fst ko, Option.finalize (snd ko))) l)
             = map (fun ko : string * Option.t => Option.finalize (snd ko)) l).
  { induction l as [|[k o] l IH]; simpl; [reflexivity|].
    now rewrite finalize_idempotent, IH. }
  now rewrite Hm.
Qed.

(** C3, as stated, fails: the same parsed model, generated at two readings
    of the clock, gives two different top-level files. *)
Lemma generation_depends_on_clock :
  option_map file_ops (generate example_world example_settings example_parsed)
  <> option_map file_ops
       (generate example_world_later example_settings example_parsed).
Proof. vm_compute. intros H. discriminate H. Qed.

(** The per-directory text reads the file system and nothing else of the
    world. *)
Lemma process_library_list_isfile (w1 w2 : World) (settings : TargetSettings)
    (g : Globals) (todo : list Library.t) (files : Dict.t CMakeFile.t) :
  isfile w2 = isfile w1 ->
  process_library_list w2 settings g todo files
  = process_library_list w1 settings g todo files.
Proof.
  destruct w1 as [i1 g1 s1 m1 o1 r1 c1], w2 as [i2 g2 s2 m2 o2 r2 c2].
  cbn [isfile]. intros ->.
  revert files; induction todo as [|l todo IH]; intros files; [reflexivity|].
  cbn [process_library_list].
  change (library_content (mkWorld i1 g2 s2 m2 o2 r2 c2) settings g l)
    with (library_content (mkWorld i1 g1 s1 m1 o1 r1 c1) settings g l).
  destruct (library_content _ settings g l) as [[[content l'] out]|];
    [|reflexivity].
  now rewrite IH.
Qed.

Lemma default_cmake_glob (w1 w2 : World) (directories : list string) :
  glob w2 = glob w1 ->
  map (generate_default_cmake w2) directories
  = map (generate_default_cmake w1) directories.
Proof.
  intros H. apply map_ext. intros d.
  unfold generate_default_cmake, default_cmake_text. now rewrite H.
Qed.

(** C3, amended.  Two runs of the generation phase over the same parsed
    model and the same file system end alike: when one returns so does the
    other, with the same globals, the same printed lines and, after the
    first, the same file operations.  The first operation of each writes
    the top-level file: the banner with the reading of the clock, then a
    body that depends on the options and the defines alone.  So the two
    runs differ in the banner at most, and not at all when the clock reads
    the same. *)
Theorem generation_repeatable_but_banner (w1 w2 : World)
    (settings : TargetSettings) (g : Globals) (gen1 : Generated) :
  isfile w2 = isfile w1 ->
  glob w2 = glob w1 ->
  can_open w2 = can_open w1 ->
  generate w1 settings g = Some gen1 ->
  exists gen2 rest,
    generate w2 settings g = Some gen2
    /\ globals gen2 = globals gen1
    /\ output gen2 = output gen1
    /\ file_ops gen1
       = WriteFile (working_directory g +:+ "/CMakeLists.txt")
           (toplevel_banner (strftime w1)
            +:+ toplevel_body (options g) (temp_defines g)) :: rest
    /\ file_ops gen2
       = WriteFile (working_directory g +:+ "/CMakeLists.txt")
           (toplevel_banner (strftime w2)
            +:+ toplevel_body (options g) (temp_defines g)) :: rest
    /\ (strftime w2 = strftime w1 -> gen2 = gen1).
Proof.
  intros Hfile Hglob Hopen. unfold generate, process_libraries, opens.
  rewrite Hopen.
  destruct (negb (forallb _ [working_directory g])); [discriminate|].
  rewrite (process_library_list_isfile w1 w2 settings _ _ _ Hfile).
  destruct (process_library_list w1 _ _ _ _) as [[[libs files1] printed]|];
    [|discriminate].
  cbn [set_libraries set_options extra_content cmake_files set_cmake_files
       required_directories exclude_directories working_directory].
  destruct (negb (forallb _ (map _ _))); [discriminate|].
  destruct (write_cmake_files _ _) as [writes required].
  cbn [set_required_directories exclude_directories working_directory].
  destruct (negb (forallb _ _)); [discriminate|].
  rewrite (default_cmake_glob w1 w2 _ Hglob).
  intros [= <-]. eexists _, _. split; [reflexivity|].
  cbn [globals output file_ops]. unfold toplevel_text.
  repeat (split; [reflexivity|]).
  intros ->. reflexivity.
Qed.

Lemma generation_repeatable_but_banner_witness :
  isfile example_world_later = isfile example_world
  /\ glob example_world_later = glob example_world
  /\ can_open example_world_later = can_open example_world
  /\ strftime example_world_later <> strftime example_world
  /\ exists gen1 gen2 rest,
      generate example_world example_settings example_parsed = Some gen1
      /\ generate example_world_later example_settings example_parsed = Some gen2
      /\ globals gen2 = globals gen1
      /\ output gen2 = output gen1
      /\ file_ops gen1
         = WriteFile "./CMakeLists.txt"
             (toplevel_banner "2020-01-01 00:00:00"
              +:+ toplevel_body (options example_parsed)
                    (temp_defines example_parsed)) :: rest
      /\ file_ops gen2
         = WriteFile "./CMakeLists.txt"
             (toplevel_banner "2020-01-01 00:00:01"
              +:+ toplevel_body (options example_parsed)
                    (temp_defines example_parsed)) :: rest
      /\ length rest = 3.
Proof.
  do 3 (split; [reflexivity|]). split; [discriminate|].
  destruct (generate example_world example_settings example_parsed)
    as [gen1|] eqn:Hgen; [|vm_compute in Hgen; discriminate Hgen].
  destruct (generation_repeatable_but_banner example_world example_world_later
              example_settings example_parsed gen1 eq_refl eq_refl eq_refl Hgen)
    as (gen2 & rest & H2 & Hg & Ho & Hf1 & Hf2 & _).
  exists gen1, gen2, rest. split; [reflexivity|].
  split; [exact H2|]. split; [exact Hg|]. split; [exact Ho|].
  split; [exact Hf1|]. split; [exact Hf2|].
  assert (Hlen : length (file_ops gen1) = 4)
    by (vm_compute in Hgen; injection Hgen as <-; reflexivity).
  rewrite Hf1 in Hlen. cbn [length] in Hlen. injection Hlen as Hlen.
  exact Hlen.
Defined.

(** ** What the generation phase changes *)

(** C4, as stated, fails: an option that only a conditional binding created
    has an empty description and status before the generation phase, and
    the defaults of [finalize] after it. *)
Lemma generation_finalizes_options :
  options example_bound_only
  = [("foo", Option.mk "FOO" "" "" "WITH_FOO" "" "" [])]
  /\ option_map (fun gen => options (globals gen))
       (generate example_world example_settings example_bound_only)
     = Some [("foo", Option.mk "FOO" "Enable FOO" "OFF" "WITH_FOO" ""
                       "Enable FOO" [])].
Proof. split; vm_compute; reflexivity. Qed.

Lemma finalize_frame (o : Option.t) :
  Option.name (Option.finalize o) = Option.name o
  /\ Option.define (Option.finalize o) = Option.define o
  /\ Option.define_value (Option.finalize o) = Option.define_value o
  /\ Option.extra_defines (Option.finalize o) = Option.extra_defines o
  /\ (1 < String.length (Option.description o) ->
      Option.description (Option.finalize o) = Option.description o)
  /\ (1 < String.length (Option.status o) ->
      Option.status (Option.finalize o) = Option.status o)
  /\ (1 < String.length (Option.define_description o) ->
      Option.define_description (Option.finalize o)
      = Option.define_description o).
Proof.
  unfold Option.finalize.
  destruct (String.length (Option.description o) <=? 1) eqn:E1; simpl;
    destruct (String.length (Option.status o) <=? 1) eqn:E2; simpl;
    destruct (String.length (Option.define_description o) <=? 1) eqn:E3; simpl;
    try apply Nat.leb_le in E1; try apply Nat.leb_le in E2;
    try apply Nat.leb_le in E3;
    repeat split; intros; try reflexivity; lia.
Qed.

Lemma own_sources_library (w : World) (options : Dict.t Option.t)
    (library : Library.t) (t : LibraryText) :
  same_but_condition_joined library (snd (own_sources w options library t)).
Proof.
  unfold own_sources, same_but_condition_joined.
  destruct (PyText.truthy (Library.condition library)); [|now left].
  destruct (fold_left _ _ _) as [t' used]. destruct used; simpl.
  - now left.
  - now right.
Qed.

Lemma library_content_library (w : World) (settings : TargetSettings)
    (g : Globals) (library library' : Library.t) (content : string)
    (out : list string) :
  library_content w settings g library = Some (content, library', out) ->
  same_but_condition_joined library library'.
Proof.
  unfold library_content.
  match goal with
  | |- context [own_sources w (options g) library ?t] =>
      pose proof (own_sources_library w (options g) library t) as Hown;
      destruct (own_sources w (options g) library t) as [t1 l1]
  end.
  simpl in Hown.
  destruct (if PyText.truthy (Library.condition l1) then _ else _);
    [|discriminate].
  now intros [= _ <- _].
Qed.

Lemma process_library_list_libraries (w : World) (settings : TargetSettings)
    (g : Globals) (todo libs : list Library.t)
    (files files' : Dict.t CMakeFile.t) (out : list string) :
  process_library_list w settings g todo files = Some (libs, files', out) ->
  Forall2 same_but_condition_joined todo libs.
Proof.
  revert files files' libs out; induction todo as [|l todo IH];
    intros files files' libs out Hrun; simpl in Hrun.
  - injection Hrun as <- _ _. constructor.
  - destruct (library_content w settings g l) as [[[content l'] o]|] eqn:E;
      [|discriminate].
    destruct (process_library_list _ _ _ _ _) as [[[done files2] o2]|] eqn:E2;
      [|discriminate].
    injection Hrun as <- _ _. constructor.
    + now apply (library_content_library w settings g l l' content o).
    + now apply (IH _ _ _ _ E2).
Qed.

(** C4, amended.  The generation phase leaves the defines (the used flag
    included), the variables of configure.ac and the shared lists as they
    were.  It changes an option by [finalize] alone, which keeps the name,
    the define, its value and the extra defines, and keeps a description, a
    status or a define comment longer than one character.  It changes a
    library at most by joining its condition into a [str]. *)
Theorem generation_frame (w : World) (settings : TargetSettings)
    (g : Globals) (gen : Generated) :
  generate w settings g = Some gen ->
  temp_defines (globals gen) = temp_defines g
  /\ config_ac_variables (globals gen) = config_ac_variables g
  /\ heap (globals gen) = heap g
  /\ options (globals gen) = finalize_options (options g)
  /\ Forall2 same_but_condition_joined (libraries g) (libraries (globals gen))
  /\ forall o : Option.t,
      Option.name (Option.finalize o) = Option.name o
      /\ Option.define (Option.finalize o) = Option.define o
      /\ Option.define_value (Option.finalize o) = Option.define_value o
      /\ Option.extra_defines (Option.finalize o) = Option.extra_defines o
      /\ (1 < String.length (Option.description o) ->
          Option.description (Option.finalize o) = Option.description o)
      /\ (1 < String.length (Option.status o) ->
          Option.status (Option.finalize o) = Option.status o)
      /\ (1 < String.length (Option.define_description o) ->
          Option.define_description (Option.finalize o)
          = Option.define_description o).
Proof.
  intros Hgen.
  apply generate_inv in Hgen as (libs & files1 & printed & Hrun & Hg & _).
  cbv zeta in Hg. rewrite Hg; simpl.
  repeat (split; [reflexivity|]).
  split; [|exact finalize_frame].
  now apply (process_library_list_libraries w settings _ _ _ _ _ _ Hrun).
Qed.

Lemma generation_frame_witness :
  exists gen,
    generate example_world example_settings example_parsed = Some gen
    /\ temp_defines (globals gen) = temp_defines example_parsed
    /\ options (globals gen) = finalize_options (options example_parsed)
    /\ Forall2 same_but_condition_joined (libraries example_parsed)
         (libraries (globals gen)).
Proof.
  destruct (generate example_world example_settings example_parsed)
    as [gen|] eqn:Hgen; [|vm_compute in Hgen; discriminate Hgen].
  exists gen. split; [reflexivity|].
  destruct (generation_frame example_world example_settings example_parsed gen
              Hgen) as (H1 & _ & _ & H4 & H5 & _).
  split; [exact H1|]. split; [exact H4 | exact H5].
Defined.

(** ** The lines handed to the macro handlers *)

Lemma accumulate_extends (acc : string) (lines : list string)
    (full last : string) :
  accumulate acc lines = Some (full, last) ->
  exists tail, full = acc +:+ tail.
Proof.
  revert acc; induction lines as [|raw rest IH]; intros acc H; simpl in H.
  - discriminate.
  - destruct (bool_decide _).
    + injection H as <- _. now eexists.
    + apply IH in H as [tail ->]. eexists. now rewrite append_assoc.
Qed.

Lemma startswith_append (a tail p : string) :
  Py.startswith a p = true -> Py.startswith (a +:+ tail) p = true.
Proof.
  unfold Py.startswith. rewrite !prefix_chars_spec, chars_append.
  intros [r ->]. exists (r ++ Py.chars tail). now rewrite app_assoc.
Qed.

(** The line [process_configure_ac] hands to [process_argument] starts with
    the macro head, as C9 assumes of it. *)
Lemma argument_line_starts_with_head (raw : string) (rest : list string)
    (full last : string) :
  processable_line (Py.strip raw) = "AC_ARG_ENABLE" ->
  accumulate EmptyString (raw :: rest) = Some (full, last) ->
  Py.startswith full "AC_ARG_ENABLE(" = true.
Proof.
  intros Hm Hacc.
  assert (Hs : Py.startswith (Py.strip raw) "AC_ARG_ENABLE(" = true).
  { unfold processable_line in Hm.
    destruct (Py.startswith (Py.strip raw) "AC_ARG_ENABLE("); [reflexivity|].
    destruct (Py.startswith (Py.strip raw) "AM_CONDITIONAL("); [discriminate|].
    destruct (Py.startswith (Py.strip raw) "AC_DEFINE("); [discriminate|].
    destruct (Py.startswith (Py.strip raw) "AC_CONFIG_FILES("); discriminate. }
  simpl in Hacc.
  change (EmptyString +:+ Py.strip raw +:+ " ") with (Py.strip raw +:+ " ")
    in Hacc.
  destruct (bool_decide _).
  - injection Hacc as <- _. now apply startswith_append.
  - apply accumulate_extends in Hacc as [tail ->].
    rewrite append_assoc. now apply startswith_append.
Qed.

(** ** The generation phase always completes *)

Lemma own_sources_condition (w : World) (options : Dict.t Option.t)
    (library : Library.t) (t : LibraryText) :
  PyText.truthy (Library.condition (snd (own_sources w options library t))) = true ->
  exists s, Library.condition (snd (own_sources w options library t)) = PyStr s.
Proof.
  unfold own_sources.
  destruct (PyText.truthy (Library.condition library)) eqn:Htruthy.
  - destruct (Library.condition library) as [l|s] eqn:Hc.
    + rewrite (chars_condition_matches_no_option w library l options t Hc).
      simpl. intros _. now eexists.
    + destruct (fold_left _ _ _) as [t' used]. destruct used; simpl.
      * intros _. now exists s.
      * intros _. now eexists.
  - simpl. intros H. congruence.
Qed.

Lemma library_content_total (w : World) (settings : TargetSettings)
    (g : Globals) (library : Library.t) :
  exists r, library_content w settings g library = Some r.
Proof.
  unfold library_content.
  match goal with
  | |- context [own_sources w (options g) library ?t] =>
      pose proof (own_sources_condition w (options g) library t) as Hown;
      destruct (own_sources w (options g) library t) as [t1 l1]
  end.
  simpl in Hown.
  destruct (PyText.truthy (Library.condition l1)).
  - destruct (Hown eq_refl) as [s ->]. now eexists.
  - now eexists.
Qed.

Lemma process_library_list_total (w : World) (settings : TargetSettings)
    (g : Globals) (todo : list Library.t) (files : Dict.t CMakeFile.t) :
  exists r, process_library_list w settings g todo files = Some r.
Proof.
  revert files; induction todo as [|l todo IH]; intros files; simpl.
  - now eexists.
  - destruct (library_content_total w settings g l) as [[[content l'] out] ->].
    destruct (IH (hold_content files l' content)) as [[[done files'] out'] ->].
    now eexists.
Qed.

(** The [TypeError] of [process_libraries] cannot happen: [generate] fails
    only where a file cannot be opened. *)
Lemma opens_all (w : World) (directories : list string) :
  (forall d, can_open w (cmakelists d) = true) -> opens w directories = true.
Proof.
  intros H. unfold opens. apply forallb_forall. intros d _. apply H.
Qed.

Lemma generate_returns_when_opened (w : World) (settings : TargetSettings) (g : Globals) :
  (forall d, can_open w (cmakelists d) = true) ->
  exists gen, generate w settings g = Some gen.
Proof.
  intros Hopen. unfold generate, process_libraries.
  rewrite !(opens_all w _ Hopen). cbn [negb].
  destruct (process_library_list_total w settings
              (set_options g (finalize_options (options g)))
              (libraries g) (cmake_files g)) as [[[libs files] out] Hrun].
  cbn [options set_options libraries cmake_files] in *. rewrite Hrun.
  cbn [set_libraries set_options extra_content cmake_files set_cmake_files
       required_directories exclude_directories working_directory].
  rewrite !(opens_all w _ Hopen). cbn [negb].
  destruct (write_cmake_files _ _).
  cbn [set_required_directories exclude_directories working_directory].
  rewrite !(opens_all w _ Hopen). cbn [negb]. now eexists.
Qed.

(** ** The required directories stay outside the exclude set *)

Lemma subdir_steps_not_excluded (exclude : list string) (dir : string)
    (subdirs : list string) (acc : string * list string) :
  Forall (fun d => should_exclude exclude d = false) (snd acc) ->
  Forall (fun d => should_exclude exclude d = false)
    (snd (fold_left (subdir_step exclude dir) subdirs acc)).
Proof.
  revert acc; induction subdirs as [|x subdirs IH]; intros acc Hacc; simpl.
  - exact Hacc.
  - apply IH. unfold subdir_step.
    destruct (should_exclude exclude (dir +:+ "/" +:+ x)) eqn:E; simpl.
    + exact Hacc.
    + apply Forall_app. split; [exact Hacc | now repeat constructor].
Qed.

Lemma process_makefile_am_required (w : World) (file : string)
    (g g' : Globals) (out : list string) :
  process_makefile_am w file g = Some (g', out) ->
  required_not_excluded g ->
  required_not_excluded g' /\ exclude_directories g' = exclude_directories g.
Proof.
  unfold process_makefile_am, required_not_excluded. intros Hrun Hreq.
  destruct (negb (isfile w file)); [now injection Hrun as <- _|].
  destruct (should_exclude _ _); [now injection Hrun as <- _|].
  destruct (second_run _ _) as [st|]; [|discriminate].
  destruct (resolve_variables _ _ _ _) as [[libs2 h2]|]; [|discriminate].
  injection Hrun as <- _. unfold queue_subdirs.
  destruct (dirs_to_go_in st) as [d|]; [|now split].
  destruct (Py.truthy d); [|now split].
  pose proof (subdir_steps_not_excluded (exclude_directories g) (dirname file)
                (Py.split d) (EmptyString, required_directories g) Hreq) as H.
  simpl exclude_directories.
  destruct (fold_left _ _ _) as [extra_dir required]. simpl in *.
  now split.
Qed.

(** ** The names in the option registry *)

Lemma upper_char_idempotent (c : ascii) :
  Py.upper_char (Py.upper_char c) = Py.upper_char c.
Proof. destruct c as [[] [] [] [] [] [] [] []]; reflexivity. Qed.

Lemma upper_idempotent (s : string) : Py.upper (Py.upper s) = Py.upper s.
Proof.
  unfold Py.upper. rewrite chars_text, map_map. f_equal.
  apply map_ext. intros c. apply upper_char_idempotent.
Qed.

Lemma replace_char_absent (c : ascii) (new s : string) :
  Forall (fun x => x <> c) (Py.chars new) ->
  Forall (fun x => x <> c) (Py.chars (Py.replace_char c new s)).
Proof.
  intros Hnew. unfold Py.replace_char. rewrite chars_text.
  induction (Py.chars s) as [|x l IH]; simpl; [constructor|].
  apply Forall_app. split; [|exact IH].
  destruct (decide (x = c)); [exact Hnew | now repeat constructor].
Qed.

Lemma init_name (key description status define value comment : string) :
  Forall (fun x => x <> "-"%char) (Py.chars key) ->
  Option.name (Option.init key description status define value comment)
  = Py.upper key.
Proof.
  intros Hkey. unfold Option.init; simpl.
  now rewrite remove_absent_char.
Qed.

Lemma dash_free_key (s : string) :
  Forall (fun x => x <> "-"%char) (Py.chars (Py.replace_char "-" "_" s)).
Proof. apply replace_char_absent. repeat constructor. discriminate. Qed.

Lemma process_argument_named (line : string) (opts opts' : Dict.t Option.t) :
  process_argument line opts = Some opts' ->
  named_by_key opts -> named_by_key opts'.
Proof.
  unfold process_argument, named_by_key. intros Hrun Hopts.
  destruct (argument_description _) as [d|]; [|discriminate].
  assert (Hinit : forall a b c e f,
             Py.upper (Option.name (Option.init (argument_name line) a b c e f))
             = Py.upper (argument_name line)).
  { intros. rewrite init_name by apply dash_free_key. apply upper_idempotent. }
  destruct (Dict.get opts (argument_name line)); injection Hrun as <-;
    (apply dict_set_forall; [exact Hopts | | intros _ _]);
    first [reflexivity | apply Hinit].
Qed.

Lemma process_conditional_named (line : string) (opts : Dict.t Option.t) :
  named_by_key opts -> named_by_key (process_conditional line opts).
Proof.
  unfold process_conditional, named_by_key. intros Hopts.
  destruct (Dict.get opts (conditional_option line)) as [o|] eqn:Hget.
  - assert (Ho : Py.upper (Option.name o) = Py.upper (conditional_option line)).
    { apply dict_get_elem in Hget. rewrite Forall_forall in Hopts.
      exact (Hopts _ Hget). }
    apply dict_set_forall; [exact Hopts | | intros _ _]; exact Ho.
  - assert (Hinit : forall a b c e f,
               Py.upper (Option.name
                           (Option.init (conditional_option line) a b c e f))
               = Py.upper (conditional_option line)).
    { intros. rewrite init_name by apply dash_free_key. apply upper_idempotent. }
    apply dict_set_forall; [exact Hopts | | intros _ _]; apply Hinit.
Qed.

Lemma bind_option_name (o : Option.t) (defs : Dict.t Define.t) :
  Option.name (fst (bind_option o defs)) = Option.name o.
Proof.
  induction defs as [|[k d] defs IH]; simpl; [reflexivity|].
  destruct (Py.eqb (Option.define o) (Define.name d)); simpl;
    match goal with |- context [Py.eqb ?a ?b] => destruct (Py.eqb a b) end;
    simpl; try reflexivity.
  destruct (bind_option o defs) as [o' rest']. exact IH.
Qed.

(** The first merge keeps the keys and the names, so the registry enters
    the second merge named by key. *)
Lemma bind_options_named (opts : Dict.t Option.t) (defs : Dict.t Define.t) :
  named_by_key opts -> named_by_key (fst (bind_options opts defs)).
Proof.
  unfold named_by_key. intros Hopts. revert defs.
  induction Hopts as [|[k o] opts Ho _ IH]; intros defs; simpl; [constructor|].
  pose proof (bind_option_name o defs) as Hname.
  destruct (bind_option o defs) as [o' defs'].
  specialize (IH defs').
  destruct (bind_options opts defs') as [rest' defs'']. simpl in *.
  constructor; [simpl; now rewrite Hname | exact IH].
Qed.

(** * Further properties of the code *)

(** ** The lexical helpers *)

Lemma count_parentheses_from (l : list ascii) (z : Z) :
  fold_left (fun parco c =>
               let parco := if bool_decide (c = "("%char) then (parco + 1)%Z else parco in
               if bool_decide (c = ")"%char) then (parco - 1)%Z else parco) l z
  = (z + Z.of_nat (count_occ ascii_dec l "("%char)
     - Z.of_nat (count_occ ascii_dec l ")"%char))%Z.
Proof.
  revert z; induction l as [|c l IH]; intros z; simpl.
  - lia.
  - rewrite IH.
    repeat case_bool_decide; subst;
      repeat (destruct (ascii_dec _ _)); try congruence; lia.
Qed.

(** X1.  [count_parentheses] is the number of opening parentheses minus the
    number of closing ones: it is zero exactly when the two numbers agree,
    and the count of a concatenation is the sum of the counts, which is what
    lets [process_configure_ac] keep a running count over joined lines. *)
Theorem count_parentheses_balance (a b : string) :
  count_parentheses a
  = (Z.of_nat (count_occ ascii_dec (Py.chars a) "("%char)
     - Z.of_nat (count_occ ascii_dec (Py.chars a) ")"%char))%Z
  /\ (count_parentheses a = 0%Z <->
      count_occ ascii_dec (Py.chars a) "("%char
      = count_occ ascii_dec (Py.chars a) ")"%char)
  /\ count_parentheses (a +:+ b)
     = (count_parentheses a + count_parentheses b)%Z.
Proof.
  unfold count_parentheses. rewrite !count_parentheses_from, chars_append.
  rewrite !count_occ_app. repeat split; lia.
Qed.

Lemma length_text (l : list ascii) : String.length (Py.text l) = length l.
Proof. induction l as [|c l IH]; simpl; [reflexivity | now rewrite IH]. Qed.

Lemma length_chars (s : string) : length (Py.chars s) = String.length s.
Proof. induction s as [|c s IH]; simpl; [reflexivity | now rewrite IH]. Qed.

Lemma has_char_false (s : string) (c : ascii) :
  Py.has_char s c = false <-> c ∉ Py.chars s.
Proof.
  unfold Py.has_char. induction (Py.chars s) as [|x l IH]; simpl.
  - split; [intros _ H; inversion H | reflexivity].
  - destruct (decide (x = c)) as [->|Hne]; simpl.
    + split; [discriminate | intros H; exfalso; apply H; left].
    + rewrite IH. split.
      * intros H Hin. inversion Hin; subst; [congruence | contradiction].
      * intros H Hin. apply H. now right.
Qed.

Lemma word_char_ascii (c : ascii) :
  Py.isdigit c || Py.isalpha c || bool_decide (c = "_"%char) = true ->
  Nat.ltb (nat_of_ascii c) 128 = true.
Proof.
  intros H. apply Nat.ltb_lt.
  apply orb_true_iff in H as [H | H]; [apply orb_true_iff in H as [H | H]|].
  - unfold Py.isdigit in H. cbv zeta in H.
    apply andb_true_iff in H as [_ H]. apply Nat.leb_le in H. lia.
  - unfold Py.isalpha in H. cbv zeta in H.
    apply orb_true_iff in H as [H | H];
      apply andb_true_iff in H as [_ H]; apply Nat.leb_le in H; lia.
  - apply bool_decide_eq_true in H. subst c. vm_compute. lia.
Qed.

(** X2.  On text within ASCII, [canonicalize] keeps the length of its
    argument and returns only ASCII letters, digits and underscores (so a
    ['@'] is replaced as well, whatever the comment above the function
    says), and leaves such a string as it is: it is idempotent. *)
Theorem canonicalize_canonic (a : string) :
  ascii_text a = true ->
  String.length (canonicalize a) = String.length a
  /\ Forall (fun c => Py.isdigit c || Py.isalpha c || bool_decide (c = "_"%char) = true)
       (Py.chars (canonicalize a))
  /\ ascii_text (canonicalize a) = true
  /\ Py.has_char (canonicalize a) "@" = false
  /\ canonicalize (canonicalize a) = canonicalize a.
Proof.
  intros _. unfold canonicalize.
  set (f := fun c : ascii =>
              if Py.isdigit c || Py.isalpha c || bool_decide (c = "_"%char)
              then c else "_"%char).
  assert (Hf : forall c, Py.isdigit (f c) || Py.isalpha (f c)
                         || bool_decide (f c = "_"%char) = true).
  { intros c. unfold f.
    destruct (Py.isdigit c || Py.isalpha c || bool_decide (c = "_"%char)) eqn:E;
      [exact E | reflexivity]. }
  assert (Hall : Forall (fun c => Py.isdigit c || Py.isalpha c
                                  || bool_decide (c = "_"%char) = true)
                   (map f (Py.chars a))).
  { apply Forall_forall. intros c Hc. apply list_elem_of_fmap in Hc.
    destruct Hc as [x [-> _]]. apply Hf. }
  split; [|split; [|split; [|split]]].
  - rewrite length_text, length_map. apply length_chars.
  - now rewrite chars_text.
  - unfold ascii_text. rewrite chars_text. apply forallb_forall.
    intros c Hc. apply word_char_ascii.
    rewrite Forall_forall in Hall. apply Hall. now apply list_elem_of_In.
  - apply has_char_false. rewrite chars_text. intros Hin.
    rewrite Forall_forall in Hall. specialize (Hall _ Hin). discriminate.
  - rewrite chars_text. f_equal. rewrite map_map.
    apply map_ext. intros c. unfold f at 1. now rewrite Hf.
Qed.

Lemma canonicalize_canonic_witness :
  ascii_text "lib@x-1.a" = true
  /\ canonicalize "lib@x-1.a" = "lib_x_1_a"
  /\ String.length (canonicalize "lib@x-1.a") = String.length "lib@x-1.a"
  /\ Py.has_char (canonicalize "lib@x-1.a") "@" = false
  /\ canonicalize (canonicalize "lib@x-1.a") = canonicalize "lib@x-1.a".
Proof.
  split; [reflexivity|]. split; [reflexivity|].
  destruct (canonicalize_canonic "lib@x-1.a" eq_refl) as (H1 & _ & _ & H4 & H5).
  split; [exact H1|]. split; [exact H4 | exact H5].
Defined.

Lemma remove_char_forall (P : ascii -> Prop) (c : ascii) (s : string) :
  Forall P (Py.chars s) -> Forall P (Py.chars (Py.remove_char c s)).
Proof.
  unfold Py.remove_char, Py.replace_char. rewrite chars_text.
  induction (Py.chars s) as [|x l IH]; intros H; simpl; [constructor|].
  inversion H; subst.
  destruct (decide (x = c)); simpl; [now apply IH | constructor; [assumption | now apply IH]].
Qed.

Lemma remove_char_gone (c : ascii) (s : string) :
  Forall (fun x => x <> c) (Py.chars (Py.remove_char c s)).
Proof. apply replace_char_absent. constructor. Qed.

Lemma lstrip_chars_head (l : list ascii) :
  Py.lstrip_chars l = []
  \/ exists c t, Py.lstrip_chars l = c :: t /\ Py.isspace c = false.
Proof.
  induction l as [|c l IH]; simpl; [now left|].
  destruct (Py.isspace c) eqn:E; [exact IH | right; eauto].
Qed.

Lemma rstrip_chars_end (l : list ascii) :
  Py.rstrip_chars l = []
  \/ exists m c, Py.rstrip_chars l = m ++ [c] /\ Py.isspace c = false.
Proof.
  induction l as [|c l IH]; simpl; [now left|].
  destruct (Py.rstrip_chars l) as [|x r] eqn:E.
  - destruct (Py.isspace c) eqn:Ec; [now left | right; exists [], c; auto].
  - right. destruct IH as [IH|[m [c' [IH Hc']]]]; [discriminate|].
    exists (c :: m), c'. rewrite IH. auto.
Qed.

Lemma rstrip_chars_idempotent (l : list ascii) :
  Py.rstrip_chars (Py.rstrip_chars l) = Py.rstrip_chars l.
Proof.
  destruct (rstrip_chars_end l) as [->|[m [c [-> Hc]]]]; [reflexivity|].
  now apply rstrip_chars_nonblank_end.
Qed.

Lemma lstrip_rstrip_lstrip (l : list ascii) :
  Py.lstrip_chars (Py.rstrip_chars (Py.lstrip_chars l))
  = Py.rstrip_chars (Py.lstrip_chars l).
Proof.
  destruct (lstrip_chars_head l) as [->|[c [t [-> Hc]]]]; [reflexivity|].
  simpl. destruct (Py.rstrip_chars t); [rewrite Hc|]; simpl; now rewrite Hc.
Qed.

Lemma strip_idempotent (s : string) : Py.strip (Py.strip s) = Py.strip s.
Proof.
  unfold Py.strip. rewrite chars_text, lstrip_rstrip_lstrip.
  now rewrite rstrip_chars_idempotent.
Qed.

Lemma strip_forall (P : ascii -> Prop) (s : string) :
  Forall P (Py.chars s) -> Forall P (Py.chars (Py.strip s)).
Proof.
  intros H. destruct (strip_spec s) as [ws1 [ws2 [E _]]].
  rewrite E in H. apply Forall_app in H as [_ H]. now apply Forall_app in H as [H _].
Qed.

(** X3.  [remove_garbage] returns a string that holds none of the characters
    [],[$()] and has no blank at either end, and it leaves such a string as
    it is: applying it twice is applying it once. *)
Theorem remove_garbage_clean (s : string) :
  Forall (fun c => c ∉ ["]"; ","; "["; "$"; "("; ")"]%char)
    (Py.chars (remove_garbage s))
  /\ Py.strip (remove_garbage s) = remove_garbage s
  /\ remove_garbage (remove_garbage s) = remove_garbage s.
Proof.
  assert (Hclean : forall t,
    Forall (fun x => x <> "]"%char) (Py.chars (remove_garbage t))
    /\ Forall (fun x => x <> ","%char) (Py.chars (remove_garbage t))
    /\ Forall (fun x => x <> "["%char) (Py.chars (remove_garbage t))
    /\ Forall (fun x => x <> "$"%char) (Py.chars (remove_garbage t))
    /\ Forall (fun x => x <> "("%char) (Py.chars (remove_garbage t))
    /\ Forall (fun x => x <> ")"%char) (Py.chars (remove_garbage t))).
  { intros t. unfold remove_garbage. cbv zeta.
    repeat split; apply strip_forall;
      repeat first [apply remove_char_gone | apply remove_char_forall]. }
  destruct (Hclean s) as (H1 & H2 & H3 & H4 & H5 & H6).
  split; [|split].
  - rewrite Forall_forall in *. intros c Hc Hin.
    pose proof (H1 _ Hc). pose proof (H2 _ Hc). pose proof (H3 _ Hc).
    pose proof (H4 _ Hc). pose proof (H5 _ Hc). pose proof (H6 _ Hc).
    apply list_elem_of_In in Hin. simpl in Hin. intuition congruence.
  - unfold remove_garbage. cbv zeta. apply strip_idempotent.
  - unfold remove_garbage at 1. cbv zeta. unfold Py.remove_char.
    rewrite (remove_absent_char "]" _ _ H1), (remove_absent_char "," _ _ H2),
      (remove_absent_char "[" _ _ H3), (remove_absent_char "$" _ _ H4),
      (remove_absent_char "(" _ _ H5), (remove_absent_char ")" _ _ H6).
    unfold remove_garbage. cbv zeta. apply strip_idempotent.
Qed.

Lemma escaped_quotes (l pre post : list ascii) :
  flat_map (fun x => if decide (x = Py.dquote_char)
                     then [Py.backslash_char; Py.dquote_char] else [x]) l
  = pre ++ Py.dquote_char :: post ->
  exists pre', pre = pre' ++ [Py.backslash_char].
Proof.
  revert pre. induction l as [|x l IH]; intros pre H; simpl in H.
  - destruct pre; discriminate.
  - destruct (decide (x = Py.dquote_char)) as [->|Hx]; simpl in H.
    + destruct pre as [|p pre]; [discriminate|]. injection H as <- H.
      destruct pre as [|q pre].
      * now exists [].
      * injection H as <- H. destruct (IH _ H) as [pre' ->].
        now exists (Py.backslash_char :: Py.dquote_char :: pre').
    + destruct pre as [|p pre]; [injection H as H _; contradiction|].
      injection H as -> H. destruct (IH _ H) as [pre' ->].
      now exists (p :: pre').
Qed.

(** X4.  In the text [replace_quotes] returns, every double quote stands
    directly after a backslash: no quote is left unescaped, wherever it
    stood in the argument. *)
Theorem replace_quotes_escapes (a : string) (pre post : list ascii)
    (H : Py.chars (replace_quotes a) = pre ++ Py.dquote_char :: post) :
  exists pre', pre = pre' ++ [Py.backslash_char].
Proof.
  unfold replace_quotes, Py.replace_char in H. rewrite chars_text in H.
  now apply (escaped_quotes (Py.chars a) pre post).
Qed.

Lemma replace_quotes_escapes_witness :
  Py.chars (replace_quotes ("say " +:+ Py.dquote +:+ "hi" +:+ Py.dquote))
  = Py.chars ("say " +:+ Py.backslash +:+ Py.dquote +:+ "hi" +:+ Py.backslash)
    ++ Py.dquote_char :: []
  /\ exists pre',
       Py.chars ("say " +:+ Py.backslash +:+ Py.dquote +:+ "hi" +:+ Py.backslash)
       = pre' ++ [Py.backslash_char].
Proof.
  split; [reflexivity|].
  apply (replace_quotes_escapes ("say " +:+ Py.dquote +:+ "hi" +:+ Py.dquote) _ []).
  reflexivity.
Defined.

(** X5.  Exclusion goes by prefix of the path as text: a makefile whose
    directory extends an excluded directory by any text (excluding [src/a]
    also excludes [src/abc]) is skipped by [process_makefile_am], without a
    diagnostic and without a change to the globals.  An empty string among
    the excluded directories (what [-e] yields for an empty argument or a
    trailing [':']) is a prefix of every path, so it excludes every
    directory. *)
Theorem excluded_prefix_skips_makefile (w : World) (file : string)
    (g : Globals) (dire more : string)
    (Hfile : isfile w file = true)
    (Hexcluded : should_exclude (exclude_directories g) dire = true)
    (Hbelow : dirname file = dire +:+ more) :
  should_exclude (exclude_directories g) (dirname file) = true
  /\ process_makefile_am w file g = Some (g, [])
  /\ (EmptyString ∈ exclude_directories g ->
      forall d, should_exclude (exclude_directories g) d = true).
Proof.
  assert (Hdir : should_exclude (exclude_directories g) (dirname file) = true).
  { rewrite Hbelow. unfold should_exclude in *.
    apply existsb_exists in Hexcluded as [x [Hin Hx]].
    apply existsb_exists. exists x. split; [assumption|].
    now apply startswith_append. }
  split; [exact Hdir|]. split.
  - unfold process_makefile_am. rewrite Hfile. simpl. now rewrite Hdir.
  - intros Hempty d. unfold should_exclude. apply existsb_exists.
    exists EmptyString. split; [now apply list_elem_of_In | reflexivity].
Qed.

Lemma excluded_prefix_skips_makefile_witness :
  process_makefile_am example_world "./src/Makefile.am"
    (mkGlobals "." ["./s"; "doc"] [] [] [] [] [] [] [] [])
  = Some (mkGlobals "." ["./s"; "doc"] [] [] [] [] [] [] [] [], []).
Proof.
  apply (excluded_prefix_skips_makefile example_world "./src/Makefile.am"
           (mkGlobals "." ["./s"; "doc"] [] [] [] [] [] [] [] []) "./s" "rc");
    reflexivity.
Defined.

(** ** The handlers of configure.ac *)

Lemma skip_blanks_suffix (l l1 : list ascii) :
  skip_blanks l = Some l1 -> exists pre, l = pre ++ l1.
Proof.
  induction l as [|c l IH]; simpl; [discriminate|].
  destruct (decide (c = " "%char)).
  - intros H. destruct (IH H) as [pre ->]. now exists (c :: pre).
  - intros [= <-]. now exists [].
Qed.

Lemma skip_word_blank (l l2 : list ascii) :
  skip_word l = Some l2 -> exists pre rest, l = pre ++ l2 /\ l2 = " "%char :: rest.
Proof.
  induction l as [|c l IH]; simpl; [discriminate|].
  destruct (decide (c = " "%char)) as [->|Hc].
  - intros [= <-]. now exists [], l.
  - intros H. destruct (IH H) as [pre [rest [-> ->]]].
    now exists (c :: pre), rest.
Qed.

Lemma take_to_bracket_closed (l d : list ascii) :
  take_to_bracket l = Some d -> "]"%char ∈ l.
Proof.
  revert d. induction l as [|c l IH]; simpl; intros d; [discriminate|].
  destruct (decide (c = "]"%char)) as [->|Hc]; [intros _; left|].
  destruct (take_to_bracket l) as [d'|]; [|discriminate].
  intros _. right. now apply (IH d').
Qed.

Lemma description_after_bracket_some (l d : list ascii) :
  description_after_bracket l = Some d -> " "%char ∈ l /\ "]"%char ∈ l.
Proof.
  unfold description_after_bracket.
  destruct (skip_blanks l) as [l1|] eqn:E1; [|discriminate].
  destruct (skip_word l1) as [l2|] eqn:E2; [|discriminate].
  destruct (skip_blanks l2) as [l3|] eqn:E3; [|discriminate].
  intros H.
  destruct (skip_blanks_suffix _ _ E1) as [p1 ->].
  destruct (skip_word_blank _ _ E2) as [p2 [r2 [-> ->]]].
  destruct (skip_blanks_suffix _ _ E3) as [p3 E].
  apply take_to_bracket_closed in H.
  split.
  - apply elem_of_app; right. apply elem_of_app; right. left.
  - apply elem_of_app; right. apply elem_of_app; right.
    rewrite E. apply elem_of_app; now right.
Qed.

Lemma argument_description_bracket (pre rest : list ascii) :
  "["%char ∉ pre ->
  argument_description (pre ++ "["%char :: rest) = description_after_bracket rest.
Proof.
  induction pre as [|c pre IH]; intros H; simpl.
  - reflexivity.
  - destruct (decide (c = "["%char)) as [->|Hc]; [exfalso; apply H; left|].
    apply IH. intros Hin. apply H. now right.
Qed.

(** X6.  [process_argument] walks the bracketed help text with loops that
    read [s[i]] before they test [i < len(s)]: when the text after the
    first ['['] of the declaration holds no blank (the bracket holds the
    flag alone, as in [[--enable-foo]]) or no [']'], a loop runs off the end
    of the string and the call ends in an [IndexError], whatever the options
    registered so far. *)
Theorem process_argument_runs_off_the_end (line : string)
    (options : Dict.t Option.t) (pre rest : list ascii)
    (Htext : Py.chars (argument_text line) = pre ++ "["%char :: rest)
    (Hpre : "["%char ∉ pre)
    (Hrest : " "%char ∉ rest \/ "]"%char ∉ rest) :
  process_argument line options = None.
Proof.
  unfold process_argument. cbv zeta.
  rewrite Htext, (argument_description_bracket _ _ Hpre).
  destruct (description_after_bracket rest) as [d|] eqn:E; [|reflexivity].
  apply description_after_bracket_some in E as [H1 H2].
  destruct Hrest; contradiction.
Qed.

Lemma process_argument_runs_off_the_end_witness :
  process_argument "AC_ARG_ENABLE(foo, [--enable-foo])" [] = None.
Proof.
  apply (process_argument_runs_off_the_end _ []
           (Py.chars "foo, ") (Py.chars "--enable-foo])")).
  - reflexivity.
  - vm_compute. intros H. repeat (inversion H as [|? ? ? H']; subst; clear H; rename H' into H).
  - left. intros H. vm_compute in H.
    repeat (inversion H as [|? ? ? H']; subst; clear H; rename H' into H).
Defined.

Lemma dict_set_keys {V} (d : Dict.t V) (k : string) (v : V) :
  Dict.keys (Dict.set d k v)
  = if Dict.mem d k then Dict.keys d else Dict.keys d ++ [k].
Proof.
  unfold Dict.mem, Dict.keys. induction d as [|[k' v'] d IH]; simpl.
  - reflexivity.
  - destruct (decide (k' = k)) as [->|Hne]; simpl; [reflexivity|].
    rewrite IH. now destruct (Dict.get d k).
Qed.

(** X7.  A declaration touches the option under its own key and no other:
    after [process_argument] (when it returns) and after
    [process_conditional] every other key holds the option it held, the keys
    registered before keep their order, and at most the handler's key is
    added, last. *)
Theorem handlers_touch_one_option (argument conditional : string)
    (options options' : Dict.t Option.t)
    (Harg : process_argument argument options = Some options') :
  (forall k, k <> argument_name argument ->
             Dict.get options' k = Dict.get options k)
  /\ Dict.keys options'
     = (if Dict.mem options (argument_name argument) then Dict.keys options
        else Dict.keys options ++ [argument_name argument])
  /\ (forall k, k <> conditional_option conditional ->
                Dict.get (process_conditional conditional options) k
                = Dict.get options k)
  /\ Dict.keys (process_conditional conditional options)
     = (if Dict.mem options (conditional_option conditional)
        then Dict.keys options
        else Dict.keys options ++ [conditional_option conditional]).
Proof.
  unfold process_argument in Harg. cbv zeta in Harg.
  destruct (argument_description _) as [d|]; [|discriminate].
  assert (Hc : exists o, process_conditional conditional options
                         = Dict.set options (conditional_option conditional) o).
  { unfold process_conditional. cbv zeta.
    destruct (Dict.get options (conditional_option conditional)); eauto. }
  destruct Hc as [oc Hc]. rewrite Hc.
  assert (Ha : exists o, options' = Dict.set options (argument_name argument) o).
  { destruct (Dict.get options (argument_name argument));
      injection Harg as <-; eauto. }
  destruct Ha as [oa ->].
  repeat split.
  - intros k Hk. apply dict_get_set_ne. congruence.
  - apply dict_set_keys.
  - intros k Hk. apply dict_get_set_ne. congruence.
  - apply dict_set_keys.
Qed.

Lemma handlers_touch_one_option_witness :
  Dict.keys
    (process_conditional example_conditional
       [("bar", Option.init "bar" "" "" "" "" "")])
  = ["bar"; "foo"]
  /\ (forall o, process_argument example_argument_yes
                  [("bar", Option.init "bar" "" "" "" "" "")]
                = Some o -> Dict.keys o = ["bar"]).
Proof.
  split.
  - destruct (handlers_touch_one_option example_argument_yes example_conditional
                [("bar", Option.init "bar" "" "" "" "" "")] _ eq_refl)
      as (_ & _ & _ & H).
    exact H.
  - intros o Ho.
    destruct (handlers_touch_one_option example_argument_yes example_conditional
                [("bar", Option.init "bar" "" "" "" "" "")] o Ho)
      as (_ & H & _).
    exact H.
Defined.

Lemma scan_define_keeps_name (l : list ascii) (st : DefineScan) :
  2 <= stage st -> define_string (scan_define l st) = define_string st.
Proof.
  revert st. induction l as [|c l IH]; intros st Hst; [reflexivity|].
  cbn [scan_define]. cbv zeta.
  destruct (bool_decide (c = ")"%char) && _); [reflexivity|].
  set (bump := bool_decide (c = ","%char) && _).
  set (stage1 := if bump then S (stage st) else stage st).
  assert (H1 : 2 <= stage1) by (unfold stage1; destruct bump; lia).
  destruct (bump && (stage1 =? 4)); [reflexivity|].
  assert (E1 : (stage1 =? 1) = false) by (apply Nat.eqb_neq; lia).
  rewrite E1. simpl.
  destruct ((stage1 =? 2) && negb (bool_decide (c = ","%char)));
    [rewrite IH; [reflexivity | exact H1]|].
  destruct (stage1 =? 3); (rewrite IH; [reflexivity | exact H1]).
Qed.

Lemma scan_define_symbol (n l : list ascii) (st : DefineScan) :
  stage st = 1 ->
  forallb symbol_char n = true ->
  scan_define (n ++ l) st
  = scan_define l
      (mkScan 1
         (sqp st + Z.of_nat (count_occ ascii_dec n "["%char)
          - Z.of_nat (count_occ ascii_dec n "]"%char))%Z
         (roup st) (define_string st ++ n) (defined_to_value st)
         (scan_description st)).
Proof.
  revert st. induction n as [|c n IH]; intros st Hst Hn.
  - simpl. rewrite app_nil_r. destruct st; simpl in *; subst.
    f_equal. f_equal. lia.
  - simpl in Hn. apply andb_prop in Hn as [Hc Hn].
    unfold symbol_char in Hc.
    apply andb_prop in Hc as [Hc Hc4]. apply andb_prop in Hc as [Hc Hc3].
    apply andb_prop in Hc as [Hc1 Hc2].
    apply negb_true_iff in Hc2, Hc3, Hc4.
    change ((c :: n) ++ l) with (c :: (n ++ l)). cbn [scan_define]. cbv zeta.
    rewrite Hc2, Hc4, Hst. simpl.
    apply bool_decide_eq_false in Hc3, Hc4.
    rewrite IH by (simpl; auto). simpl.
    f_equal. f_equal.
    + destruct (ascii_dec c "["%char) as [->|H1].
      * destruct (decide ("["%char = "["%char)); [|contradiction].
        destruct (decide ("["%char = "]"%char)); [discriminate|].
        destruct (ascii_dec "["%char "]"%char); [discriminate|]. lia.
      * destruct (decide (c = "["%char)); [contradiction|].
        destruct (ascii_dec c "]"%char) as [->|H2].
        -- destruct (decide ("]"%char = "]"%char)); [|contradiction]. lia.
        -- destruct (decide (c = "]"%char)); [contradiction|]. lia.
    + destruct (decide (c = "("%char)); [contradiction|].
      now destruct (decide (c = ")"%char)).
    + now rewrite <- app_assoc.
Qed.

Lemma rstrip_chars_keeps (a b : list ascii) (x : ascii) :
  Py.isspace x = false -> exists b', Py.rstrip_chars (a ++ x :: b) = a ++ x :: b'.
Proof.
  intros Hx. induction a as [|c a [b' IH]]; simpl.
  - destruct (Py.rstrip_chars b) as [|y r]; [rewrite Hx|]; eauto.
  - rewrite IH. exists b'. now destruct a.
Qed.

Lemma lstrip_chars_nonblank (l : list ascii) :
  match l with [] => True | c :: _ => Py.isspace c = false end ->
  Py.lstrip_chars l = l.
Proof. destruct l as [|c l]; simpl; [reflexivity | now intros ->]. Qed.

(** X8.  [process_a_define] registers a define under the text before the
    first top-level comma: for a symbol without blank, comma or parenthesis
    (square brackets are allowed when they pair up, and are kept in the
    key), whatever follows the comma, the entry is stored under the symbol,
    carries it as its name, is unused, and no other entry of [temp_defines]
    changes. *)
Theorem process_a_define_registers (name rest : string)
    (temp_defines : Dict.t Define.t)
    (Hname : forallb symbol_char (Py.chars name) = true)
    (Hbrackets : count_occ ascii_dec (Py.chars name) "["%char
                 = count_occ ascii_dec (Py.chars name) "]"%char) :
  (exists d,
      Dict.get (process_a_define ("AC_DEFINE(" +:+ name +:+ "," +:+ rest)
                  temp_defines) name = Some d
      /\ Define.name d = name /\ Define.used d = 0)
  /\ forall k, k <> name ->
       Dict.get (process_a_define ("AC_DEFINE(" +:+ name +:+ "," +:+ rest)
                   temp_defines) k
       = Dict.get temp_defines k.
Proof.
  unfold process_a_define. cbv zeta.
  change (Py.drop_front (String.length "AC_DEFINE(")
            ("AC_DEFINE(" +:+ name +:+ "," +:+ rest))
    with (Py.text (Py.chars (name +:+ "," +:+ rest))).
  rewrite text_chars.
  set (s := Py.strip (name +:+ "," +:+ rest)).
  assert (Hs : exists b, Py.chars s = Py.chars name ++ ","%char :: b).
  { unfold s, Py.strip. rewrite chars_text, chars_append.
    change (Py.chars ("," +:+ rest)) with (","%char :: Py.chars rest).
    rewrite lstrip_chars_nonblank.
    - apply rstrip_chars_keeps. reflexivity.
    - destruct (Py.chars name) as [|c n]; [reflexivity|].
      simpl in Hname. apply andb_prop in Hname as [Hc _].
      unfold symbol_char in Hc. repeat (apply andb_prop in Hc as [Hc _]).
      now apply negb_true_iff in Hc. }
  destruct Hs as [b Hs].
  assert (Hkey : Py.text (define_string
                   (scan_define (Py.chars s) (mkScan 1 0%Z 1%Z [] [] []))) = name).
  { rewrite Hs, scan_define_symbol by (reflexivity || assumption).
    simpl sqp. simpl roup. simpl define_string at 2.
    simpl defined_to_value. simpl scan_description.
    rewrite Hbrackets.
    replace (0 + Z.of_nat (count_occ ascii_dec (Py.chars name) "]"%char)
             - Z.of_nat (count_occ ascii_dec (Py.chars name) "]"%char))%Z
      with 0%Z by lia.
    cbn [scan_define]. simpl.
    rewrite scan_define_keeps_name by (simpl; lia).
    simpl. apply text_chars. }
  rewrite Hkey. split.
  - eexists. split; [apply dict_get_set_eq|]. split; reflexivity.
  - intros k Hk. apply dict_get_set_ne. congruence.
Qed.

Lemma process_a_define_registers_witness :
  exists d,
    Dict.get (process_a_define
                ("AC_DEFINE(" +:+ "[HAVE_FOO]" +:+ "," +:+ " [1], [Define if foo]) ")
                []) "[HAVE_FOO]" = Some d
    /\ Define.name d = "[HAVE_FOO]" /\ Define.used d = 0.
Proof.
  apply (process_a_define_registers "[HAVE_FOO]" " [1], [Define if foo]) " []);
    reflexivity.
Defined.

(** ** The merges of [process_configure_ac] *)




Lemma marked_refl (d : Define.t) : marked d d.
Proof. now left. Qed.

Lemma marked_trans (a b c : Define.t) : marked a b -> marked b c -> marked a c.
Proof.
  unfold marked. intros [->| ->] [->| ->]; auto.
Qed.

Lemma marked_all_refl (defs : Dict.t Define.t) :
  Forall2 (fun kd kd' : string * Define.t =>
             fst kd' = fst kd /\ marked (snd kd) (snd kd')) defs defs.
Proof. induction defs; constructor; auto using marked_refl. Qed.

Lemma marked_all_trans (a b c : Dict.t Define.t) :
  Forall2 (fun kd kd' : string * Define.t =>
             fst kd' = fst kd /\ marked (snd kd) (snd kd')) a b ->
  Forall2 (fun kd kd' : string * Define.t =>
             fst kd' = fst kd /\ marked (snd kd) (snd kd')) b c ->
  Forall2 (fun kd kd' : string * Define.t =>
             fst kd' = fst kd /\ marked (snd kd) (snd kd')) a c.
Proof.
  intros H. revert c. induction H as [|x y a b [H1 H2] _ IH]; intros c Hc;
    inversion Hc as [|? z ? c' [H3 H4] Hc']; subst; constructor.
  - split; [congruence | eapply marked_trans; eauto].
  - now apply IH.
Qed.

Lemma same_declaration_refl (o : Option.t) : same_declaration o o.
Proof. repeat split. exists []. now rewrite app_nil_r. Qed.

Lemma same_declaration_trans (a b c : Option.t) :
  same_declaration a b -> same_declaration b c -> same_declaration a c.
Proof.
  intros (H1 & H2 & H3 & m & H4) (H5 & H6 & H7 & m' & H8).
  repeat split; try congruence.
  exists (m ++ m'). now rewrite H8, H4, app_assoc.
Qed.

Lemma bind_option_frame (o : Option.t) (defs : Dict.t Define.t) :
  same_declaration o (fst (bind_option o defs))
  /\ Forall2 (fun kd kd' : string * Define.t =>
                fst kd' = fst kd /\ marked (snd kd) (snd kd'))
       defs (snd (bind_option o defs)).
Proof.
  induction defs as [|[k d] defs [IH1 IH2]]; simpl.
  - split; [apply same_declaration_refl | constructor].
  - destruct (Py.eqb (Option.define o) (Define.name d)); simpl.
    + split.
      * destruct (Py.eqb _ _); repeat split; exists []; simpl;
          now rewrite app_nil_r.
      * constructor; [split; [reflexivity | now right] | apply marked_all_refl].
    + destruct (Py.eqb (Option.name o) (Define.option_name d)); simpl.
      * split; [repeat split; exists []; simpl; now rewrite app_nil_r|].
        constructor; [split; [reflexivity | now right] | apply marked_all_refl].
      * destruct (bind_option o defs) as [o' defs']. simpl in *.
        split; [assumption|]. constructor; [split; [reflexivity | now left] | assumption].
Qed.

Lemma bind_options_frame (opts : Dict.t Option.t) (defs : Dict.t Define.t) :
  Forall2 (fun ko ko' : string * Option.t =>
             fst ko' = fst ko /\ same_declaration (snd ko) (snd ko'))
    opts (fst (bind_options opts defs))
  /\ Forall2 (fun kd kd' : string * Define.t =>
                fst kd' = fst kd /\ marked (snd kd) (snd kd'))
       defs (snd (bind_options opts defs)).
Proof.
  revert defs. induction opts as [|[k o] opts IH]; intros defs; simpl.
  - split; [constructor | apply marked_all_refl].
  - destruct (bind_option_frame o defs) as [H1 H2].
    destruct (bind_option o defs) as [o' defs']. simpl in *.
    destruct (IH defs') as [H3 H4].
    destruct (bind_options opts defs') as [rest' defs'']. simpl in *.
    split; [constructor; auto|]. eapply marked_all_trans; eauto.
Qed.

Lemma attach_frame (w : World) (k : string) (ko : string * Option.t) :
  fst (attach w k ko) = fst ko
  /\ same_declaration (snd ko) (snd (attach w k ko))
  /\ Option.extra_defines (snd (attach w k ko))
     = Option.extra_defines (snd ko)
       ++ (if fuzzy_match w k (fst ko) then [k] else []).
Proof.
  unfold attach. destruct (fuzzy_match w k (fst ko)); simpl.
  - repeat split. now exists [k].
  - repeat split; [|now rewrite app_nil_r]. exists []. now rewrite app_nil_r.
Qed.

Lemma existsb_attach (w : World) (k k' : string) (opts : Dict.t Option.t) :
  existsb (fun ko : string * Option.t => fuzzy_match w k' (fst ko))
    (map (attach w k) opts)
  = existsb (fun ko : string * Option.t => fuzzy_match w k' (fst ko)) opts.
Proof.
  induction opts as [|ko opts IH]; simpl; [reflexivity|].
  destruct (attach_frame w k ko) as [-> _]. now rewrite IH.
Qed.

Lemma match_defines_spec (w : World) (defs : Dict.t Define.t)
    (opts : Dict.t Option.t) :
  Forall2 (fun ko ko' : string * Option.t =>
             fst ko' = fst ko
             /\ same_declaration (snd ko) (snd ko')
             /\ Option.define (snd ko') = Option.define (snd ko)
             /\ Option.extra_defines (snd ko')
                = Option.extra_defines (snd ko)
                  ++ List.filter (fun n => fuzzy_match w n (fst ko))
                       (map fst (List.filter
                                   (fun kd : string * Define.t =>
                                      Define.used (snd kd) =? 0) defs)))
    opts (fst (match_defines w opts defs))
  /\ snd (match_defines w opts defs)
     = map (fun kd : string * Define.t =>
              if (Define.used (snd kd) =? 0)
                 && existsb (fun ko : string * Option.t =>
                               fuzzy_match w (fst kd) (fst ko)) opts
              then (fst kd, Define.set_used (snd kd) 1) else kd) defs.
Proof.
  revert opts. induction defs as [|[k d] defs IH]; intros opts.
  - simpl. split; [|reflexivity].
    induction opts; constructor; auto.
    split; [reflexivity|]. split; [apply same_declaration_refl|].
    split; [reflexivity | now rewrite app_nil_r].
  - cbn [match_defines]. unfold match_define.
    cbn [List.filter snd fst]. destruct (Define.used d =? 0) eqn:Eu.
    + specialize (IH (map (attach w k) opts)).
      destruct (match_defines w (map (attach w k) opts) defs) as [opts'' rest'].
      simpl in IH. destruct IH as [IH1 IH2]. simpl. split.
      * apply Forall2_fmap_l in IH1.
        eapply Forall2_impl; [exact IH1|].
        intros ko ko' (H1 & H2 & H3 & H4). simpl in *.
        destruct (attach_frame w k ko) as (F1 & F2 & F3).
        rewrite F1 in *. split; [|split; [|split]].
        -- assumption.
        -- eapply same_declaration_trans; eauto.
        -- rewrite H3. unfold attach. now destruct (fuzzy_match w k (fst ko)).
        -- rewrite H4, F3, <- app_assoc. f_equal.
           now destruct (fuzzy_match w k (fst ko)).
      * rewrite IH2, Eu. simpl. f_equal.
        -- now destruct (existsb _ opts).
        -- apply map_ext. intros kd. now rewrite existsb_attach.
    + specialize (IH opts).
      destruct (match_defines w opts defs) as [opts'' rest'].
      simpl in IH. destruct IH as [IH1 IH2]. simpl. split; [assumption|].
      now rewrite IH2, Eu.
Qed.

(** X10.  The two merges at the end of [process_configure_ac] keep the keys
    and the order of both registries.  An option keeps its name, description
    and status, and its extra defines can only be extended; a define keeps
    every field but the used flag, which is only ever set.  Nothing else in
    the globals changes. *)
Theorem merge_defines_frame (w : World) (g : Globals) :
  Forall2 (fun ko ko' : string * Option.t =>
             fst ko' = fst ko /\ same_declaration (snd ko) (snd ko'))
    (options g) (options (merge_defines w g))
  /\ Forall2 (fun kd kd' : string * Define.t =>
                fst kd' = fst kd /\ marked (snd kd) (snd kd'))
       (temp_defines g) (temp_defines (merge_defines w g))
  /\ libraries (merge_defines w g) = libraries g
  /\ heap (merge_defines w g) = heap g
  /\ cmake_files (merge_defines w g) = cmake_files g
  /\ config_ac_variables (merge_defines w g) = config_ac_variables g
  /\ extra_content (merge_defines w g) = extra_content g
  /\ required_directories (merge_defines w g) = required_directories g.
Proof.
  unfold merge_defines.
  destruct (bind_options_frame (options g) (temp_defines g)) as [H1 H2].
  destruct (bind_options (options g) (temp_defines g)) as [opts1 defs1].
  destruct (match_defines_spec w defs1 opts1) as [H3 H4].
  destruct (match_defines w opts1 defs1) as [opts2 defs2].
  simpl in *. split; [|split; [|repeat split]].
  - clear H2 H4. revert opts2 H3.
    induction H1 as [|x y a b [E1 E2] _ IH]; intros opts2 H3;
      inversion H3 as [|? z ? c (E3 & E4 & _) H3']; subst; constructor.
    + split; [congruence | eapply same_declaration_trans; eauto].
    + now apply IH.
  - eapply marked_all_trans; [exact H2|]. rewrite H4.
    clear. induction defs1 as [|[k d] defs1 IH]; simpl; constructor; auto.
    destruct (_ && _); simpl; split; auto; [now right | now left].
Qed.

(** X11.  The second merge is exact.  Each option gains, after the extra
    defines it had, the keys of the defines that were unused when the merge
    began and that match the option's key, in the order of [temp_defines],
    and nothing else; a define is marked used exactly when it was unused
    and some option key matches its own, and every other define is
    untouched.  In particular a define that is already used is offered to
    no option, and a define that is marked has its [used] flag at 1 and
    keeps its name and its value. *)
Theorem fuzzy_pass_exact (w : World) (opts : Dict.t Option.t)
    (defs : Dict.t Define.t) :
  (forall i k o,
      opts !! i = Some (k, o) ->
      exists o',
        fst (match_defines w opts defs) !! i = Some (k, o')
        /\ same_declaration o o'
        /\ Option.define o' = Option.define o
        /\ Option.extra_defines o'
           = Option.extra_defines o
             ++ List.filter (fun n => fuzzy_match w n k)
                  (map fst (List.filter
                              (fun kd : string * Define.t =>
                                 Define.used (snd kd) =? 0) defs)))
  /\ length (fst (match_defines w opts defs)) = length opts
  /\ (forall j k d,
        defs !! j = Some (k, d) ->
        snd (match_defines w opts defs) !! j
        = Some (k, if (Define.used d =? 0)
                      && existsb (fun ko : string * Option.t =>
                                    fuzzy_match w k (fst ko)) opts
                   then Define.set_used d 1 else d))
  /\ length (snd (match_defines w opts defs)) = length defs
  /\ (forall j k d,
        defs !! j = Some (k, d) ->
        Define.used d = 0 ->
        existsb (fun ko : string * Option.t => fuzzy_match w k (fst ko)) opts
        = true ->
        exists d',
          snd (match_defines w opts defs) !! j = Some (k, d')
          /\ Define.used d' = 1
          /\ Define.name d' = Define.name d
          /\ Define.value d' = Define.value d).
Proof.
  destruct (match_defines_spec w defs opts) as [Hopts Hdefs].
  split; [|split; [|split; [|split]]].
  5:{ intros j k d Hj Hu He. exists (Define.set_used d 1).
      rewrite Hdefs.
      change (map ?f defs) with (f <$> defs). rewrite list_lookup_fmap, Hj.
      simpl. rewrite Hu, He. simpl. repeat split. }
  - intros i k o Hi.
    destruct (Forall2_lookup_l _ _ _ _ _ Hopts Hi)
      as ([k' o'] & Hi' & Hk & Hsame & Hdefine & Hextra).
    simpl in *. subst k'. exists o'. auto.
  - symmetry. eapply Forall2_length; eauto.
  - intros j k d Hj. rewrite Hdefs.
    change (map ?f defs) with (f <$> defs). rewrite list_lookup_fmap, Hj.
    simpl. now destruct (_ && _).
  - rewrite Hdefs. apply length_map.
Qed.

(** ** The loop of [process_configure_ac] *)

Lemma has_char_true (s : string) (c : ascii) :
  Py.has_char s c = true <-> c ∈ Py.chars s.
Proof.
  destruct (Py.has_char s c) eqn:E.
  - split; [intros _|reflexivity].
    destruct (decide (c ∈ Py.chars s)) as [H|H]; [exact H|].
    apply has_char_false in H. congruence.
  - apply has_char_false in E. split; [discriminate | contradiction].
Qed.

Lemma drop_while_keeps (p : ascii -> bool) (x : ascii) (l : list ascii) :
  x ∈ l -> p x = false -> x ∈ drop_while p l.
Proof.
  intros Hin Hx. induction l as [|c l IH]; [inversion Hin|].
  simpl. destruct (p c) eqn:E; [|exact Hin].
  apply IH. inversion Hin; subst; [congruence | assumption].
Qed.

(** X12.  The scan for a plain assignment cannot run off the end of the
    line: its two loops index the line without a bound, but they stop at the
    ['='] the line is known to hold, so [variable_definition] returns for
    every line and every table. *)
Theorem variable_definition_returns (current_line : string)
    (vars : Dict.t ConfigVar) :
  exists vars', variable_definition current_line vars = Some vars'.
Proof.
  unfold variable_definition.
  destruct (Py.has_char current_line "=") eqn:E; [|eauto].
  apply has_char_true in E.
  destruct (Py.chars current_line) as [|c cs] eqn:Ec; [inversion E|].
  destruct (Py.isalpha c); [|eauto]. cbv zeta.
  assert (H : "="%char ∈ drop_while Py.isspace (drop_while name_char (c :: cs))).
  { apply drop_while_keeps; [|reflexivity].
    apply drop_while_keeps; [exact E | reflexivity]. }
  destruct (drop_while Py.isspace (drop_while name_char (c :: cs))) as [|x v];
    [inversion H|].
  destruct (decide (x = "="%char)); eauto.
Qed.

Lemma isspace_not_name_char (c : ascii) :
  Py.isspace c = true -> name_char c = false.
Proof.
  destruct c as [[] [] [] [] [] [] [] []]; vm_compute; congruence.
Qed.

Lemma take_until_name (n rest : list ascii) :
  forallb name_char n = true ->
  match rest with [] => True | c :: _ => name_char c = false end ->
  take_until (fun x => negb (name_char x)) (n ++ rest) = n
  /\ drop_while name_char (n ++ rest) = rest.
Proof.
  intros Hn Hrest. induction n as [|c n IH]; simpl.
  - destruct rest as [|c rest]; [auto|]. simpl. now rewrite Hrest.
  - simpl in Hn. apply andb_prop in Hn as [Hc Hn]. rewrite Hc. simpl.
    destruct (IH Hn) as [-> ->]. auto.
Qed.

Lemma drop_while_blanks (ws rest : list ascii) :
  forallb Py.isspace ws = true ->
  match rest with [] => True | c :: _ => Py.isspace c = false end ->
  drop_while Py.isspace (ws ++ rest) = rest.
Proof.
  intros Hws Hrest. induction ws as [|c ws IH]; simpl.
  - destruct rest as [|c rest]; [auto|]. simpl. now rewrite Hrest.
  - simpl in Hws. apply andb_prop in Hws as [Hc Hws]. rewrite Hc. now apply IH.
Qed.

Lemma variable_definition_eq (current_line : string) (vars : Dict.t ConfigVar)
    (c : ascii) (tl : list ascii) :
  Py.chars current_line = c :: tl ->
  Py.has_char current_line "=" = true ->
  Py.isalpha c = true ->
  variable_definition current_line vars
  = match drop_while Py.isspace (drop_while name_char (c :: tl)) with
    | [] => None
    | x :: var_value =>
        if decide (x = "="%char) then
          let varname :=
            Py.text (take_until (fun x => negb (name_char x)) (c :: tl)) in
          Some (Dict.set vars varname
                  (match Dict.get vars varname with Some v => v | None => [] end
                   ++ [Py.text var_value]))
        else Some vars
    end.
Proof.
  intros E H1 H2. unfold variable_definition. rewrite H1, E.
  cbv beta iota. rewrite H2. reflexivity.
Qed.

(** X13.  A line [name = value] of configure.ac appends to the variable:
    for a name of letters, digits and underscores that starts with a
    letter, blanks before the ['='], and any text after it, the text after
    the ['='] (blanks included) becomes the last value of the variable's
    list; the values recorded before stay, in order, and a variable seen for
    the first time starts from the empty list. *)
Theorem variable_definition_appends (name blanks value : string)
    (vars : Dict.t ConfigVar)
    (Hfirst : match Py.chars name with
              | [] => false
              | c :: _ => Py.isalpha c
              end = true)
    (Hname : forallb name_char (Py.chars name) = true)
    (Hblanks : forallb Py.isspace (Py.chars blanks) = true) :
  variable_definition (name +:+ blanks +:+ "=" +:+ value) vars
  = Some (Dict.set vars name
            (match Dict.get vars name with Some v => v | None => [] end
             ++ [value])).
Proof.
  assert (Hcs : Py.chars (name +:+ blanks +:+ "=" +:+ value)
                = Py.chars name ++ Py.chars blanks ++ "="%char :: Py.chars value).
  { now rewrite !chars_append. }
  assert (Hhas : Py.has_char (name +:+ blanks +:+ "=" +:+ value) "=" = true).
  { apply has_char_true. rewrite Hcs.
    apply elem_of_app. right. apply elem_of_app. right. left. }
  destruct (Py.chars name) as [|c n] eqn:En; [discriminate|].
  rewrite (variable_definition_eq _ vars c
             (n ++ Py.chars blanks ++ "="%char :: Py.chars value) Hcs Hhas Hfirst).
  change (c :: (n ++ Py.chars blanks ++ "="%char :: Py.chars value))
    with ((c :: n) ++ Py.chars blanks ++ "="%char :: Py.chars value).
  assert (Hrest : match Py.chars blanks ++ "="%char :: Py.chars value with
                  | [] => True
                  | x :: _ => name_char x = false
                  end).
  { destruct (Py.chars blanks) as [|x ws]; [reflexivity|].
    simpl in Hblanks. apply andb_prop in Hblanks as [Hx _].
    now apply isspace_not_name_char. }
  destruct (take_until_name (c :: n) _ Hname Hrest) as [-> ->].
  rewrite (drop_while_blanks _ _ Hblanks) by reflexivity.
  destruct (decide ("="%char = "="%char)); [|contradiction].
  cbv zeta. rewrite <- En, !text_chars. reflexivity.
Qed.

Lemma variable_definition_appends_witness :
  variable_definition ("FOO_LIBS" +:+ " " +:+ "=" +:+ " -lfoo -lm")
    [("FOO_LIBS", ["-lbar"])]
  = Some [("FOO_LIBS", ["-lbar"; " -lfoo -lm"])].
Proof.
  apply (variable_definition_appends "FOO_LIBS" " " " -lfoo -lm"
           [("FOO_LIBS", ["-lbar"])]); reflexivity.
Defined.

Lemma accumulate_spec (lines : list string) (full_line : string) :
  match accumulate full_line lines with
  | Some (result, last) =>
      exists k raw,
        lines !! k = Some raw
        /\ last = Py.strip raw
        /\ result = full_line
                    +:+ Py.concat_all
                          (map (fun l => Py.strip l +:+ " ") (take (S k) lines))
        /\ count_parentheses result = 0%Z
        /\ forall j, j < k ->
             count_parentheses
               (full_line
                +:+ Py.concat_all
                      (map (fun l => Py.strip l +:+ " ") (take (S j) lines)))
             <> 0%Z
  | None =>
      forall j, j < length lines ->
        count_parentheses
          (full_line
           +:+ Py.concat_all
                 (map (fun l => Py.strip l +:+ " ") (take (S j) lines)))
        <> 0%Z
  end.
Proof.
  revert full_line. induction lines as [|raw rest IH]; intros full_line.
  - simpl. intros j Hj. lia.
  - cbn [accumulate]. cbv zeta.
    assert (Hstep : forall j,
      full_line +:+ Py.concat_all
                      (map (fun l => Py.strip l +:+ " ") (take (S j) (raw :: rest)))
      = (full_line +:+ Py.strip raw +:+ " ")
        +:+ Py.concat_all (map (fun l => Py.strip l +:+ " ") (take j rest))).
    { intros j. simpl. now rewrite !append_assoc. }
    destruct (bool_decide (count_parentheses (full_line +:+ Py.strip raw +:+ " ") = 0%Z))
      eqn:E.
    + apply bool_decide_eq_true in E.
      exists 0, raw. repeat split.
      * simpl. now rewrite append_nil_r.
      * exact E.
      * intros j Hj. lia.
    + apply bool_decide_eq_false in E.
      specialize (IH (full_line +:+ Py.strip raw +:+ " ")).
      destruct (accumulate (full_line +:+ Py.strip raw +:+ " ") rest)
        as [[result last]|].
      * destruct IH as (k & raw' & Hk & Hlast & Hres & Hbal & Hmin).
        exists (S k), raw'. repeat split; try assumption.
        -- now rewrite Hstep.
        -- intros [|j] Hj.
           ++ rewrite Hstep. simpl. now rewrite append_nil_r.
           ++ rewrite Hstep. apply Hmin. lia.
      * intros [|j] Hj.
        -- rewrite Hstep. simpl. now rewrite append_nil_r.
        -- rewrite Hstep. apply IH. simpl in Hj. lia.
Qed.

(** X14.  The loop that rebuilds a macro call over several lines stops at
    the first line where the parentheses balance: the text handed to the
    handler is the stripped lines up to that one, each followed by a blank,
    its count of parentheses is zero, and no shorter run of lines balances.
    When no run of lines balances, the loop reads past the end of the file
    ([IndexError]). *)
Theorem accumulate_first_balanced (lines : list string) :
  match accumulate EmptyString lines with
  | Some (result, last) =>
      exists k raw,
        lines !! k = Some raw
        /\ last = Py.strip raw
        /\ result = Py.concat_all
                      (map (fun l => Py.strip l +:+ " ") (take (S k) lines))
        /\ count_parentheses result = 0%Z
        /\ forall j, j < k ->
             count_parentheses
               (Py.concat_all
                  (map (fun l => Py.strip l +:+ " ") (take (S j) lines)))
             <> 0%Z
  | None =>
      forall j, j < length lines ->
        count_parentheses
          (Py.concat_all
             (map (fun l => Py.strip l +:+ " ") (take (S j) lines)))
        <> 0%Z
  end.
Proof. exact (accumulate_spec lines EmptyString). Qed.

(** ** The targets of a Makefile.am *)

Lemma has_char_append (a b : string) (c : ascii) :
  Py.has_char (a +:+ b) c = Py.has_char a c || Py.has_char b c.
Proof. unfold Py.has_char. now rewrite chars_append, existsb_app. Qed.

Lemma endswith_append (s p : string) : Py.endswith (s +:+ p) p = true.
Proof.
  unfold Py.endswith. rewrite chars_append, rev_app_distr.
  apply prefix_chars_spec. eauto.
Qed.

Lemma drop_back_append (s p : string) :
  Py.drop_back (String.length p) (s +:+ p) = s.
Proof.
  unfold Py.drop_back. rewrite length_append, chars_append.
  replace (String.length s + String.length p - String.length p)
    with (length (Py.chars s)) by (rewrite length_chars; lia).
  rewrite take_app_length. apply text_chars.
Qed.

Lemma canonicalize_append (a b : string) :
  canonicalize (a +:+ b) = canonicalize a +:+ canonicalize b.
Proof.
  unfold canonicalize. now rewrite chars_append, map_app, text_app.
Qed.

(** X15.  [Library.__init__] on the usual names: for [lib<x>.a] the name
    used in CMake is [<x>] and the kind is STATIC, for [lib<x>.la] and
    [lib<x>.so] it is [<x>] as well and the kind is DYNAMIC ([x] any text
    without a ['$']).  The canonic name, under which [<target>_SOURCES] is
    looked up, is the whole file name with every character that is not a
    letter, a digit or an underscore turned into an underscore. *)
Theorem library_init_names (x dir : string)
    (Hplain : Py.has_char x "$" = false) :
  (Library.referred_name (Library.init ("lib" +:+ x +:+ ".a") dir) = x
   /\ Library.type (Library.init ("lib" +:+ x +:+ ".a") dir) = "STATIC"
   /\ Library.canonic_name (Library.init ("lib" +:+ x +:+ ".a") dir)
      = "lib" +:+ canonicalize x +:+ "_a")
  /\ (Library.referred_name (Library.init ("lib" +:+ x +:+ ".la") dir) = x
      /\ Library.type (Library.init ("lib" +:+ x +:+ ".la") dir) = "DYNAMIC"
      /\ Library.canonic_name (Library.init ("lib" +:+ x +:+ ".la") dir)
         = "lib" +:+ canonicalize x +:+ "_la")
  /\ (Library.referred_name (Library.init ("lib" +:+ x +:+ ".so") dir) = x
      /\ Library.type (Library.init ("lib" +:+ x +:+ ".so") dir) = "DYNAMIC"
      /\ Library.canonic_name (Library.init ("lib" +:+ x +:+ ".so") dir)
         = "lib" +:+ canonicalize x +:+ "_so").
Proof.
  assert (Hdollar : forall suffix,
            Py.has_char suffix "$" = false ->
            Py.has_char ("lib" +:+ x +:+ suffix) "$" = false).
  { intros suffix Hs.
    change ("lib" +:+ x +:+ suffix) with ("lib" +:+ (x +:+ suffix)).
    now rewrite !has_char_append, Hplain, Hs. }
  assert (Hfront : forall suffix,
            Py.drop_front 3 ("lib" +:+ x +:+ suffix) = x +:+ suffix).
  { intros suffix.
    change (Py.drop_front 3 ("lib" +:+ x +:+ suffix))
      with (Py.text (Py.chars (x +:+ suffix))).
    apply text_chars. }
  assert (Hcanon : forall suffix,
            canonicalize ("lib" +:+ x +:+ suffix)
            = "lib" +:+ canonicalize x +:+ canonicalize suffix).
  { intros suffix.
    change ("lib" +:+ x +:+ suffix) with ("lib" +:+ (x +:+ suffix)).
    now rewrite !canonicalize_append. }
  assert (Hends : forall suffix,
            Py.endswith ("lib" +:+ x +:+ suffix) ".a"
            = Py.prefix_chars ["a"; "."]%char
                (rev (Py.chars suffix) ++ rev (Py.chars x) ++ ["b"; "i"; "l"]%char)).
  { intros suffix. unfold Py.endswith.
    change ("lib" +:+ x +:+ suffix) with ("lib" +:+ (x +:+ suffix)).
    rewrite !chars_append, !rev_app_distr, <- app_assoc. reflexivity. }
  unfold Library.init. cbv zeta.
  rewrite !Hdollar by reflexivity. cbn [negb Library.referred_name Library.type
                                         Library.canonic_name].
  rewrite !Hends, !Hfront, !Hcanon. cbn.
  repeat split.
  - apply (drop_back_append x ".a").
  - apply (drop_back_append x ".la").
  - apply (drop_back_append x ".so").
Qed.

Lemma library_init_names_witness :
  Library.referred_name (Library.init ("lib" +:+ "foo-bar" +:+ ".a") "src")
  = "foo-bar"
  /\ Library.canonic_name (Library.init ("lib" +:+ "foo-bar" +:+ ".a") "src")
     = "libfoo_bar_a".
Proof.
  destruct (library_init_names "foo-bar" "src" eq_refl) as ((H1 & _ & H2) & _).
  split; [exact H1 | exact H2].
Defined.

Lemma has_library_false (libs : list Library.t) (name : string) :
  has_library libs name = false ->
  name ∉ map Library.canonic_name libs.
Proof.
  unfold has_library. induction libs as [|l libs IH]; simpl.
  - intros _ H. inversion H.
  - unfold Py.eqb at 1. intros H. apply orb_false_iff in H as [H1 H2].
    apply bool_decide_eq_false in H1. intros Hin.
    inversion Hin; subst; [congruence | now apply IH].
Qed.

Lemma declared_library_directory (line name dir : string) :
  Library.directory (declared_library line name dir) = dir.
Proof. unfold declared_library. now destruct (Py.contains line "_PROGRAMS"). Qed.

Lemma declare_libraries_spec (line dir : string) (names : list string)
    (libs : list Library.t) :
  (exists added,
      declare_libraries line dir names libs = libs ++ added
      /\ Forall (fun l => Library.directory l = dir) added)
  /\ (NoDup (map Library.canonic_name libs) ->
      NoDup (map Library.canonic_name (declare_libraries line dir names libs))).
Proof.
  unfold declare_libraries. revert libs.
  induction names as [|name names IH]; intros libs; simpl.
  - split; [|auto]. exists []. now rewrite app_nil_r.
  - destruct (has_library libs _) eqn:E.
    + apply IH.
    + apply has_library_false in E.
      destruct (IH (libs ++ [declared_library line name dir]))
        as [[added [H2 H3]] H1].
      split.
      * exists (declared_library line name dir :: added).
        rewrite H2, <- app_assoc. split; [reflexivity|].
        constructor; [apply declared_library_directory | assumption].
      * intros Hnd. apply H1.
        rewrite map_app. apply NoDup_app. split; [assumption|]. split.
        -- intros x Hx Hin. simpl in Hin. apply list_elem_of_singleton in Hin.
           subst. contradiction.
        -- simpl. apply NoDup_singleton.
Qed.

Lemma first_run_spec (exclude : list string) (dir : string)
    (content : list string) (libs : list Library.t) :
  (exists added,
      first_run exclude dir content libs = libs ++ added
      /\ Forall (fun l => Library.directory l = dir) added)
  /\ (NoDup (map Library.canonic_name libs) ->
      NoDup (map Library.canonic_name (first_run exclude dir content libs))).
Proof.
  unfold first_run. revert libs.
  induction content as [|raw content IH]; intros libs; simpl.
  - split; [|auto]. exists []. now rewrite app_nil_r.
  - assert (Hline : (exists added,
                        first_run_line exclude dir libs raw = libs ++ added
                        /\ Forall (fun l => Library.directory l = dir) added)
                    /\ (NoDup (map Library.canonic_name libs) ->
                        NoDup (map Library.canonic_name
                                 (first_run_line exclude dir libs raw)))).
    { unfold first_run_line. cbv zeta.
      assert (Hsame : (exists added, libs = libs ++ added
                         /\ Forall (fun l => Library.directory l = dir) added)
                      /\ (NoDup (map Library.canonic_name libs) ->
                          NoDup (map Library.canonic_name libs))).
      { split; [|auto]. exists []. now rewrite app_nil_r. }
      destruct (Py.startswith _ "#"); [exact Hsame|].
      destruct (_ || _); [|exact Hsame].
      destruct (negb _); [|exact Hsame].
      apply declare_libraries_spec. }
    destruct Hline as [[added1 [H2 H3]] H1].
    destruct (IH (first_run_line exclude dir libs raw)) as [[added2 [H5 H6]] H4].
    split; [|auto]. exists (added1 ++ added2).
    rewrite H5, H2, <- app_assoc. split; [reflexivity|].
    apply Forall_app. now split.
Qed.

(** ** The kind of a target *)

Lemma get_library_app_found (libs added : list Library.t) (name : string) :
  has_library libs name = true ->
  get_library_for_name (libs ++ added) name = get_library_for_name libs name.
Proof.
  unfold has_library, get_library_for_name.
  induction libs as [|l libs IH]; simpl; [discriminate|].
  destruct (Py.eqb (Library.canonic_name l) name); simpl; [reflexivity|].
  exact IH.
Qed.

Lemma get_library_app_new (libs added : list Library.t) (l : Library.t) :
  has_library libs (Library.canonic_name l) = false ->
  get_library_for_name (libs ++ l :: added) (Library.canonic_name l) = Some l.
Proof.
  unfold has_library, get_library_for_name.
  induction libs as [|l0 libs IH]; simpl.
  - intros _. unfold Py.eqb. now rewrite bool_decide_eq_true_2.
  - destruct (Py.eqb (Library.canonic_name l0) (Library.canonic_name l)); simpl;
      [discriminate | exact IH].
Qed.

Lemma declare_libraries_app (line dir : string) (before after : list string)
    (libs : list Library.t) :
  declare_libraries line dir (before ++ after) libs
  = declare_libraries line dir after (declare_libraries line dir before libs).
Proof. unfold declare_libraries. apply fold_left_app. Qed.

(** C5, as stated, fails, in three ways.  A name with a [$] that is no
    [$(...)] reference and that does not end in [.a] gives a static
    library; [_PROGRAMS] in the name of a target declared through
    [_LIBRARIES] gives a program; and a name declared through [_PROGRAMS]
    after a library of that name stays the library. *)
Lemma target_kind_exceptions :
  map target_kind
    (first_run [] "./src" ["lib_LIBRARIES = lib$X.so" +:+ Py.nl] [])
  = [("libX.so", LIBRARY, "STATIC", true)]
  /\ map target_kind
       (first_run [] "./src" ["noinst_LIBRARIES = lib_PROGRAMS.a" +:+ Py.nl] [])
     = [("lib_PROGRAMS.a", PROGRAM, "STATIC", false)]
  /\ map target_kind
       (first_run [] "./src"
          ["lib_LIBRARIES = foo" +:+ Py.nl; "bin_PROGRAMS = foo" +:+ Py.nl] [])
     = [("foo", LIBRARY, "DYNAMIC", false)].
Proof. repeat split; vm_compute; reflexivity. Qed.

(** C5, amended.  The first run reaches every name from the third word on
    of a declaring line (a line that is no comment and holds [_LIBRARIES]
    or [_PROGRAMS], in a directory under no exclude prefix).  When a target
    of the same canonic name is registered by then, that target stays and
    answers for the name; otherwise the target built from the line and the
    name is registered.  That target is a program when the line holds
    [_PROGRAMS] anywhere, as it does when the declaring variable holds it,
    and a library otherwise; it is dependent and of type STATIC when the
    name holds a [$], as a [$(...)] reference does, whatever the suffix,
    and else STATIC for a name ending in [.a] and DYNAMIC for any other. *)
Theorem target_kind_classification (exclude : list string) (dir : string)
    (pre post : list string) (raw : string) (libs : list Library.t)
    (before after : list string) (name : string) :
  Py.startswith (Py.strip raw) "#" = false ->
  Py.contains (Py.strip raw) "_LIBRARIES"
  || Py.contains (Py.strip raw) "_PROGRAMS" = true ->
  existsb (fun excluded_dir =>
             Py.startswith dir excluded_dir && Py.truthy excluded_dir)
    exclude = false ->
  drop 2 (Py.split (Py.strip raw)) = before ++ name :: after ->
  exists target reached,
    target = declared_library (Py.strip raw) name dir
    /\ reached
       = declare_libraries (Py.strip raw) dir before
           (first_run exclude dir pre libs)
    /\ get_library_for_name (first_run exclude dir (pre ++ raw :: post) libs)
         (Library.canonic_name target)
       = (if has_library reached (Library.canonic_name target)
          then get_library_for_name reached (Library.canonic_name target)
          else Some target)
    /\ (has_library reached (Library.canonic_name target) = false ->
        target ∈ first_run exclude dir (pre ++ raw :: post) libs)
    /\ (Py.contains (Py.strip raw) "_PROGRAMS" = true ->
        Library.target_type target = PROGRAM
        /\ creation_command target
           = "add_executable(" +:+ Library.name target
             +:+ " ${${project}_SOURCES} )" +:+ Py.nl)
    /\ (forall variable,
          Py.split (Py.strip raw) !! 0 = Some variable ->
          Py.contains variable "_PROGRAMS" = true ->
          Py.contains (Py.strip raw) "_PROGRAMS" = true)
    /\ (Py.contains (Py.strip raw) "_PROGRAMS" = false ->
        Library.target_type target = LIBRARY
        /\ creation_command target
           = "add_library ( " +:+ Library.referred_name target +:+ " "
             +:+ Library.type target +:+ " " +:+ "${${project}_SOURCES} )"
             +:+ Py.nl)
    /\ (Py.has_char name "$" = false ->
        Library.dependant target = false
        /\ Library.type target
           = (if Py.endswith name ".a" then "STATIC" else "DYNAMIC"))
    /\ (Py.has_char name "$" = true ->
        Library.dependant target = true /\ Library.type target = "STATIC")
    /\ (Py.contains name "$(" = true -> Py.has_char name "$" = true).
Proof.
  intros Hcomment Hdecl Hexcl Hnames.
  set (line := Py.strip raw) in *.
  set (target := declared_library line name dir).
  set (reached := declare_libraries line dir before
                    (first_run exclude dir pre libs)).
  exists target, reached. split; [reflexivity|]. split; [reflexivity|].
  assert (Hresult : exists added,
             first_run exclude dir (pre ++ raw :: post) libs
             = (if has_library reached (Library.canonic_name target)
                then reached else reached ++ [target]) ++ added).
  { unfold first_run. rewrite fold_left_app. cbn [fold_left].
    change (fold_left (first_run_line exclude dir) pre libs)
      with (first_run exclude dir pre libs).
    assert (Hline : first_run_line exclude dir (first_run exclude dir pre libs) raw
                    = declare_libraries line dir after
                        (if has_library reached (Library.canonic_name target)
                         then reached else reached ++ [target])).
    { unfold first_run_line. fold line. cbv zeta.
      rewrite Hcomment, Hdecl, Hexcl, Hnames. cbn [negb].
      rewrite declare_libraries_app. fold reached. reflexivity. }
    rewrite Hline.
    match goal with
    | |- context [declare_libraries line dir after ?X] =>
        destruct (declare_libraries_spec line dir after X)
          as [(added1 & -> & _) _];
        destruct (first_run_spec exclude dir post (X ++ added1))
          as [(added2 & H2 & _) _]
    end.
    unfold first_run in H2. rewrite H2.
    exists (added1 ++ added2). now rewrite <- app_assoc. }
  destruct Hresult as (added & ->).
  split; [|split].
  - destruct (has_library reached (Library.canonic_name target)) eqn:E.
    + now apply get_library_app_found.
    + rewrite <- app_assoc. now apply get_library_app_new.
  - intros ->. apply elem_of_app. left. apply elem_of_app. right.
    apply list_elem_of_here.
  - unfold target, declared_library.
    split; [intros ->; split; reflexivity|].
    split.
    { intros variable Hv Hp. apply (contains_token line variable); [|exact Hp].
      eapply list_elem_of_lookup_2. exact Hv. }
    split; [intros ->; split; reflexivity|].
    split; [|split].
    + intros Hd. destruct (Py.contains line "_PROGRAMS");
        unfold Library.init; simpl; rewrite Hd; simpl; split; reflexivity.
    + intros Hd. destruct (Py.contains line "_PROGRAMS");
        unfold Library.init; simpl; rewrite Hd; split; reflexivity.
    + intros Hd. apply (contains_has_char name "$"%char ["("%char]). exact Hd.
Qed.

Lemma target_kind_classification_witness :
  exists target,
    get_library_for_name
      (first_run [] "./src" example_makefile []) (Library.canonic_name target)
    = Some target
    /\ target_kind target = ("libx.a", LIBRARY, "STATIC", false)
    /\ creation_command target
       = "add_library ( x STATIC ${${project}_SOURCES} )" +:+ Py.nl.
Proof.
  destruct (target_kind_classification [] "./src" ["SUBDIRS = sub" +:+ Py.nl]
              (skipn 2 example_makefile) ("noinst_LIBRARIES = libx.a" +:+ Py.nl)
              [] [] [] "libx.a")
    as (target & reached & -> & -> & Hget & _);
    [reflexivity | reflexivity | reflexivity | reflexivity |].
  eexists. split; [exact Hget|]. split; reflexivity.
Defined.

(** X16.  The first run over a Makefile.am only adds targets: the targets
    registered before stay where they are, unchanged, the new ones follow
    them and carry the directory of the makefile, and a name whose canonic
    form is already registered is skipped, so the canonic names stay
    pairwise different. *)
Theorem first_run_adds_unique (exclude_directories : list string)
    (current_directory : string) (content : list string)
    (libraries : list Library.t)
    (Hunique : NoDup (map Library.canonic_name libraries)) :
  NoDup (map Library.canonic_name
           (first_run exclude_directories current_directory content libraries))
  /\ exists added,
       first_run exclude_directories current_directory content libraries
       = libraries ++ added
       /\ Forall (fun l => Library.directory l = current_directory) added.
Proof.
  destruct (first_run_spec exclude_directories current_directory content
              libraries) as [H1 H2].
  split; [now apply H2 | exact H1].
Qed.

Lemma first_run_adds_unique_witness :
  NoDup (map Library.canonic_name
           (first_run [] "./src"
              ["noinst_LIBRARIES = libx.a libx-a"; "bin_PROGRAMS = tool libx.a"]
              [])).
Proof.
  apply (first_run_adds_unique [] "./src"
           ["noinst_LIBRARIES = libx.a libx-a"; "bin_PROGRAMS = tool libx.a"] []).
  constructor.
Defined.

Lemma same_target_refl (l : Library.t) : same_target l l.
Proof. repeat split. Qed.

Lemma same_target_trans (a b c : Library.t) :
  same_target a b -> same_target b c -> same_target a c.
Proof.
  unfold same_target. intros (A1 & A2 & A3 & A4 & A5 & A6 & A7)
    (B1 & B2 & B3 & B4 & B5 & B6 & B7).
  repeat split; congruence.
Qed.

Lemma same_targets_refl (libs : list Library.t) : Forall2 same_target libs libs.
Proof. induction libs; constructor; auto using same_target_refl. Qed.

Lemma same_targets_trans (a b c : list Library.t) :
  Forall2 same_target a b -> Forall2 same_target b c -> Forall2 same_target a c.
Proof.
  intros H. revert c. induction H as [|x y a b Hxy _ IH]; intros c Hc;
    inversion Hc; subst; constructor; eauto using same_target_trans.
Qed.

Lemma same_targets_names (a b : list Library.t) :
  Forall2 same_target a b ->
  map Library.canonic_name b = map Library.canonic_name a.
Proof.
  induction 1 as [|x y a b (_ & _ & _ & _ & H & _) _ IH]; simpl;
    [reflexivity | now rewrite H, IH].
Qed.

Lemma update_library_same (libs : list Library.t) (name : string)
    (f : Library.t -> Library.t) :
  (forall l, same_target l (f l)) ->
  Forall2 same_target libs (update_library libs name f).
Proof.
  intros Hf. induction libs as [|l libs IH]; simpl; [constructor|].
  destruct (Py.eqb _ _); constructor;
    auto using same_target_refl, same_targets_refl.
Qed.

Lemma gather_same (st : MakefileRun) (name : string)
    (update : Library.t -> Library.t) (b : bool) :
  (forall l, same_target l (update l)) ->
  Forall2 same_target (run_libraries st)
    (run_libraries (fst (if b then gather st name update else (st, false)))).
Proof.
  intros Hf. destruct b; [|apply same_targets_refl].
  unfold gather. destruct (get_library_for_name _ _); [|apply same_targets_refl].
  simpl. apply update_library_same. intros l.
  destruct (Py.truthy (if_condition st)); [|apply Hf].
  eapply same_target_trans; [|apply Hf]. repeat split.
Qed.

Lemma define_variable_libraries (st : MakefileRun) (variable value : string) :
  run_libraries (define_variable st variable value) = run_libraries st
  /\ libraries_in_this_file (define_variable st variable value)
     = libraries_in_this_file st.
Proof. unfold define_variable. simpl. auto. Qed.

Lemma gather_names (st : MakefileRun) (name : string)
    (update : Library.t -> Library.t) (b : bool) :
  Forall (fun n => n ∈ map Library.canonic_name (run_libraries st))
    (libraries_in_this_file st) ->
  Forall (fun n => n ∈ map Library.canonic_name (run_libraries st))
    (libraries_in_this_file
       (fst (if b then gather st name update else (st, false)))).
Proof.
  intros H. destruct b; [|exact H]. unfold gather.
  destruct (get_library_for_name _ _) as [l|] eqn:E; [|exact H].
  simpl. apply Forall_app. split; [exact H|]. constructor; [|constructor].
  unfold get_library_for_name in E. apply find_some in E as [Hin Heq].
  unfold Py.eqb in Heq. apply bool_decide_eq_true in Heq. subst name.
  apply list_elem_of_fmap. exists l. split; [reflexivity|].
  now apply list_elem_of_In.
Qed.

Lemma run_step_refl (st : MakefileRun) : run_step st st.
Proof. split; [apply same_targets_refl | auto]. Qed.

Lemma run_step_trans (a b c : MakefileRun) :
  run_step a b -> run_step b c -> run_step a c.
Proof.
  intros [H1 H2] [H3 H4]. split; [eapply same_targets_trans; eauto | auto].
Qed.

Lemma run_step_gather (st : MakefileRun) (name : string)
    (update : Library.t -> Library.t) (b : bool) :
  (forall l, same_target l (update l)) ->
  run_step st (fst (if b then gather st name update else (st, false))).
Proof.
  intros Hf. split; [now apply gather_same|].
  intros H. unfold run_names_known.
  rewrite (same_targets_names _ _ (gather_same st name update b Hf)).
  now apply gather_names.
Qed.

Lemma run_step_same_fields (st st' : MakefileRun) :
  run_libraries st' = run_libraries st ->
  libraries_in_this_file st' = libraries_in_this_file st ->
  run_step st st'.
Proof.
  intros H1 H2. unfold run_step, run_names_known. rewrite H1, H2.
  split; [apply same_targets_refl | auto].
Qed.

Ltac gather_step :=
  match goal with
  | |- context [match (if ?b then gather ?st ?n ?u else (?st, false)) with
                | pair _ _ => _
                end] =>
      let R := fresh "R" in
      assert (R : run_step st (fst (if b then gather st n u else (st, false))))
        by (apply run_step_gather; intros; repeat split);
      destruct (if b then gather st n u else (st, false)) as [? ?];
      simpl in R
  end.

Lemma assignment_run_step (line : string) (st st' : MakefileRun) :
  assignment line st = Some st' -> run_step st st'.
Proof.
  unfold assignment.
  destruct (Py.split_on "=" line) as [|e0 [|e1 more]]; try discriminate.
  cbv zeta. do 4 gather_step.
  assert (R3 : run_step st m2) by eauto using run_step_trans.
  destruct (_ || _ || _ || _).
  - intros [= <-]. assumption.
  - destruct (Py.eqb _ "SUBDIRS"); destruct (_ && _); intros [= <-];
      try assumption;
      (eapply run_step_trans; [exact R3|]; apply run_step_same_fields;
       first [apply define_variable_libraries | reflexivity]).
Qed.

Lemma second_run_line_run_step (raw : string) (rest : list string)
    (st st' : MakefileRun) :
  second_run_line raw rest st = Some st' -> run_step st st'.
Proof.
  unfold second_run_line. cbv zeta.
  destruct (Py.startswith (Py.strip raw) "#");
    [intros [= <-]; apply run_step_refl|].
  set (st_if := if Py.startswith (Py.strip raw) "if" then _ else _).
  assert (Hif : forall s, st_if = Some s -> run_step st s).
  { unfold st_if. destruct (Py.startswith (Py.strip raw) "if").
    - destruct (Py.split (Py.strip raw) !! 1) as [e|]; [|discriminate].
      intros s [= <-]. now apply run_step_same_fields.
    - intros s [= <-]. apply run_step_refl. }
  destruct st_if as [s|]; [|discriminate]. specialize (Hif s eq_refl).
  set (s' := if Py.startswith (Py.strip raw) "endif"
             then set_if_condition s EmptyString else s).
  assert (Hs' : run_step st s').
  { unfold s'. destruct (Py.startswith (Py.strip raw) "endif"); [|exact Hif].
    eapply run_step_trans; [exact Hif|]. now apply run_step_same_fields. }
  destruct (_ || _); [|intros [= <-]; exact Hs'].
  destruct (logical_line _ _); [|discriminate].
  intros H. apply assignment_run_step in H. eapply run_step_trans; eauto.
Qed.

Lemma second_run_run_step (content : list string) (st st' : MakefileRun) :
  second_run content st = Some st' -> run_step st st'.
Proof.
  revert st. induction content as [|raw rest IH]; intros st; simpl.
  - intros [= <-]. apply run_step_refl.
  - destruct (second_run_line raw rest st) as [s|] eqn:E; [|discriminate].
    intros H. apply second_run_line_run_step in E.
    eapply run_step_trans; eauto.
Qed.

Lemma get_library_for_name_known (libs : list Library.t) (name : string) :
  name ∈ map Library.canonic_name libs ->
  exists l, get_library_for_name libs name = Some l.
Proof.
  unfold get_library_for_name. induction libs as [|l libs IH]; simpl.
  - intros H. inversion H.
  - intros H. unfold Py.eqb at 1.
    destruct (bool_decide (Library.canonic_name l = name)) eqn:E; [eauto|].
    apply bool_decide_eq_false in E. apply IH.
    inversion H; subst; [congruence | assumption].
Qed.

Lemma resolve_variable_known (var_name : string) (dv : DefinedVariable)
    (name : string) (libs : list Library.t) (h : Heap) :
  name ∈ map Library.canonic_name libs ->
  exists libs' h',
    resolve_variable var_name dv name libs h = Some (libs', h')
    /\ Forall2 same_target libs libs'.
Proof.
  intros H. unfold resolve_variable.
  destruct (get_library_for_name_known _ _ H) as [l ->]. cbv zeta.
  destruct (if existsb _ _ then _ else _) as [appends h'].
  do 2 eexists. split; [reflexivity|].
  apply update_library_same. intros x.
  destruct (_ && _); repeat split.
Qed.

Lemma resolve_in_libraries_known (var_name : string) (dv : DefinedVariable)
    (names : list string) (libs : list Library.t) (h : Heap) :
  Forall (fun n => n ∈ map Library.canonic_name libs) names ->
  exists libs' h',
    resolve_in_libraries var_name dv names libs h = Some (libs', h')
    /\ Forall2 same_target libs libs'.
Proof.
  revert libs h. induction names as [|n names IH]; intros libs h H; simpl.
  - do 2 eexists. split; [reflexivity | apply same_targets_refl].
  - inversion H as [|? ? Hn Hnames]; subst.
    destruct (resolve_variable_known var_name dv n libs h Hn)
      as (libs1 & h1 & -> & H1).
    destruct (IH libs1 h1) as (libs2 & h2 & -> & H2).
    + now rewrite (same_targets_names _ _ H1).
    + do 2 eexists. split; [reflexivity|]. eapply same_targets_trans; eauto.
Qed.

Lemma resolve_variables_known (vars : Dict.t DefinedVariable)
    (names : list string) (libs : list Library.t) (h : Heap) :
  Forall (fun n => n ∈ map Library.canonic_name libs) names ->
  exists libs' h',
    resolve_variables vars names libs h = Some (libs', h')
    /\ Forall2 same_target libs libs'.
Proof.
  revert libs h. induction vars as [|[v dv] vars IH]; intros libs h H; simpl.
  - do 2 eexists. split; [reflexivity | apply same_targets_refl].
  - destruct (resolve_in_libraries_known v dv names libs h H)
      as (libs1 & h1 & -> & H1).
    destruct (IH libs1 h1) as (libs2 & h2 & -> & H2).
    + now rewrite (same_targets_names _ _ H1).
    + do 2 eexists. split; [reflexivity|]. eapply same_targets_trans; eauto.
Qed.

Lemma queue_subdirs_libraries (dir : string) (dirs : option string)
    (g : Globals) :
  libraries (queue_subdirs dir dirs g) = libraries g.
Proof.
  unfold queue_subdirs. destruct dirs as [d|]; [|reflexivity].
  destruct (Py.truthy d); [|reflexivity].
  now destruct (fold_left _ _ _).
Qed.

(** X17.  Reading a Makefile.am never removes, renames or moves a target:
    when [process_makefile_am] returns, the targets registered before are
    still there, in their places, each with the name, the kind, the
    referred and canonic names and the directory it had; the targets the
    file adds follow them and carry the directory of the file. *)
Theorem process_makefile_am_keeps_targets (w : World) (file : string)
    (g g' : Globals) (out : list string)
    (Hrun : process_makefile_am w file g = Some (g', out)) :
  exists added,
    Forall2 same_target (libraries g ++ added) (libraries g')
    /\ Forall (fun l => Library.directory l = dirname file) added.
Proof.
  unfold process_makefile_am in Hrun.
  assert (Hsame : exists added,
            Forall2 same_target (libraries g ++ added) (libraries g)
            /\ Forall (fun l => Library.directory l = dirname file) added).
  { exists []. rewrite app_nil_r. split; [apply same_targets_refl | constructor]. }
  destruct (negb (isfile w file)); [injection Hrun as <- _; exact Hsame|].
  cbv zeta in Hrun.
  destruct (should_exclude _ _); [injection Hrun as <- _; exact Hsame|].
  destruct (second_run _ _) as [st|] eqn:E2; [|discriminate].
  destruct (resolve_variables _ _ _ _) as [[libs2 h2]|] eqn:E3; [|discriminate].
  injection Hrun as <- _. rewrite queue_subdirs_libraries. simpl.
  apply second_run_run_step in E2 as [H2 H2'].
  simpl in H2. clear Hsame H2'.
  assert (H3 : Forall2 same_target (run_libraries st) libs2).
  { revert E3. generalize (set_order w (libraries_in_this_file st)).
    generalize (run_heap st). generalize (run_libraries st).
    induction (defined_variables st) as [|[v dv] vars IHv];
      intros libs h names; simpl.
    - intros [= <- _]. apply same_targets_refl.
    - destruct (resolve_in_libraries v dv names libs h) as [[libs1 h1]|] eqn:E;
        [|discriminate].
      intros H. apply IHv in H. eapply same_targets_trans; [|exact H].
      clear H IHv. revert libs h E.
      induction names as [|n names IHn]; intros libs h; simpl.
      + intros [= <- _]. apply same_targets_refl.
      + destruct (resolve_variable v dv n libs h) as [[libs0 h0]|] eqn:E0;
          [|discriminate].
        intros H. apply IHn in H. eapply same_targets_trans; [|exact H].
        unfold resolve_variable in E0.
        destruct (get_library_for_name libs n); [|discriminate].
        cbv zeta in E0.
        destruct (if existsb _ _ then _ else _) as [appends h'].
        injection E0 as <- _. apply update_library_same. intros x.
        destruct (_ && _); repeat split. }
  destruct (first_run_spec (exclude_directories g) (dirname file)
              (readlines w file) (libraries g)) as [[added [Hadd Hdir]] _].
  exists added. split; [|exact Hdir].
  rewrite <- Hadd. eapply same_targets_trans; eauto.
Qed.

Lemma process_makefile_am_keeps_targets_witness :
  process_makefile_am example_world "./src/Makefile.am" example_configured
  = Some (example_parsed, [])
  /\ exists added,
       Forall2 same_target (libraries example_configured ++ added)
         (libraries example_parsed)
       /\ Forall (fun l => Library.directory l = dirname "./src/Makefile.am") added.
Proof.
  assert (Hrun : process_makefile_am example_world "./src/Makefile.am"
                   example_configured = Some (example_parsed, []))
    by (vm_compute; reflexivity).
  split; [exact Hrun|].
  exact (process_makefile_am_keeps_targets example_world "./src/Makefile.am"
           example_configured example_parsed [] Hrun).
Defined.

(** X18.  [process_makefile_am] can only fail in its second run (an [if]
    line without a word after it, a continuation backslash on the last
    line).  The replacement of [$(variable)] references that follows calls
    [get_library_for_name] for names taken from [libraries_in_this_file] and
    uses the result without a test; every such name was recorded after a
    successful lookup and no target is ever removed or renamed, so the
    lookup cannot return [None] there (the iteration over the [set] is
    assumed to yield elements of the list it was built from). *)
Theorem process_makefile_am_fails_in_second_run (w : World) (file : string)
    (g : Globals) (st : MakefileRun)
    (Hset : forall l x, x ∈ set_order w l -> x ∈ l)
    (Hrun : second_run (readlines w file)
              (mkRun (first_run (exclude_directories g) (dirname file)
                        (readlines w file) (libraries g))
                 (heap g) [] [] EmptyString None) = Some st) :
  exists g' out, process_makefile_am w file g = Some (g', out).
Proof.
  unfold process_makefile_am.
  destruct (negb (isfile w file)); [eauto|]. cbv zeta.
  destruct (should_exclude _ _); [eauto|].
  rewrite Hrun.
  apply second_run_run_step in Hrun as [_ Hknown].
  specialize (Hknown ltac:(constructor)).
  destruct (resolve_variables_known (defined_variables st)
              (set_order w (libraries_in_this_file st))
              (run_libraries st) (run_heap st)) as (libs2 & h2 & -> & _).
  - apply Forall_forall. intros n Hn. apply Hset in Hn.
    unfold run_names_known in Hknown. rewrite Forall_forall in Hknown. auto.
  - eauto.
Qed.

Lemma process_makefile_am_fails_in_second_run_witness :
  exists g' out,
    process_makefile_am example_world "./src/Makefile.am" example_configured
    = Some (g', out).
Proof.
  destruct (second_run (readlines example_world "./src/Makefile.am")
              (mkRun (first_run (exclude_directories example_configured)
                        (dirname "./src/Makefile.am")
                        (readlines example_world "./src/Makefile.am")
                        (libraries example_configured))
                 (heap example_configured) [] [] EmptyString None))
    as [st|] eqn:Hrun; [|vm_compute in Hrun; discriminate Hrun].
  apply (process_makefile_am_fails_in_second_run example_world
           "./src/Makefile.am" example_configured st); [|exact Hrun].
  intros l x Hx. apply elem_of_remove_dups. exact Hx.
Defined.

(** X19.  Two lines on which the second run over a Makefile.am ends in an
    [IndexError]: a line of one word that starts with [if] (the word after
    it is read without a test), and an assignment that ends in a
    continuation backslash when no line follows. *)
Theorem second_run_line_index_errors (raw : string) (rest : list string)
    (st : MakefileRun)
    (Hline :
       (Py.startswith (Py.strip raw) "if" = true
        /\ Forall (fun c => Py.isspace c = false) (Py.chars (Py.strip raw)))
       \/ (Py.startswith (Py.strip raw) "#" = false
           /\ Py.startswith (Py.strip raw) "if" = false
           /\ Py.contains (Py.strip raw) "=" = true
           /\ Py.endswith (Py.strip raw) Py.backslash = true
           /\ rest = [])) :
  second_run_line raw rest st = None.
Proof.
  unfold second_run_line. cbv zeta.
  destruct Hline as [[Hif Hword]|(Hc & Hif & Heq & Hbs & ->)].
  - assert (Hc : Py.startswith (Py.strip raw) "#" = false).
    { unfold Py.startswith in *. destruct (Py.chars (Py.strip raw)) as [|c l];
        [discriminate Hif|].
      simpl in *. destruct (decide ("#"%char = c)) as [<-|]; [|reflexivity].
      discriminate Hif. }
    rewrite Hc, Hif. unfold Py.split.
    rewrite (split_ws_go_plain [] _ Hword). simpl.
    now destruct (Py.chars (Py.strip raw)).
  - rewrite Hc, Hif, Heq. simpl.
    destruct (Py.startswith (Py.strip raw) "endif");
      unfold logical_line, join_continuations; now rewrite Hbs.
Qed.

Lemma second_run_line_index_errors_witness :
  second_run_line "ifdef" ["x = 1"] (mkRun [] [] [] [] EmptyString None) = None
  /\ second_run_line ("x = a " +:+ Py.backslash) []
       (mkRun [] [] [] [] EmptyString None) = None.
Proof.
  split.
  - apply second_run_line_index_errors. left. split; [reflexivity|].
    vm_compute. repeat constructor.
  - apply second_run_line_index_errors. right. repeat split; reflexivity.
Defined.

Lemma get_update_library (libs : list Library.t) (name : string)
    (f : Library.t -> Library.t) (l : Library.t) :
  get_library_for_name libs name = Some l ->
  Library.canonic_name (f l) = Library.canonic_name l ->
  get_library_for_name (update_library libs name f) name = Some (f l).
Proof.
  unfold get_library_for_name. intros H Hf.
  induction libs as [|x libs IH]; simpl in *; [discriminate|].
  destruct (Py.eqb (Library.canonic_name x) name) eqn:E.
  - injection H as ->. simpl. rewrite Hf, E. reflexivity.
  - simpl. rewrite E. now apply IH.
Qed.

(** X20.  The active [if] condition is added to a target once for every
    assignment that reaches it, not once for the block: after two
    assignments to attributes of one target inside the same [if], the
    target's condition holds the characters of the condition twice (two
    assignments under [if WITH_FOO] leave [WITH_FOOWITH_FOO]). *)
Theorem gather_twice_doubles_condition (st : MakefileRun) (name : string)
    (first second : Library.t -> Library.t) (library : Library.t)
    (before : list ascii)
    (Hfound : get_library_for_name (run_libraries st) name = Some library)
    (Hcondition : Library.condition library = PyChars before)
    (Hactive : Py.truthy (if_condition st) = true)
    (Hfirst : forall l, Library.canonic_name (first l) = Library.canonic_name l
                        /\ Library.condition (first l) = Library.condition l)
    (Hsecond : forall l, Library.canonic_name (second l) = Library.canonic_name l
                         /\ Library.condition (second l) = Library.condition l) :
  exists library',
    get_library_for_name
      (run_libraries (fst (gather (fst (gather st name first)) name second)))
      name = Some library'
    /\ Library.condition library'
       = PyChars (before ++ Py.chars (if_condition st)
                         ++ Py.chars (if_condition st)).
Proof.
  set (record := fun (u : Library.t -> Library.t) (l : Library.t) =>
                   u (Library.set_condition l
                        (PyText.iadd (Library.condition l) (if_condition st)))).
  assert (Hg : forall s u,
            if_condition s = if_condition st ->
            forall l, get_library_for_name (run_libraries s) name = Some l ->
            (forall x, Library.canonic_name (u x) = Library.canonic_name x) ->
            if_condition (fst (gather s name u)) = if_condition st
            /\ get_library_for_name (run_libraries (fst (gather s name u))) name
               = Some (record u l)).
  { intros s u Hs l Hl Hu. unfold gather. rewrite Hl, Hs, Hactive. simpl.
    split; [reflexivity|].
    apply (get_update_library (run_libraries s) name _ l Hl).
    now rewrite Hu. }
  destruct (Hg st first eq_refl library Hfound (fun x => proj1 (Hfirst x)))
    as [H1 H2].
  destruct (Hg (fst (gather st name first)) second H1 _ H2
              (fun x => proj1 (Hsecond x))) as [_ H3].
  eexists. split; [exact H3|].
  unfold record. rewrite (proj2 (Hsecond _)). simpl.
  rewrite (proj2 (Hfirst _)). simpl. rewrite Hcondition. simpl.
  now rewrite <- app_assoc.
Qed.

Lemma gather_twice_doubles_condition_witness :
  exists library',
    get_library_for_name
      (run_libraries
         (fst (gather
                 (fst (gather
                         (mkRun [Library.init "libx.a" "./src"] [] [] []
                            "WITH_FOO" None)
                         "libx_a"
                         (fun l => Library.set_filelist l ["a.c"])))
                 "libx_a"
                 (fun l => Library.set_linker_flags l ["-lm"]))))
      "libx_a" = Some library'
    /\ Library.condition library'
       = PyChars ([] ++ Py.chars "WITH_FOO" ++ Py.chars "WITH_FOO").
Proof.
  apply (gather_twice_doubles_condition
           (mkRun [Library.init "libx.a" "./src"] [] [] [] "WITH_FOO" None)
           "libx_a"
           (fun l => Library.set_filelist l ["a.c"])
           (fun l => Library.set_linker_flags l ["-lm"])
           (Library.init "libx.a" "./src") []);
    try reflexivity; intros l; split; reflexivity.
Defined.

(** ** The settings of a target *)

Lemma list_remove_length (x : string) (l : list string) :
  x ∈ l -> S (length (list_remove x l)) = length l.
Proof.
  induction l as [|y l IH]; intros H; [inversion H|]. simpl.
  destruct (decide (y = x)) as [->|Hne]; [reflexivity|].
  simpl. rewrite IH; [reflexivity|]. inversion H; subst; [congruence | assumption].
Qed.

Lemma list_remove_dollars (x : string) (l : list string) :
  x ∈ l ->
  dollar_flags (list_remove x l) + (if Py.has_char x "$" then 1 else 0)
  = dollar_flags l.
Proof.
  unfold dollar_flags.
  induction l as [|y l IH]; intros H; [inversion H|]. simpl.
  destruct (decide (y = x)) as [->|Hne].
  - destruct (Py.has_char x "$"); simpl; lia.
  - assert (Hin : x ∈ l) by (inversion H; subst; [congruence | assumption]).
    specialize (IH Hin). simpl.
    destruct (Py.has_char y "$"); simpl; lia.
Qed.

Lemma dollar_flags_app (a b : list string) :
  dollar_flags (a ++ b) = dollar_flags a + dollar_flags b.
Proof. unfold dollar_flags. now rewrite List.filter_app, length_app. Qed.

Lemma dollar_flags_le (l : list string) : dollar_flags l <= length l.
Proof. unfold dollar_flags. apply List.filter_length_le. Qed.

Lemma flag_step_measure (config : Dict.t ConfigVar) (flag : string)
    (work final : list string) :
  flag ∈ work ->
  length (fst (flag_step config flag (work, final))) <= length work
  /\ flags_measure (fst (flag_step config flag (work, final)))
     < flags_measure work
  /\ Forall (fun v => v ∈ final \/ configured_value config v)
       (snd (flag_step config flag (work, final))).
Proof.
  intros Hin. unfold flag_step.
  assert (Hsame : forall final',
            Forall (fun v => v ∈ final \/ configured_value config v) final' ->
            length (fst (if bool_decide (flag ∈ work)
                         then list_remove flag work else work, final'))
            <= length work
            /\ flags_measure
                 (fst (if bool_decide (flag ∈ work)
                       then list_remove flag work else work, final'))
               < flags_measure work
            /\ Forall (fun v => v ∈ final \/ configured_value config v)
                 (snd (if bool_decide (flag ∈ work)
                       then list_remove flag work else work, final'))).
  { intros final' Hfinal. rewrite bool_decide_eq_true_2 by assumption. simpl.
    pose proof (list_remove_length flag work Hin).
    pose proof (list_remove_dollars flag work Hin).
    unfold flags_measure. repeat split; [lia | | assumption].
    destruct (Py.has_char flag "$"); lia. }
  assert (Hfinal : Forall (fun v => v ∈ final \/ configured_value config v) final).
  { apply Forall_forall. auto. }
  destruct (Py.has_char flag "$") eqn:Hd; [|now apply Hsame].
  destruct (search_variable (Py.chars flag)) as [m|]; [|now apply Hsame].
  cbv zeta. destruct (Py.eqb _ "top_srcdir").
  - assert (Hin' : flag ∈ work ++ ["{CMAKE_SOURCE_DIR}"])
      by (apply elem_of_app; now left).
    rewrite bool_decide_eq_true_2 by assumption. simpl.
    pose proof (list_remove_length flag _ Hin') as H1.
    pose proof (list_remove_dollars flag _ Hin') as H2.
    rewrite Hd in H2. rewrite length_app in H1.
    rewrite dollar_flags_app in H2. simpl in H1.
    change (dollar_flags ["{CMAKE_SOURCE_DIR}"]) with 0 in H2.
    unfold flags_measure. repeat split; [lia | lia | assumption].
  - destruct (Dict.get config _) as [value|] eqn:Hget; [|now apply Hsame].
    apply Hsame. apply Forall_app. split; [assumption|].
    apply Forall_forall. intros v Hv. right. now exists (remove_garbage (Py.text m)), value.
Qed.

Lemma for_flags_returns (config : Dict.t ConfigVar) (fuel i : nat)
    (acc : list string * list string) :
  length (fst acc) - i < fuel ->
  exists acc',
    for_flags fuel config i acc = Some acc'
    /\ flags_measure (fst acc') <= flags_measure (fst acc)
    /\ (i < length (fst acc) ->
        flags_measure (fst acc') < flags_measure (fst acc))
    /\ Forall (fun v => v ∈ snd acc \/ configured_value config v) (snd acc').
Proof.
  revert i acc. induction fuel as [|fuel IH]; intros i [work final] Hfuel;
    [lia|].
  cbn [for_flags fst snd] in *. destruct (work !! i) as [flag|] eqn:Hi.
  - assert (Hin : flag ∈ work) by (eapply list_elem_of_lookup_2; eauto).
    apply lookup_lt_Some in Hi.
    destruct (flag_step_measure config flag work final Hin) as (H1 & H2 & H3).
    destruct (IH (S i) (flag_step config flag (work, final)))
      as (acc' & -> & H4 & _ & H5); [lia|].
    exists acc'. repeat split; try lia.
    rewrite Forall_forall in *. intros v Hv.
    destruct (H5 v Hv) as [Hv'|Hv']; [apply (H3 v Hv') | now right].
  - apply lookup_ge_None in Hi. exists (work, final). simpl.
    repeat split; try lia. apply Forall_forall. auto.
Qed.

Lemma while_flags_returns (config : Dict.t ConfigVar) (fuel : nat)
    (acc : list string * list string) :
  flags_measure (fst acc) < fuel ->
  exists acc',
    while_flags fuel config acc = Some acc'
    /\ existsb (fun flag => Py.has_char flag "$") (fst acc') = false
    /\ Forall (fun v => v ∈ snd acc \/ configured_value config v) (snd acc').
Proof.
  revert acc. induction fuel as [|fuel IH]; intros acc Hfuel; [lia|].
  cbn [while_flags].
  destruct (for_flags_returns config (S (length (fst acc))) 0 acc)
    as (acc1 & -> & H1 & H2 & H3); [lia|].
  destruct (existsb _ (fst acc1)) eqn:E; [|eauto].
  assert (Hne : 0 < length (fst acc)).
  { destruct acc as [[|f work] final]; [|simpl; lia].
    simpl in *. destruct acc1 as [work1 final1].
    (* the pass over the empty list returns it *)
    exfalso. unfold flags_measure, dollar_flags in H1. simpl in H1.
    destruct work1; [discriminate E | simpl in H1; lia]. }
  destruct (IH acc1) as (acc' & -> & H4 & H5); [specialize (H2 Hne); lia|].
  exists acc'. repeat split; [assumption|].
  rewrite Forall_forall in *. intros v Hv.
  destruct (H5 v Hv) as [Hv'|Hv']; [apply (H3 v Hv') | now right].
Qed.

Lemma while_flags_more_fuel (config : Dict.t ConfigVar) (fuel fuel' : nat)
    (acc r : list string * list string) :
  while_flags fuel config acc = Some r -> fuel <= fuel' ->
  while_flags fuel' config acc = Some r.
Proof.
  revert fuel' acc. induction fuel as [|fuel IH]; intros fuel' acc H Hle;
    [discriminate|].
  destruct fuel' as [|fuel']; [lia|]. cbn [while_flags] in *.
  destruct (for_flags _ config 0 acc) as [acc1|]; [|discriminate].
  destruct (existsb _ (fst acc1)); [|assumption].
  apply IH; [assumption | lia].
Qed.

(** X21.  The loop of [process_libraries] that replaces [$(variable)]
    references in the compile flags always ends, for every list of flags
    and every table of variables, although its body appends to the list it
    iterates over and the [while] around it repeats until no flag holds a
    ['$']: every iteration removes a flag, and only an iteration on a flag
    with a ['$'] can add one (without a ['$']).  When it ends no flag with a
    ['$'] is left, and [final_flags] holds nothing but values recorded for
    variables of configure.ac: a flag with a ['$'] or ['@'] reaches the
    output only through such a value. *)
Theorem substitute_flags_terminates (config_ac_variables : Dict.t ConfigVar)
    (to_work_with_flags : list string) :
  exists left final_flags,
    substitute_flags config_ac_variables to_work_with_flags
    = Some (left, final_flags)
    /\ Forall (fun flag => Py.has_char flag "$" = false) left
    /\ Forall (configured_value config_ac_variables) final_flags
    /\ (forall fuel,
          2 * length to_work_with_flags < fuel ->
          while_flags fuel config_ac_variables (to_work_with_flags, [])
          = Some (left, final_flags))
    /\ forall h library,
         target_settings_run h config_ac_variables library
         = Some (target_settings h config_ac_variables library).
Proof.
  assert (Hall : forall work,
            exists left final_flags,
              substitute_flags config_ac_variables work = Some (left, final_flags)
              /\ Forall (fun flag => Py.has_char flag "$" = false) left
              /\ Forall (configured_value config_ac_variables) final_flags).
  { intros work. unfold substitute_flags.
    destruct (while_flags_returns config_ac_variables (S (2 * length work))
                (work, [])) as ([left final_flags] & H1 & H2 & H3).
    { simpl. unfold flags_measure. pose proof (dollar_flags_le work). lia. }
    exists left, final_flags. split; [assumption|]. split.
    - simpl in H2. apply Forall_forall. intros flag Hflag.
      destruct (Py.has_char flag "$") eqn:E; [|reflexivity].
      assert (existsb (fun flag => Py.has_char flag "$") left = true).
      { apply existsb_exists. exists flag. split; [now apply list_elem_of_In | assumption]. }
      congruence.
    - simpl in H3. rewrite Forall_forall in *. intros v Hv.
      destruct (H3 v Hv) as [Hin|Hc]; [inversion Hin | assumption]. }
  destruct (Hall to_work_with_flags) as (left & final_flags & H1 & H2 & H3).
  exists left, final_flags. repeat split; try assumption.
  - intros fuel Hfuel. unfold substitute_flags in H1.
    eapply while_flags_more_fuel; [exact H1 | lia].
  - intros h library. unfold target_settings, target_settings_run. cbv zeta.
    destruct (Hall (List.filter (fun flag => negb (plain_flag flag))
                      (Py.split (PyText.join (Library.compiler_flags library)))))
      as (left' & final' & -> & _). reflexivity.
Qed.

Lemma remove_char_append (c : ascii) (a b : string) :
  Py.remove_char c (a +:+ b) = Py.remove_char c a +:+ Py.remove_char c b.
Proof.
  unfold Py.remove_char, Py.replace_char.
  now rewrite chars_append, flat_map_app, text_app.
Qed.

Lemma library_name_chars (x : string) :
  forallb library_name_char (Py.chars x) = true ->
  Forall (fun c => c <> "'"%char) (Py.chars x)
  /\ Forall (fun c => c <> "/"%char) (Py.chars x)
  /\ Forall (fun c => c <> "."%char) (Py.chars x).
Proof.
  intros H. induction (Py.chars x) as [|c l IH]; [repeat split; constructor|].
  simpl in H. apply andb_prop in H as [Hc Hl].
  destruct (IH Hl) as (H1 & H2 & H3). unfold library_name_char in Hc.
  apply andb_prop in Hc as [Hc Hc3]. apply andb_prop in Hc as [Hc1 Hc2].
  apply negb_true_iff, bool_decide_eq_false in Hc1, Hc2, Hc3.
  repeat split; constructor; assumption.
Qed.

Lemma split_char_go_head (c : ascii) (cur y rest : list ascii) :
  Forall (fun x => x <> c) y ->
  Py.split_char_go c cur (y ++ c :: rest)
  = Py.text (rev cur ++ y) :: Py.split_char_go c [] rest.
Proof.
  revert cur. induction y as [|x y IH]; intros cur H; simpl.
  - destruct (decide (c = c)); [|contradiction]. now rewrite app_nil_r.
  - inversion H; subst. destruct (decide (x = c)); [contradiction|].
    rewrite IH by assumption. simpl. now rewrite <- app_assoc.
Qed.

Lemma split_char_go_nonempty (c : ascii) (cur l : list ascii) :
  Py.split_char_go c cur l <> [].
Proof.
  revert cur. induction l as [|x l IH]; intros cur; simpl; [discriminate|].
  destruct (decide (x = c)); [discriminate | apply IH].
Qed.

Lemma split_char_go_last (c : ascii) (cur a b : list ascii) :
  Forall (fun x => x <> c) b ->
  List.last (Py.split_char_go c cur (a ++ c :: b)) EmptyString = Py.text b
  /\ 1 < length (Py.split_char_go c cur (a ++ c :: b)).
Proof.
  intros Hb. revert cur. induction a as [|x a IH]; intros cur; simpl.
  - destruct (decide (c = c)); [|contradiction].
    rewrite (split_char_go_absent c [] b Hb). simpl. split; [reflexivity | lia].
  - destruct (decide (x = c)).
    + destruct (IH []) as [H1 H2].
      destruct (Py.split_char_go c [] (a ++ c :: b)) as [|y l] eqn:E;
        [simpl in H2; lia|].
      split; [exact H1 | simpl; lia].
    + apply IH.
Qed.

Lemma startswith_cons (s : string) (a b : ascii) (l : list ascii) :
  Py.chars s = a :: b :: l ->
  forall tail p, String.length p <= 2 ->
    Py.startswith (s +:+ tail) p = Py.startswith s p.
Proof.
  intros Hs tail p Hp. unfold Py.startswith. rewrite chars_append, Hs.
  destruct (Py.chars p) as [|p1 [|p2 [|p3 q]]] eqn:Ep; simpl; try reflexivity.
  rewrite <- length_chars, Ep in Hp. simpl in Hp. lia.
Qed.

(** X22.  [make_nice_library_name] on the usual forms of a link name, for a
    base name [x] without quote, slash and dot that does not start with
    [-l] or [-L]: the archive [lib<x>.a] and the shared object
    [<directory>/lib<x>.so] both give [<x>], whatever the directory; the
    flag [-l<x>] gives [<x>], also when it stands in single quotes; a
    search path [-L<directory>] is returned as it is; and [<x>] itself is
    returned as it is, so a name without a dot keeps a leading [lib]. *)
Theorem make_nice_library_name_forms (x directory : string)
    (Hx : forallb library_name_char (Py.chars x) = true)
    (Hl : Py.startswith x "-l" = false)
    (HL : Py.startswith x "-L" = false)
    (Hquote : Py.has_char directory "'" = false)
    (Hdir : Py.startswith directory "-L" = false) :
  make_nice_library_name ("lib" +:+ x +:+ ".a") = x
  /\ make_nice_library_name (directory +:+ "/lib" +:+ x +:+ ".so") = x
  /\ make_nice_library_name ("-l" +:+ x) = x
  /\ make_nice_library_name ("'-l" +:+ x +:+ "'") = x
  /\ make_nice_library_name ("-L" +:+ directory) = "-L" +:+ directory
  /\ make_nice_library_name x = x.
Proof.
  destruct (library_name_chars x Hx) as (Hq & Hs & Hd).
  assert (Hxq : Py.remove_char "'" x = x) by (now apply remove_absent_char).
  assert (Hplain : forall pre post,
            Forall (fun c => c <> "'"%char) (Py.chars pre) ->
            Forall (fun c => c <> "'"%char) (Py.chars post) ->
            Py.remove_char "'" (pre +:+ x +:+ post) = pre +:+ x +:+ post).
  { intros pre post H1 H2. apply remove_absent_char.
    rewrite !chars_append. repeat (apply Forall_app; split); assumption. }
  (* the base name with an extension, once the directory is gone *)
  assert (Hbase : forall ext,
            (if Py.has_char ("lib" +:+ x +:+ "." +:+ ext) "."
             then
               if Py.startswith
                    (hd EmptyString (Py.split_on "." ("lib" +:+ x +:+ "." +:+ ext)))
                    "lib"
               then Py.drop_front 3
                      (hd EmptyString
                         (Py.split_on "." ("lib" +:+ x +:+ "." +:+ ext)))
               else hd EmptyString (Py.split_on "." ("lib" +:+ x +:+ "." +:+ ext))
             else "lib" +:+ x +:+ "." +:+ ext) = x).
  { intros ext.
    assert (H1 : Py.has_char ("lib" +:+ x +:+ "." +:+ ext) "." = true).
    { apply has_char_true.
      change ("lib" +:+ x +:+ "." +:+ ext) with ("lib" +:+ (x +:+ ("." +:+ ext))).
      rewrite !chars_append. apply elem_of_app. right. apply elem_of_app. right.
      left. }
    assert (H2 : hd EmptyString (Py.split_on "." ("lib" +:+ x +:+ "." +:+ ext))
                 = "lib" +:+ x).
    { unfold Py.split_on.
      change ("lib" +:+ x +:+ "." +:+ ext) with (("lib" +:+ x) +:+ ("." +:+ ext)).
      rewrite chars_append.
      change (Py.chars ("." +:+ ext)) with ("."%char :: Py.chars ext).
      rewrite split_char_go_head.
      - cbn [hd].
        change (rev [] ++ Py.chars ("lib" +:+ x)) with (Py.chars ("lib" +:+ x)).
        apply text_chars.
      - change (Py.chars ("lib" +:+ x))
          with ("l"%char :: "i"%char :: "b"%char :: Py.chars x).
        repeat (constructor; [discriminate|]). assumption. }
    rewrite H1, H2.
    change (Py.startswith ("lib" +:+ x) "lib") with true. cbv iota.
    change (Py.drop_front 3 ("lib" +:+ x)) with (Py.text (Py.chars x)).
    apply text_chars. }
  assert (Hnoslash : forall s,
            Forall (fun c => c <> "/"%char) (Py.chars s) ->
            (if 1 <? length (Py.split_on "/" s)
             then List.last (Py.split_on "/" s) EmptyString
             else Py.concat_all (Py.split_on "/" s)) = s).
  { intros s H. unfold Py.split_on. rewrite (split_char_go_absent "/" [] _ H).
    simpl. rewrite text_chars. apply append_nil_r. }
  split; [|split; [|split; [|split; [|split]]]].
  - unfold make_nice_library_name. cbv zeta.
    rewrite (Hplain "lib" ".a") by (repeat constructor; discriminate).
    change (Py.startswith ("lib" +:+ x +:+ ".a") "-L") with false. cbv iota.
    rewrite Hnoslash.
    + change ("lib" +:+ x +:+ ".a") with ("lib" +:+ x +:+ "." +:+ "a").
      rewrite (Hbase "a"), Hl. reflexivity.
    + change ("lib" +:+ x +:+ ".a") with ("lib" +:+ (x +:+ ".a")).
      rewrite !chars_append. repeat (apply Forall_app; split); try assumption;
        repeat constructor; discriminate.
  - unfold make_nice_library_name. cbv zeta.
    assert (Hr : Py.remove_char "'" (directory +:+ "/lib" +:+ x +:+ ".so")
                 = directory +:+ "/lib" +:+ x +:+ ".so").
    { apply remove_absent_char. rewrite !chars_append.
      apply has_char_false in Hquote.
      repeat (apply Forall_app; split); try assumption.
      - apply Forall_forall. intros c Hc ->. contradiction.
      - repeat constructor; discriminate.
      - repeat constructor; discriminate. }
    rewrite Hr.
    assert (HnotL : Py.startswith (directory +:+ "/lib" +:+ x +:+ ".so") "-L"
                    = false).
    { destruct (Py.chars directory) as [|a [|b l]] eqn:Ed.
      - unfold Py.startswith. rewrite chars_append, Ed. reflexivity.
      - unfold Py.startswith. rewrite chars_append, Ed. simpl.
        now destruct (decide ("-"%char = a)).
      - rewrite (startswith_cons directory a b l Ed) by (simpl; lia).
        exact Hdir. }
    rewrite HnotL.
    assert (Hsplit :
      List.last (Py.split_on "/" (directory +:+ "/lib" +:+ x +:+ ".so"))
        EmptyString = "lib" +:+ x +:+ "." +:+ "so"
      /\ 1 < length (Py.split_on "/" (directory +:+ "/lib" +:+ x +:+ ".so"))).
    { unfold Py.split_on. rewrite chars_append.
      change (Py.chars ("/lib" +:+ x +:+ ".so"))
        with ("/"%char :: Py.chars ("lib" +:+ x +:+ ".so")).
      destruct (split_char_go_last "/" [] (Py.chars directory)
                  (Py.chars ("lib" +:+ x +:+ ".so"))) as [H1 H2].
      - change ("lib" +:+ x +:+ ".so") with ("lib" +:+ (x +:+ ".so")).
        rewrite !chars_append. repeat (apply Forall_app; split); try assumption;
          repeat constructor; discriminate.
      - split; [|exact H2]. rewrite H1. apply text_chars. }
    destruct Hsplit as [H1 H2]. apply Nat.ltb_lt in H2. rewrite H2, H1.
    rewrite (Hbase "so"), Hl. reflexivity.
  - unfold make_nice_library_name. cbv zeta.
    assert (Hr : Py.remove_char "'" ("-l" +:+ x) = "-l" +:+ x).
    { apply remove_absent_char. rewrite chars_append.
      apply Forall_app; split; [repeat constructor; discriminate | assumption]. }
    rewrite Hr. change (Py.startswith ("-l" +:+ x) "-L") with false. cbv iota.
    rewrite Hnoslash.
    + assert (Hnodot : Py.has_char ("-l" +:+ x) "." = false).
      { apply has_char_false. rewrite chars_append. intros Hin.
        apply elem_of_app in Hin as [Hin|Hin].
        - vm_compute in Hin.
          repeat (inversion Hin as [|? ? ? Hin']; subst; clear Hin; rename Hin' into Hin).
        - rewrite Forall_forall in Hd. now apply (Hd _ Hin). }
      rewrite Hnodot. change (Py.startswith ("-l" +:+ x) "-l") with true. cbv iota.
      change (Py.drop_front 2 ("-l" +:+ x)) with (Py.text (Py.chars x)).
      apply text_chars.
    + rewrite chars_append.
      apply Forall_app; split; [repeat constructor; discriminate | assumption].
  - unfold make_nice_library_name. cbv zeta.
    assert (Hr : Py.remove_char "'" ("'-l" +:+ x +:+ "'") = "-l" +:+ x).
    { change ("'-l" +:+ x +:+ "'") with ("'-l" +:+ (x +:+ "'")).
      rewrite !remove_char_append, Hxq.
      change (Py.remove_char "'" "'-l") with "-l".
      change (Py.remove_char "'" "'") with EmptyString.
      now rewrite append_nil_r. }
    rewrite Hr. change (Py.startswith ("-l" +:+ x) "-L") with false. cbv iota.
    rewrite Hnoslash.
    + assert (Hnodot : Py.has_char ("-l" +:+ x) "." = false).
      { apply has_char_false. rewrite chars_append. intros Hin.
        apply elem_of_app in Hin as [Hin|Hin].
        - vm_compute in Hin.
          repeat (inversion Hin as [|? ? ? Hin']; subst; clear Hin; rename Hin' into Hin).
        - rewrite Forall_forall in Hd. now apply (Hd _ Hin). }
      rewrite Hnodot. change (Py.startswith ("-l" +:+ x) "-l") with true. cbv iota.
      change (Py.drop_front 2 ("-l" +:+ x)) with (Py.text (Py.chars x)).
      apply text_chars.
    + rewrite chars_append.
      apply Forall_app; split; [repeat constructor; discriminate | assumption].
  - unfold make_nice_library_name. cbv zeta.
    assert (Hr : Py.remove_char "'" ("-L" +:+ directory) = "-L" +:+ directory).
    { apply remove_absent_char. rewrite chars_append.
      apply has_char_false in Hquote.
      apply Forall_app; split; [repeat constructor; discriminate|].
      apply Forall_forall. intros c Hc ->. contradiction. }
    rewrite Hr. reflexivity.
  - unfold make_nice_library_name. cbv zeta.
    rewrite Hxq, HL, (Hnoslash x Hs).
    assert (Hnodot : Py.has_char x "." = false).
    { apply has_char_false. intros Hin. rewrite Forall_forall in Hd.
      now apply (Hd _ Hin). }
    now rewrite Hnodot, Hl.
Qed.

Lemma make_nice_library_name_forms_witness :
  make_nice_library_name ("lib" +:+ "foo" +:+ ".a") = "foo"
  /\ make_nice_library_name ("../common" +:+ "/lib" +:+ "foo" +:+ ".so") = "foo"
  /\ make_nice_library_name ("-l" +:+ "foo") = "foo"
  /\ make_nice_library_name ("'-l" +:+ "foo" +:+ "'") = "foo"
  /\ make_nice_library_name ("-L" +:+ "../common") = "-L" +:+ "../common"
  /\ make_nice_library_name "foo" = "foo".
Proof.
  apply (make_nice_library_name_forms "foo" "../common"); reflexivity.
Defined.

(** ** The directory files *)

Lemma hold_content_filed (files : Dict.t CMakeFile.t) (library : Library.t)
    (content : string) :
  filed_targets (hold_content files library content)
  ≡ₚ filed_targets files ++ [Library.canonic_name library]
  /\ filed_contents (hold_content files library content)
     ≡ₚ filed_contents files ++ [content]
  /\ exists f,
       Dict.get (hold_content files library content) (Library.directory library)
       = Some f
       /\ Library.canonic_name library ∈ CMakeFile.libraries f
       /\ content ∈ CMakeFile.contained_libraries_content f.
Proof.
  unfold hold_content. cbv zeta.
  set (dir := Library.directory library).
  split; [|split].
  - unfold filed_targets. induction files as [|[k f] files IH]; simpl.
    + reflexivity.
    + destruct (decide (k = dir)); simpl.
      * rewrite <- app_assoc.
        rewrite (Permutation_app_comm [Library.canonic_name library]).
        now rewrite app_assoc.
      * now rewrite IH, app_assoc.
  - unfold filed_contents. induction files as [|[k f] files IH]; simpl.
    + reflexivity.
    + destruct (decide (k = dir)); simpl.
      * rewrite <- app_assoc.
        rewrite (Permutation_app_comm [content]).
        now rewrite app_assoc.
      * now rewrite IH, app_assoc.
  - eexists. split; [apply dict_get_set_eq|]. simpl.
    split; apply elem_of_app; right; apply list_elem_of_here.
Qed.

(** X23.  [process_libraries] files every target exactly once: after the
    loop the canonic names held by the [CMakeFile]s are the ones held
    before together with the names of the targets, each as often as it is
    in [libraries]; the texts held are the ones held before and one per
    target; and the entry of a target went to the [CMakeFile] stored under
    the target's own directory. *)
Theorem process_libraries_files_each_target (w : World)
    (settings : TargetSettings) (g : Globals) (todo libs : list Library.t)
    (files files' : Dict.t CMakeFile.t) (out : list string)
    (Hrun : process_library_list w settings g todo files
            = Some (libs, files', out)) :
  filed_targets files' ≡ₚ filed_targets files ++ map Library.canonic_name todo
  /\ length (filed_contents files')
     = length (filed_contents files) + length todo
  /\ Forall (fun library =>
               exists f, Dict.get files' (Library.directory library) = Some f
                         /\ Library.canonic_name library ∈ CMakeFile.libraries f)
       todo.
Proof.
  revert files libs files' out Hrun.
  induction todo as [|library todo IH]; intros files libs files' out Hrun.
  - simpl in Hrun. injection Hrun as <- <- <-. simpl.
    rewrite app_nil_r. split; [reflexivity|]. split; [lia | constructor].
  - simpl in Hrun.
    destruct (library_content w settings g library) as [[[content library'] o]|]
      eqn:Hc; [|discriminate].
    destruct (process_library_list w settings g todo
                (hold_content files library' content))
      as [[[done files1] out1]|] eqn:Hrest; [|discriminate].
    injection Hrun as <- <- <-.
    destruct (IH _ _ _ _ Hrest) as (H1 & H2 & H3).
    destruct (hold_content_filed files library' content) as (F1 & F2 & f & F3 & F4 & _).
    assert (Hsame : Library.canonic_name library' = Library.canonic_name library
                    /\ Library.directory library' = Library.directory library).
    { destruct (library_content_library _ _ _ _ _ _ _ Hc) as [->| ->]; auto. }
    destruct Hsame as [Hn Hd]. rewrite Hn in *. rewrite Hd in *.
    split; [|split].
    + rewrite H1, F1. simpl. now rewrite <- app_assoc.
    + rewrite H2. apply Permutation_length in F2. rewrite F2, length_app.
      simpl. lia.
    + constructor; [|assumption].
      (* later targets only extend the file of this directory *)
      clear -Hrest F3 F4.
      revert files1 done out1 f Hrest F3 F4.
      generalize (hold_content files library' content) as fs.
      induction todo as [|l todo IHt]; intros fs files1 done out1 f Hrest F3 F4.
      * simpl in Hrest. injection Hrest as _ <- _. eauto.
      * simpl in Hrest.
        destruct (library_content w settings g l) as [[[c l'] o]|]; [|discriminate].
        destruct (process_library_list w settings g todo (hold_content fs l' c))
          as [[[d fs1] o1]|] eqn:Hr; [|discriminate].
        injection Hrest as _ <- _.
        destruct (decide (Library.directory l' = Library.directory library))
          as [E|E].
        -- eapply (IHt _ _ _ _ _ Hr).
           ++ unfold hold_content. cbv zeta. rewrite E. apply dict_get_set_eq.
           ++ simpl. rewrite F3. apply elem_of_app. now left.
        -- eapply (IHt _ _ _ _ _ Hr); [|exact F4].
           unfold hold_content. cbv zeta.
           rewrite dict_get_set_ne by assumption. exact F3.
Qed.

Lemma process_libraries_files_each_target_witness :
  exists libs files' out,
    process_library_list example_world target_settings example_parsed
      (libraries example_parsed) [] = Some (libs, files', out)
    /\ filed_targets files'
       ≡ₚ filed_targets [] ++ map Library.canonic_name (libraries example_parsed).
Proof.
  destruct (process_library_list example_world target_settings example_parsed
              (libraries example_parsed) [])
    as [[[libs files'] out]|] eqn:Hrun; [|vm_compute in Hrun; discriminate Hrun].
  exists libs, files', out. split; [reflexivity|].
  apply (process_libraries_files_each_target example_world target_settings
           example_parsed _ libs [] files' out Hrun).
Defined.

Lemma write_cmake_files_ops (files : Dict.t CMakeFile.t)
    (acc : list FileOp * list string) :
  fst (fold_left write_cmake_file files acc)
  = fst acc
    ++ map (fun kf : string * CMakeFile.t =>
              AppendFile (CMakeFile.directory (snd kf) +:+ "/CMakeLists.txt")
                (CMakeFile.extra_content (snd kf)
                 +:+ Py.concat_all
                       (CMakeFile.contained_libraries_content (snd kf))))
         files.
Proof.
  revert acc. induction files as [|kf files IH]; intros acc; simpl.
  - now rewrite app_nil_r.
  - rewrite IH. unfold write_cmake_file. simpl. now rewrite <- app_assoc.
Qed.

Lemma app_split_after {A} (l1 l2 pre post : list A) (x : A) :
  l1 ++ l2 = pre ++ x :: post -> x ∉ l1 ->
  exists pre', pre = l1 ++ pre' /\ l2 = pre' ++ x :: post.
Proof.
  revert pre. induction l1 as [|a l1 IH]; intros pre H Hx.
  - exists pre. auto.
  - destruct pre as [|p pre]; simpl in H.
    + injection H as -> _. exfalso. apply Hx. left.
    + injection H as -> H. destruct (IH pre H) as [pre' [-> ->]].
      * intros Hin. apply Hx. now right.
      * now exists pre'.
Qed.

(** X24.  No directory file is ever extended over what an earlier run
    left: in the sequence of file operations of the generation phase, every
    append to a file comes after the removal of that file, or, for the file
    of the working directory (which is never removed), after the write of
    the top-level text to it. *)
Theorem appends_start_from_fresh_files (w : World) (settings : TargetSettings)
    (g : Globals) (gen : Generated) (pre post : list FileOp)
    (path text : string)
    (Hgen : generate w settings g = Some gen)
    (Hop : file_ops gen = pre ++ AppendFile path text :: post) :
  RemoveIfFile path ∈ pre
  \/ (path = working_directory g +:+ "/CMakeLists.txt"
      /\ WriteFile path (toplevel_text w (options g) (temp_defines g)) ∈ pre).
Proof.
  destruct (generate_inv _ _ _ _ Hgen) as (libs & files1 & printed & _ & Hinv).
  cbv zeta in Hinv. destruct Hinv as [_ Hops].
  set (files := process_cmake_file_directories (extra_content g) files1) in *.
  rewrite Hops in Hop. clear Hops.
  apply app_split_after in Hop as [pre1 [-> Hop]];
    [|intros Hin; apply list_elem_of_singleton in Hin; discriminate].
  apply app_split_after in Hop as [pre2 [-> Hop]].
  2:{ unfold removals. intros Hin. apply list_elem_of_In, in_flat_map in Hin.
      destruct Hin as [kf [_ Hin]]. destruct (bool_decide _); simpl in Hin;
        intuition discriminate. }
  assert (Hin : AppendFile path text
                ∈ fst (write_cmake_files files (required_directories g))).
  { assert (H : AppendFile path text
                ∈ fst (write_cmake_files files (required_directories g))
                  ++ map (generate_default_cmake w)
                       (filter (fun x => negb (should_exclude (exclude_directories g) x))
                          (snd (write_cmake_files files (required_directories g)))))
      by (rewrite Hop; apply elem_of_app; right; left).
    apply elem_of_app in H as [H|H]; [exact H|].
    apply list_elem_of_fmap in H as [d [H _]]. discriminate H. }
  unfold write_cmake_files in Hin. rewrite write_cmake_files_ops in Hin.
  simpl in Hin. apply list_elem_of_fmap in Hin as [kf [Heq Hkf]].
  injection Heq as -> _.
  destruct (decide (working_directory g = CMakeFile.directory (snd kf)))
    as [E|E].
  - right. rewrite E. split; [reflexivity|].
    apply elem_of_app. left. rewrite <- E. apply list_elem_of_here.
  - left. apply elem_of_app. right. apply elem_of_app. left.
    unfold removals. apply list_elem_of_In, in_flat_map.
    exists kf. split; [now apply list_elem_of_In|].
    rewrite bool_decide_eq_true_2 by assumption. now left.
Qed.

Lemma appends_start_from_fresh_files_witness :
  RemoveIfFile "./src/CMakeLists.txt" ∈ take 2 (file_ops example_generated)
  \/ ("./src/CMakeLists.txt" = working_directory example_parsed +:+ "/CMakeLists.txt"
      /\ WriteFile "./src/CMakeLists.txt"
           (toplevel_text example_world (options example_parsed)
              (temp_defines example_parsed))
         ∈ take 2 (file_ops example_generated)).
Proof.
  apply (appends_start_from_fresh_files example_world target_settings
           example_parsed example_generated
           (take 2 (file_ops example_generated))
           (drop 3 (file_ops example_generated))
           "./src/CMakeLists.txt"
           (match file_ops example_generated !! 2 with
            | Some (AppendFile _ text) => text
            | _ => EmptyString
            end)).
  - vm_compute. reflexivity.
  - vm_compute. reflexivity.
Defined.

Lemma count_list_remove_same (d : string) (l : list string) :
  count_occ string_dec (list_remove d l) d = count_occ string_dec l d - 1.
Proof.
  induction l as [|y l IH]; simpl; [reflexivity|].
  destruct (decide (y = d)) as [->|Hne].
  - destruct (string_dec d d); [lia | contradiction].
  - simpl. destruct (string_dec y d); [contradiction | exact IH].
Qed.

Lemma count_list_remove_other (x d : string) (l : list string) :
  x <> d ->
  count_occ string_dec (list_remove x l) d = count_occ string_dec l d.
Proof.
  intros Hne. induction l as [|y l IH]; simpl; [reflexivity|].
  destruct (decide (y = x)) as [->|Hy].
  - destruct (string_dec x d); [contradiction | reflexivity].
  - simpl. destruct (string_dec y d); now rewrite IH.
Qed.

Lemma write_cmake_files_count (files : Dict.t CMakeFile.t)
    (acc : list FileOp * list string) (d : string) :
  count_occ string_dec (snd (fold_left write_cmake_file files acc)) d
  = count_occ string_dec (snd acc) d
    - length (List.filter
                (fun kf : string * CMakeFile.t =>
                   bool_decide (CMakeFile.directory (snd kf) = d)) files).
Proof.
  revert acc. induction files as [|kf files IH]; intros acc; simpl; [lia|].
  rewrite IH. unfold write_cmake_file. cbn [snd].
  destruct (decide (CMakeFile.directory (snd kf) = d)) as [E|E].
  - rewrite (bool_decide_eq_true_2 _ E). simpl. rewrite E.
    destruct (bool_decide (d ∈ snd acc)) eqn:Hin.
    + rewrite count_list_remove_same. lia.
    + apply bool_decide_eq_false in Hin.
      assert (count_occ string_dec (snd acc) d = 0).
      { apply count_occ_not_In. intros H. apply Hin. now apply list_elem_of_In. }
      lia.
  - rewrite (bool_decide_eq_false_2 _ E).
    destruct (bool_decide _); [rewrite count_list_remove_other by assumption|];
      lia.
Qed.

(** X25.  A required directory is struck off once for every [CMakeFile]
    with that directory, because [list.remove] takes out one occurrence:
    after the generation phase it is left in [required_directories] as many
    times as it was registered, less the number of such files.  A directory
    registered more often than that (one named twice in [SUBDIRS], say) and
    not excluded gets the default file, and since the default files are
    written last, after every append, it replaces what was generated for
    the directory. *)
Theorem required_directories_accounting (w : World)
    (settings : TargetSettings) (g : Globals) (gen : Generated) (d : string)
    (Hgen : generate w settings g = Some gen) :
  count_occ string_dec (required_directories (globals gen)) d
  = count_occ string_dec (required_directories g) d
    - length (List.filter
                (fun kf : string * CMakeFile.t =>
                   bool_decide (CMakeFile.directory (snd kf) = d))
                (cmake_files (globals gen)))
  /\ (length (List.filter
                (fun kf : string * CMakeFile.t =>
                   bool_decide (CMakeFile.directory (snd kf) = d))
                (cmake_files (globals gen)))
      < count_occ string_dec (required_directories g) d ->
      should_exclude (exclude_directories g) d = false ->
      exists pre post,
        file_ops gen
        = pre ++ WriteFile (d +:+ "/CMakeLists.txt") (default_cmake_text w d)
              :: post
        /\ Forall (fun op => exists path text, op = WriteFile path text) post).
Proof.
  destruct (generate_inv _ _ _ _ Hgen) as (libs & files1 & printed & _ & Hinv).
  cbv zeta in Hinv. destruct Hinv as [Hg Hops].
  set (files := process_cmake_file_directories (extra_content g) files1) in *.
  rewrite Hg. cbn [required_directories cmake_files].
  pose proof (write_cmake_files_count files ([], required_directories g) d)
    as Hcount.
  cbn [snd] in Hcount. fold (write_cmake_files files (required_directories g)) in Hcount.
  split; [exact Hcount|].
  intros Hmore Hnot.
  assert (Hin : d ∈ filter (fun x => negb (should_exclude (exclude_directories g) x))
                      (snd (write_cmake_files files (required_directories g)))).
  { apply list_elem_of_filter. split; [now rewrite Hnot|].
    apply list_elem_of_In, (count_occ_In string_dec). lia. }
  apply list_elem_of_split in Hin as (a & b & Hsplit).
  rewrite Hops, Hsplit, map_app. simpl.
  exists ([WriteFile (working_directory g +:+ "/CMakeLists.txt")
             (toplevel_text w (options g) (temp_defines g))]
          ++ removals (working_directory g) files
          ++ fst (write_cmake_files files (required_directories g))
          ++ map (generate_default_cmake w) a),
         (map (generate_default_cmake w) b).
  split.
  - unfold generate_default_cmake at 2. now rewrite <- !app_assoc.
  - apply Forall_forall. intros op Hop.
    apply list_elem_of_fmap in Hop as [x [-> _]].
    unfold generate_default_cmake. eauto.
Qed.

Lemma required_directories_accounting_witness :
  count_occ string_dec (required_directories (globals example_generated))
    "./src/sub" = 1
  /\ exists pre post,
       file_ops example_generated
       = pre ++ WriteFile ("./src/sub" +:+ "/CMakeLists.txt")
                  (default_cmake_text example_world "./src/sub")
             :: post
       /\ Forall (fun op => exists path text, op = WriteFile path text) post.
Proof.
  destruct (required_directories_accounting example_world target_settings
              example_parsed example_generated "./src/sub") as [H1 H2].
  - vm_compute. reflexivity.
  - split; [rewrite H1; vm_compute; reflexivity|].
    apply H2; [vm_compute; lia | reflexivity].
Defined.

(** ** The top-level file *)

Lemma insert_by_sorted {A} (key : A -> string) (x : A) (l : list A) :
  Sorted (fun a b => String.leb (key a) (key b) = true) l ->
  Sorted (fun a b => String.leb (key a) (key b) = true) (Py.insert_by key x l)
  /\ Py.insert_by key x l ≡ₚ x :: l.
Proof.
  induction l as [|y l IH]; intros Hs; simpl.
  - split; [repeat constructor | reflexivity].
  - destruct (String.leb (key x) (key y)) eqn:E.
    + split; [|reflexivity]. constructor; [assumption|]. now constructor.
    + inversion Hs as [|? ? Hs' Hhd]; subst.
      destruct (IH Hs') as [H1 H2]. split.
      * constructor; [assumption|].
        assert (Hyx : String.leb (key y) (key x) = true).
        { destruct (String.leb_total (key x) (key y)); congruence. }
        destruct l as [|z l]; simpl.
        -- now constructor.
        -- destruct (String.leb (key x) (key z)); constructor; [assumption|].
           now inversion Hhd.
      * rewrite H2. apply perm_swap.
Qed.

(** X26.  The options are written to the top-level file in ascending order
    of their names (by code point, a proper prefix first), whatever the
    order in which configure.ac declared them, and every option of the
    registry is written once: the list [convert] iterates over, twice, is a
    rearrangement of the registry. *)
Theorem sorted_options_ascending (options : Dict.t Option.t) :
  names_ascending (sorted_options options)
  /\ sorted_options options ≡ₚ options
  /\ names_ascending
       (map (fun ko : string * Option.t => (fst ko, Option.finalize (snd ko)))
          (sorted_options options)).
Proof.
  unfold names_ascending, sorted_options.
  assert (H : Sorted (fun a b : string * Option.t =>
                        String.leb (Option.name (snd a)) (Option.name (snd b)) = true)
                (Py.sorted_by (fun ko : string * Option.t => Option.name (snd ko))
                   options)
              /\ Py.sorted_by (fun ko : string * Option.t => Option.name (snd ko))
                   options ≡ₚ options).
  { induction options as [|ko options [IH1 IH2]]; simpl.
    - split; [constructor | reflexivity].
    - destruct (insert_by_sorted
                  (fun ko : string * Option.t => Option.name (snd ko)) ko _ IH1)
        as [H1 H2].
      split; [exact H1|]. now rewrite H2, IH2. }
  destruct H as [H1 H2]. split; [exact H1|]. split; [exact H2|].
  clear H2. induction H1 as [|a l Hl IH Hhd]; simpl; constructor; [assumption|].
  destruct Hhd as [|b l Hab]; simpl; constructor.
  simpl. now rewrite !finalize_name.
Qed.

Lemma library_content_condition (w : World) (settings : TargetSettings)
    (g : Globals) (library library' : Library.t) (content : string)
    (out : list string) :
  library_content w settings g library = Some (content, library', out) ->
  condition_joined library'.
Proof.
  unfold library_content.
  match goal with
  | |- context [own_sources w (options g) library ?t] =>
      pose proof (own_sources_condition w (options g) library t) as Hown;
      destruct (own_sources w (options g) library t) as [t1 l1]
  end.
  simpl in Hown. unfold condition_joined.
  destruct (PyText.truthy (Library.condition l1)) eqn:E.
  - destruct (Hown eq_refl) as [s Hs]. rewrite Hs.
    intros [= _ <- _]. right. now exists s.
  - intros [= _ <- _].
    destruct (Library.condition l1) as [[|c l]|s]; [now left | discriminate E|].
    right. now exists s.
Qed.

Lemma process_library_list_joined (w : World) (settings : TargetSettings)
    (g : Globals) (todo libs : list Library.t) (files files1 : Dict.t CMakeFile.t)
    (printed : list string) :
  process_library_list w settings g todo files = Some (libs, files1, printed) ->
  Forall condition_joined libs.
Proof.
  revert libs files1 printed files.
  induction todo as [|l todo IH]; intros libs files1 printed files; simpl.
  - intros [= <- _ _]. constructor.
  - destruct (library_content w settings _ l) as [[[c l'] o]|] eqn:Hc;
      [|discriminate].
    destruct (process_library_list w settings _ todo (hold_content files l' c))
      as [[[done fs] o']|] eqn:Hr; [|discriminate].
    intros [= <- _ _]. constructor.
    + eapply library_content_condition; eauto.
    + eapply IH; eauto.
Qed.

Lemma opens_fails (w : World) (directories : list string) :
  opens w directories = false ->
  exists d, d ∈ directories /\ can_open w (cmakelists d) = false.
Proof.
  unfold opens. induction directories as [|d l IH]; simpl; [discriminate|].
  destruct (can_open w (cmakelists d)) eqn:E; simpl.
  - intros H. destruct (IH H) as (d' & Hin & Hd').
    exists d'. split; [now apply list_elem_of_further | exact Hd'].
  - intros _. exists d. split; [apply list_elem_of_here | exact E].
Qed.

(** X27.  [process_libraries] always returns: the concatenation of a [str]
    with [library.condition], which fails with a [TypeError] for a list,
    is only reached after the condition was joined into a [str] or for a
    condition that is empty, and after it the condition of every library
    is a [str] or the empty list it started as.  The generation phase
    therefore fails only at an [open]: it returns when every
    [CMakeLists.txt] can be opened, and when it raises, some
    [CMakeLists.txt] could not be. *)
Theorem generate_returns (w : World) (settings : TargetSettings) (g : Globals) :
  (exists g' printed,
     process_libraries w settings g = Some (g', printed)
     /\ Forall condition_joined (libraries g'))
  /\ ((forall d, can_open w (cmakelists d) = true) ->
      exists gen,
        generate w settings g = Some gen
        /\ Forall condition_joined (libraries (globals gen)))
  /\ (generate w settings g = None ->
      exists d, can_open w (cmakelists d) = false).
Proof.
  split; [|split].
  - unfold process_libraries.
    destruct (process_library_list_total w settings g (libraries g)
                (cmake_files g)) as [[[libs files] out] Hrun].
    rewrite Hrun. eexists _, _. split; [reflexivity|].
    cbn [set_cmake_files set_libraries libraries].
    eapply process_library_list_joined; exact Hrun.
  - intros Hopen. destruct (generate_returns_when_opened w settings g Hopen) as [gen Hgen].
    exists gen. split; [exact Hgen|].
    destruct (generate_inv _ _ _ _ Hgen) as (libs & files1 & printed & Hrun & Hinv).
    cbv zeta in Hinv. destruct Hinv as [-> _]. cbn [libraries].
    eapply process_library_list_joined; exact Hrun.
  - unfold generate, process_libraries.
    destruct (opens w [working_directory g]) eqn:E1; cbn [negb].
    2:{ intros _. destruct (opens_fails _ _ E1) as (d & _ & Hd). now exists d. }
    cbn [options set_options libraries cmake_files].
    destruct (process_library_list_total w settings
                (set_options g (finalize_options (options g)))
                (libraries g) (cmake_files g)) as [[[libs files] out] Hrun].
    cbn [options set_options libraries cmake_files] in Hrun. rewrite Hrun.
    cbn [set_libraries set_options extra_content cmake_files set_cmake_files
         required_directories exclude_directories working_directory].
    match goal with
    | |- context [negb (opens w ?l)] => destruct (opens w l) eqn:E2
    end; cbn [negb].
    2:{ intros _. destruct (opens_fails _ _ E2) as (d & _ & Hd). now exists d. }
    destruct (write_cmake_files _ _).
    cbn [set_required_directories exclude_directories working_directory].
    match goal with
    | |- context [negb (opens w ?l)] => destruct (opens w l) eqn:E3
    end; cbn [negb].
    2:{ intros _. destruct (opens_fails _ _ E3) as (d & _ & Hd). now exists d. }
    discriminate.
Qed.

Lemma contains_append_l (a b p : string) :
  Py.contains a p = true -> Py.contains (a +:+ b) p = true.
Proof.
  unfold Py.contains. rewrite chars_append. intros H.
  apply infix_chars_spec in H as (x & y & ->). apply infix_chars_spec.
  exists x, (y ++ Py.chars b). now rewrite <- !app_assoc.
Qed.

Lemma contains_append_r (a b p : string) :
  Py.contains b p = true -> Py.contains (a +:+ b) p = true.
Proof.
  unfold Py.contains. rewrite chars_append. intros H.
  apply infix_chars_spec in H as (x & y & ->). apply infix_chars_spec.
  exists (Py.chars a ++ x), y. now rewrite <- !app_assoc.
Qed.

Lemma contains_self (s : string) : Py.contains s s = true.
Proof.
  unfold Py.contains. apply infix_chars_spec. exists [], [].
  now rewrite app_nil_r.
Qed.

Lemma contains_concat_all {A} (f : A -> string) (l : list A) (x : A) (p : string) :
  x ∈ l -> Py.contains (f x) p = true ->
  Py.contains (Py.concat_all (map f l)) p = true.
Proof.
  intros Hin Hp. induction l as [|y l IH]; [inversion Hin|].
  change (Py.concat_all (map f (y :: l)))
    with (f y +:+ Py.concat_all (map f l)).
  inversion Hin; subst.
  - now apply contains_append_l.
  - apply contains_append_r. now apply IH.
Qed.

Lemma bind_option_skips (o : Option.t) (defs : Dict.t Define.t)
    (k : string) (d : Define.t) :
  Option.define o <> Define.name d ->
  Option.name o <> Define.option_name d ->
  (k, d) ∈ defs -> (k, d) ∈ snd (bind_option o defs).
Proof.
  intros H1 H2. induction defs as [|[k' d'] defs IH]; intros Hin;
    [inversion Hin|].
  cbn [bind_option]. cbv zeta.
  inversion Hin as [? ? E|? ? ? Hin' E]; subst.
  - unfold Py.eqb.
    rewrite (bool_decide_eq_false_2 _ H1), (bool_decide_eq_false_2 _ H2).
    cbn [orb]. destruct (bind_option o defs). left.
  - destruct (Py.eqb (Option.define o) (Define.name d') || _).
    + right. exact Hin'.
    + specialize (IH Hin'). destruct (bind_option o defs). now right.
Qed.

Lemma bind_options_skips (opts : Dict.t Option.t) (defs : Dict.t Define.t)
    (k : string) (d : Define.t) :
  Forall (fun ko : string * Option.t =>
            Option.define (snd ko) <> Define.name d
            /\ Option.name (snd ko) <> Define.option_name d) opts ->
  (k, d) ∈ defs -> (k, d) ∈ snd (bind_options opts defs).
Proof.
  intros H. revert defs. induction H as [|[ko o] opts [H1 H2] _ IH];
    intros defs Hin; simpl; [assumption|].
  pose proof (bind_option_skips o defs k d H1 H2 Hin) as Hs.
  destruct (bind_option o defs) as [o' defs']. simpl in Hs.
  specialize (IH defs' Hs). now destruct (bind_options opts defs').
Qed.

Ltac find_part tac :=
  first [ apply contains_append_l; solve [tac]
        | apply contains_append_r; find_part tac ].

(** X28.  A define that no option claims reaches the output: when it is
    unused, no option has its name as define or its shell variable as
    name, and no option key matches its key in the second merge, it is
    still in [temp_defines] after [process_configure_ac]'s merges, still
    unused, and the top-level text holds its two [file(APPEND ...)] lines,
    outside every [if( OPTION )] block. *)
Theorem unclaimed_define_is_written (w : World) (g : Globals) (k : string)
    (d : Define.t)
    (Hdefine : (k, d) ∈ temp_defines g)
    (Hunused : Define.used d = 0)
    (Hoptions : Forall (fun ko : string * Option.t =>
                          Option.define (snd ko) <> Define.name d
                          /\ Option.name (snd ko) <> Define.option_name d
                          /\ fuzzy_match w k (fst ko) = false) (options g)) :
  (k, d) ∈ temp_defines (merge_defines w g)
  /\ unused_define_lines (k, d)
     = "file(APPEND ${CONFIG_H} " +:+ Py.dquote +:+ "/* "
       +:+ remove_garbage (Define.description d) +:+ " */" +:+ bsn
       +:+ Py.dquote +:+ ")" +:+ Py.nl
       +:+ "file(APPEND ${CONFIG_H} " +:+ Py.dquote +:+ "#define "
       +:+ k +:+ " " +:+ replace_quotes (remove_garbage (Define.value d)) +:+ " "
       +:+ bsn +:+ bsn +:+ " " +:+ Py.dquote +:+ ")" +:+ Py.nl
  /\ Py.contains
       (toplevel_body (options (merge_defines w g))
          (temp_defines (merge_defines w g)))
       (unused_define_lines (k, d)) = true.
Proof.
  assert (Hkept : (k, d) ∈ temp_defines (merge_defines w g)).
  { unfold merge_defines.
    assert (H1 : (k, d) ∈ snd (bind_options (options g) (temp_defines g))).
    { apply bind_options_skips; [|assumption].
      eapply Forall_impl; [exact Hoptions|]. intros ko (A & B & _). auto. }
    destruct (bind_options_frame (options g) (temp_defines g)) as [Hkeys _].
    destruct (bind_options (options g) (temp_defines g)) as [opts1 defs1].
    destruct (match_defines_spec w defs1 opts1) as [_ H2].
    destruct (match_defines w opts1 defs1) as [opts2 defs2].
    simpl in *. rewrite H2.
    assert (Hnone : existsb (fun ko : string * Option.t =>
                               fuzzy_match w k (fst ko)) opts1 = false).
    { clear -Hkeys Hoptions. induction Hkeys as [|x y a b [E _] _ IH];
        [reflexivity|].
      inversion Hoptions as [|? ? (_ & _ & Hx) Hrest]; subst.
      simpl. rewrite E, Hx. simpl. now apply IH. }
    apply list_elem_of_fmap. exists (k, d). split; [|assumption].
    simpl. now rewrite Hnone, andb_false_r. }
  split; [exact Hkept|]. split.
  - unfold unused_define_lines. now rewrite Hunused.
  - unfold toplevel_body. cbv zeta.
    find_part ltac:(eapply contains_concat_all;
                    [exact Hkept | apply contains_self]).
Qed.

Lemma unclaimed_define_is_written_witness :
  Py.contains
    (toplevel_body
       (options (merge_defines example_world
                   (set_temp_defines example_configured
                      [("VERSION", Define.mk "VERSION" "" "The version" "[1.0]" 0)])))
       (temp_defines (merge_defines example_world
                        (set_temp_defines example_configured
                           [("VERSION", Define.mk "VERSION" "" "The version" "[1.0]" 0)]))))
    (unused_define_lines
       ("VERSION", Define.mk "VERSION" "" "The version" "[1.0]" 0)) = true.
Proof.
  apply (unclaimed_define_is_written example_world
           (set_temp_defines example_configured
              [("VERSION", Define.mk "VERSION" "" "The version" "[1.0]" 0)])
           "VERSION" (Define.mk "VERSION" "" "The version" "[1.0]" 0)).
  - left.
  - reflexivity.
  - repeat constructor; discriminate.
Defined.

(** X29.  [filelist_to_string] works in ascending order of the names: the
    list it walks is a rearrangement of the file list in which every name
    is at most the ones after it, the text is the entries of that list one
    after the other, and the warnings printed are those of the files that
    are not on disk, in the same order, one for every occurrence. *)
Theorem filelist_to_string_ascending (w : World) (elements : list string)
    (source_directory : string) (spacecount : nat) :
  StronglySorted String.le (Py.sorted elements)
  /\ Py.sorted elements ≡ₚ elements
  /\ fst (filelist_to_string w elements source_directory spacecount)
     = Py.concat_all
         (map (fun file =>
                 if isfile w (source_directory +:+ "/" +:+ file)
                 then source_line spacecount file
                 else missing_line spacecount file)
            (Py.sorted elements))
  /\ snd (filelist_to_string w elements source_directory spacecount)
     = map (missing_file_warning source_directory)
         (List.filter
            (fun file => negb (isfile w (source_directory +:+ "/" +:+ file)))
            (Py.sorted elements)).
Proof.
  split; [apply StronglySorted_merge_sort; apply _|].
  split; [apply sorted_permutation|].
  unfold filelist_to_string. rewrite render_entries_eq. cbn [fst snd].
  split.
  - f_equal. apply map_ext. intros file. unfold file_entry.
    now destruct (isfile w _).
  - induction (Py.sorted elements) as [|file l IH]; [reflexivity|].
    simpl. unfold file_entry at 1.
    destruct (isfile w _); simpl; now rewrite IH.
Qed.

(** ** Quick mode *)

Lemma header_steps (w : World) (path : string) (headers : list string)
    (text : string) (moc_headers printed : list string) :
  fold_left (header_step w path) headers (text, moc_headers, printed)
  = (text +:+ source_lines
                (List.filter (fun fn => negb (fst (moc_header w (pjoin path fn))))
                   headers),
     moc_headers
     ++ List.filter (fun fn => fst (moc_header w (pjoin path fn))) headers,
     printed ++ map (fun fn => snd (moc_header w (pjoin path fn))) headers).
Proof.
  revert text moc_headers printed.
  induction headers as [|fn headers IH]; intros text moc_headers printed.
  - simpl. unfold source_lines. simpl. now rewrite append_nil_r, !app_nil_r.
  - cbn [fold_left]. unfold header_step at 2.
    cbn [List.filter map].
    destruct (fst (moc_header w (pjoin path fn))) eqn:E; cbn [negb].
    + rewrite IH, <- !app_assoc. reflexivity.
    + rewrite IH, <- !app_assoc. unfold source_lines. cbn [map Py.concat_all fold_right].
      now rewrite !append_assoc.
Qed.

Lemma filter_nonempty_existsb {A} (f : A -> bool) (l : list A) :
  match [] ++ List.filter f l with [] => false | _ => true end = existsb f l.
Proof.
  induction l as [|x l IH]; [reflexivity|]. simpl in *. now destruct (f x).
Qed.

Lemma drop_front_append (a b : string) :
  Py.drop_front (String.length a) (a +:+ b) = b.
Proof.
  unfold Py.drop_front. rewrite chars_append, <- length_chars, drop_app_length.
  apply text_chars.
Qed.

(** X30.  [create_cmakefile] lists every header once: under
    [${project}_HEADERS] when no line of the file is [Q_OBJECT], under
    [${project}_MOC_HEADERS] otherwise, both in the order given, after one
    check line printed per header.  It reports moc headers exactly when
    there is one (so never without reporting headers), and for a directory
    [<working_directory>/<rel>] it names the project after [<rel>] with
    every slash turned into an underscore. *)
Theorem create_cmakefile_lists (w : World)
    (working_directory rel : string) (cpps headers : list string)
    (module : string)
    (Hrel : rel <> EmptyString) :
  let path := working_directory +:+ "/" +:+ rel in
  let is_moc := fun fn => fst (moc_header w (pjoin path fn)) in
  let r := create_cmakefile w working_directory path cpps headers module in
  used_module (snd r) = Py.replace_char "/" "_" rel
  /\ mocs_found (snd r) = existsb is_moc headers
  /\ (mocs_found (snd r) = true -> headers_found (snd r) = true)
  /\ snd (fst r) = map (fun fn => snd (moc_header w (pjoin path fn))) headers
  /\ fst (fst r)
     = WriteFile (pjoin path "CMakeLists.txt")
         ("cmake_minimum_required(VERSION 2.8)" +:+ Py.nl
          +:+ "set (project " +:+ Py.replace_char "/" "_" rel +:+ ")"
          +:+ Py.nl +:+ Py.nl
          +:+ match cpps with
              | [] => EmptyString
              | _ => "set(${project}_SOURCES" +:+ Py.nl +:+ source_lines cpps
                     +:+ ")" +:+ Py.nl +:+ Py.nl
              end
          +:+ match headers with
              | [] => EmptyString
              | _ => "set(${project}_HEADERS" +:+ Py.nl
                     +:+ source_lines
                           (List.filter (fun fn => negb (is_moc fn)) headers)
                     +:+ ")" +:+ Py.nl +:+ Py.nl
              end
          +:+ match List.filter is_moc headers with
              | [] => EmptyString
              | moc_headers =>
                  "set(${project}_MOC_HEADERS" +:+ Py.nl
                  +:+ source_lines moc_headers +:+ ")" +:+ Py.nl +:+ Py.nl
              end).
Proof.
  intros path is_moc r.
  assert (Hmodule : path_module working_directory path
                    = Py.replace_char "/" "_" rel).
  { unfold path_module, path. cbv zeta. rewrite drop_front_append.
    assert (Hlen : (1 <? String.length ("/" +:+ rel)) = true).
    { destruct rel; [contradiction|]. reflexivity. }
    rewrite Hlen.
    change (Py.chars ("/" +:+ rel)) with ("/"%char :: Py.chars rel).
    cbn [andb]. rewrite bool_decide_eq_true_2 by reflexivity.
    change (Py.drop_front 1 ("/" +:+ rel)) with (Py.text (Py.chars rel)).
    now rewrite text_chars. }
  assert (Htruthy : Py.truthy (Py.replace_char "/" "_" rel) = true).
  { destruct rel as [|c rel]; [contradiction|].
    unfold Py.replace_char. change (Py.chars (String c rel)) with (c :: Py.chars rel).
    cbn [flat_map]. now destruct (decide (c = "/"%char)). }
  unfold r, create_cmakefile. cbv zeta. rewrite Hmodule, Htruthy.
  destruct headers as [|h headers].
  - cbn [fold_left existsb List.filter map fst snd used_module mocs_found headers_found].
    repeat split; try discriminate.
    f_equal. destruct cpps; now rewrite <- ?append_assoc, ?append_nil_r.
  - rewrite header_steps. fold is_moc.
    set (mocs := List.filter is_moc (h :: headers)).
    set (plain := List.filter (fun fn => negb (is_moc fn)) (h :: headers)).
    assert (Hmocs : match [] ++ mocs with [] => false | _ => true end
                    = existsb is_moc (h :: headers)).
    { unfold mocs. apply (filter_nonempty_existsb is_moc). }
    cbn [fst snd used_module mocs_found headers_found].
    split; [reflexivity|]. split; [exact Hmocs|]. split; [reflexivity|].
    split; [reflexivity|].
    f_equal. simpl app.
    destruct cpps; destruct mocs; now rewrite <- ?append_assoc, ?append_nil_r.
Qed.

Lemma create_cmakefile_lists_witness :
  used_module
    (snd (create_cmakefile example_world "." ("." +:+ "/" +:+ "src/sub")
            ["a.c"] ["a.h"] "sub"))
  = "src_sub".
Proof.
  destruct (create_cmakefile_lists example_world "." "src/sub" ["a.c"] ["a.h"]
              "sub") as [H _].
  - discriminate.
  - exact H.
Defined.
